(** * PK/PD simulator: the numerical engine of [simulator.tsx]

    The engine of [client/src/pages/simulator.tsx] is embedded over the
    numbers the program runs on: ECMAScript [number] is IEEE 754 binary64,
    which is Rocq's primitive [float].  Sums, products, quotients and
    comparisons are the kernel's own; [Math.floor], [%], [Math.round],
    [Math.min]/[Math.max], [toFixed] and [parseFloat] are written out on the
    sign/mantissa/exponent reading of a float.  [Math.exp], [Math.log] and
    [Math.pow] are implementation-approximated in ECMAScript, so the engine
    takes them as a parameter ([MathLib]).

    The engine itself is written once, over the class [Num] of the
    operations it applies to numbers.  [FloatNum] instantiates it with
    binary64, which is what the program executes; [Exact.RealNum]
    instantiates it with real-number arithmetic, and is used where a
    statement is about the mathematical value rather than its rounding.

    After the engine come the parts of the component around it: the
    handlers of the number inputs, the optimization panel
    ([validateOptimizationTargets], [runOptimization]) and the zoom of the
    concentration chart ([handleZoomMouseUp]). *)

From Stdlib Require Import ZArith NArith List String Bool Lia Permutation.
From Stdlib Require Import Floats.
From Stdlib Require Import Reals Lra.
From Stdlib Require DecimalString.
Import ListNotations.

Set Warnings "-inexact-float".

(* ================================================================= *)
(** ** ECMAScript numbers *)

Module JS.

Local Open Scope float_scope.

Definition NaN : float := nan.
Definition Infinity : float := infinity.

(** The Number nearest to the integer [z] (exact below 2^53). *)
Definition of_Z (z : Z) : float :=
  SF2Prim (binary_normalize prec emax z 0 false).

Definition of_nat (n : nat) : float := of_Z (Z.of_nat n).

(** The Number nearest to the rational [p / q], ties to even: the quotient
    is taken with at least 64 significant bits and a sticky bit, then rounded
    once. *)
Definition of_ratio (p : N) (q : positive) : float :=
  match p with
  | N0 => 0
  | Npos p' =>
      let k := Z.max 0 (64 + Z.log2 (Z.pos q) - Z.log2 (Z.pos p')) in
      let num := (Z.pos p' * 2 ^ k)%Z in
      let qt := (num / Z.pos q)%Z in
      let sticky := if (num mod Z.pos q =? 0)%Z then 0%Z else 1%Z in
      SF2Prim (binary_normalize prec emax (2 * qt + sticky) (- k - 1) false)
  end.

(** The integer value of a float that holds a non-negative integer, as an
    array index; [None] for anything else. *)
Definition to_index (x : float) : option nat :=
  match Prim2SF x with
  | S754_zero _ => Some O
  | S754_finite false m e =>
      if (0 <=? e)%Z then Some (Z.to_nat (Z.pos m * 2 ^ e))
      else if (Z.pos m mod 2 ^ (- e) =? 0)%Z
           then Some (Z.to_nat (Z.pos m / 2 ^ (- e)))
           else None
  | _ => None
  end.

(** On the sign/mantissa/exponent reading, a float is finite when it is a zero or has a mantissa. *)
Definition sf_finite (x : spec_float) : bool :=
  match x with
  | S754_zero _ | S754_finite _ _ _ => true
  | _ => false
  end.

(** [Math.floor]. *)
Definition Math_floor (x : float) : float :=
  match Prim2SF x with
  | S754_finite s m e =>
      if (0 <=? e)%Z then x
      else of_Z (Z.shiftr (if s then Z.neg m else Z.pos m) (- e))
  | _ => x
  end.

(** [Math.round]: the nearest integer, a tie going towards +Infinity. *)
Definition Math_round (x : float) : float :=
  match Prim2SF x with
  | S754_finite s m e =>
      if (0 <=? e)%Z then x
      else
        let v := if s then Z.neg m else Z.pos m in
        let n := Z.shiftr (2 * v + 2 ^ (- e)) (1 - e) in
        if (n =? 0)%Z then (if s then -0 else 0) else of_Z n
  | _ => x
  end.

(** The [%] operator (Number::remainder): exact, with the dividend's sign. *)
Definition rem (n d : float) : float :=
  match Prim2SF n, Prim2SF d with
  | S754_nan, _ => NaN
  | _, S754_nan => NaN
  | S754_infinity _, _ => NaN
  | _, S754_zero _ => NaN
  | _, S754_infinity _ => n
  | S754_zero _, _ => n
  | S754_finite sn mn en, S754_finite _ md ed =>
      let e := Z.min en ed in
      let a := (Z.pos mn * 2 ^ (en - e))%Z in
      let b := (Z.pos md * 2 ^ (ed - e))%Z in
      let r := (a mod b)%Z in
      if (r =? 0)%Z then (if sn then -0 else 0)
      else SF2Prim (binary_normalize prec emax (if sn then (- r)%Z else r) e false)
  end.

(** [Math.min] and [Math.max] of two arguments. *)
Definition Math_min (a b : float) : float :=
  if is_nan a || is_nan b then NaN
  else if a <? b then a
  else if b <? a then b
  else if get_sign a then a else b.

Definition Math_max (a b : float) : float :=
  if is_nan a || is_nan b then NaN
  else if a <? b then b
  else if b <? a then a
  else if get_sign a then b else a.

(** [Math.max(...xs)] and [Math.min(...xs)]. *)
Definition Math_max_list (xs : list float) : float :=
  fold_left Math_max xs neg_infinity.

Definition Math_min_list (xs : list float) : float :=
  fold_left Math_min xs infinity.

(** The string a [toFixed] call returns.  [Dec neg n f] is the decimal
    numeral of the integer [n] with the point before its last [f] digits and
    a leading minus sign when [neg]; [Str x] is [ToString x], which [toFixed]
    returns for NaN, the infinities and magnitudes from 1e21 on. *)
Inductive NumStr : Type :=
  | Dec (neg : bool) (n : N) (f : nat)
  | Str (x : float).

(** [x.toFixed(f)]: [n] is the integer nearest to [|x| * 10^f], the larger
    one on a tie. *)
Definition toFixed (f : nat) (x : float) : NumStr :=
  match Prim2SF x with
  | S754_nan => Str x
  | S754_infinity _ => Str x
  | S754_zero _ => Dec false 0 f
  | S754_finite s m e =>
      if 1e21 <=? abs x then Str x
      else
        let scaled := (Z.pos m * 10 ^ Z.of_nat f)%Z in
        let n := if (0 <=? e)%Z then (scaled * 2 ^ e)%Z
                 else Z.shiftr (2 * scaled + 2 ^ (- e)) (1 - e) in
        Dec s (Z.to_N n) f
  end.

(** [parseFloat] on a string made by [toFixed]. *)
Definition parseFloat (s : NumStr) : float :=
  match s with
  | Dec neg n f =>
      let v := of_ratio n (Z.to_pos (10 ^ Z.of_nat f)) in
      if neg then - v else v
  | Str x => x
  end.

(** The characters of a [toFixed] result that is a decimal numeral. *)
Definition render (s : NumStr) : option string :=
  match s with
  | Dec neg n f =>
      let q := (n / 10 ^ N.of_nat f)%N in
      let r := (n mod 10 ^ N.of_nat f)%N in
      let ds := DecimalString.NilZero.string_of_uint (N.to_uint r) in
      let pad := String.concat "" (repeat "0"%string (f - String.length ds)) in
      let frac := match f with O => ""%string | _ => ("." ++ pad ++ ds)%string end in
      Some ((if neg then "-" else "") ++
            DecimalString.NilZero.string_of_uint (N.to_uint q) ++ frac)%string
  | Str _ => None
  end.

End JS.

(* ================================================================= *)
(** ** The Math functions that ECMAScript leaves to the implementation *)

(** [Math.exp], [Math.log] and [Math.pow] return "implementation-approximated"
    values; the engine is parameterised by them. *)
Record MathLib : Type := {
  Math_exp : float -> float;
  Math_log : float -> float;
  Math_pow : float -> float -> float
}.

(** One implementation, used to execute the engine on concrete inputs.  The
    values ECMAScript fixes (NaN, zeros, infinities) are as specified there;
    the others are computed by range reduction and a truncated series. *)
Module RefMath.

Local Open Scope float_scope.

Definition ln2_hi : float := 0x1.62e42fee00000p-1.
Definition ln2_lo : float := 0x1.a39ef35793c76p-33.
Definition sqrt_half : float := 0x1.6a09e667f3bcdp-1.

(** The integer a finite float holds after truncation towards zero. *)
Definition trunc_Z (x : float) : Z :=
  match Prim2SF x with
  | S754_finite s m e =>
      let a := if (0 <=? e)%Z then (Z.pos m * 2 ^ e)%Z else Z.shiftr (Z.pos m) (- e) in
      if s then (- a)%Z else a
  | _ => 0%Z
  end.

Definition is_integer (x : float) : bool :=
  is_finite x && (JS.Math_floor x =? x).

Definition is_odd_integer (x : float) : bool :=
  is_integer x && Z.odd (trunc_Z x).

(** Horner evaluation of [sum_i c_i * z^i], coefficients from the highest. *)
Definition horner (cs : list float) (z : float) : float :=
  fold_left (fun acc c => acc * z + c) cs 0.

Definition exp_coeffs : list float :=
  map (fun n => 1 / JS.of_Z n)
      [6227020800; 479001600; 39916800; 3628800; 362880; 40320; 5040; 720;
       120; 24; 6; 2; 1; 1]%Z.

Definition exp (x : float) : float :=
  if is_nan x then JS.NaN
  else if 709.782712893384 <? x then infinity
  else if x <? -745.1332191019412 then 0
  else
    let k := JS.Math_round (x / 0x1.62e42fefa39efp-1) in
    let r := (x - k * ln2_hi) - k * ln2_lo in
    Z.ldexp (horner exp_coeffs r) (trunc_Z k).

Definition log_coeffs : list float :=
  map (fun n => 1 / JS.of_Z n) [25; 23; 21; 19; 17; 15; 13; 11; 9; 7; 5; 3; 1]%Z.

Definition log (x : float) : float :=
  if is_nan x then JS.NaN
  else if x <? 0 then JS.NaN
  else if x =? 0 then neg_infinity
  else if x =? infinity then infinity
  else
    let (m0, e0) := Z.frexp x in
    let (m, e) := if m0 <? sqrt_half then (m0 * 2, (e0 - 1)%Z) else (m0, e0) in
    let s := (m - 1) / (m + 1) in
    let ef := JS.of_Z e in
    ef * ln2_hi + (2 * s * horner log_coeffs (s * s) + ef * ln2_lo).

(** [b^n] for a natural [n], by squaring. *)
Fixpoint powi (b : float) (n : positive) : float :=
  match n with
  | xH => b
  | xO n' => let h := powi b n' in h * h
  | xI n' => let h := powi b n' in h * h * b
  end.

(** Number::exponentiate. *)
Definition pow (b e : float) : float :=
  if is_nan e then JS.NaN
  else if e =? 0 then 1
  else if is_nan b then JS.NaN
  else if b =? infinity then (if 0 <? e then infinity else 0)
  else if b =? neg_infinity then
    (if 0 <? e then (if is_odd_integer e then neg_infinity else infinity)
     else (if is_odd_integer e then -0 else 0))
  else if b =? 0 then
    (if get_sign b then
       (if 0 <? e then (if is_odd_integer e then -0 else 0)
        else (if is_odd_integer e then neg_infinity else infinity))
     else (if 0 <? e then 0 else infinity))
  else if e =? infinity then
    (if 1 <? abs b then infinity else if abs b =? 1 then JS.NaN else 0)
  else if e =? neg_infinity then
    (if 1 <? abs b then 0 else if abs b =? 1 then JS.NaN else infinity)
  else if (b <? 0) && negb (is_integer e) then JS.NaN
  else if is_integer e && (abs e <=? 1024) then
    match trunc_Z e with
    | Z.pos n => powi b n
    | Z.neg n => 1 / powi b n
    | Z0 => 1
    end
  else
    let v := exp (e * log (abs b)) in
    if (b <? 0) && is_odd_integer e then - v else v.

Definition lib : MathLib :=
  {| Math_exp := exp; Math_log := log; Math_pow := pow |}.

End RefMath.

(* ================================================================= *)
(** ** The arithmetic the engine uses *)

(** The engine is written once over the operations it applies to numbers.
    [FloatNum] reads them as binary64 (what the program executes);
    [Exact.RealNum] reads them as real-number arithmetic. *)
Class Num (num : Type) : Type := {
  n_of_nat : nat -> num;
  n_undef : num;                       (* reading an array past its end *)
  n_add : num -> num -> num;
  n_sub : num -> num -> num;
  n_mul : num -> num -> num;
  n_div : num -> num -> num;
  n_neg : num -> num;
  n_le : num -> num -> bool;           (* a <= b *)
  n_lt : num -> num -> bool;           (* a < b *)
  n_floor : num -> num;                (* Math.floor *)
  n_rem : num -> num -> num;           (* a % b *)
  n_min : num -> num -> num;           (* Math.min(a, b) *)
  n_exp : num -> num;                  (* Math.exp *)
  n_log : num -> num;                  (* Math.log *)
  n_pow : num -> num -> num;           (* Math.pow *)
  n_index : num -> option nat          (* a number used as an array index *)
}.

Declare Scope num_scope.
Delimit Scope num_scope with num.
Infix "+" := n_add : num_scope.
Infix "-" := n_sub : num_scope.
Infix "*" := n_mul : num_scope.
Infix "/" := n_div : num_scope.
Notation "- x" := (n_neg x) : num_scope.
Infix "<=?" := n_le (at level 70, no associativity) : num_scope.
Infix "<?" := n_lt (at level 70, no associativity) : num_scope.
Notation "a >=? b" := (n_le b a) (at level 70, no associativity) : num_scope.
Notation "a >? b" := (n_lt b a) (at level 70, no associativity) : num_scope.

#[export] Instance FloatNum (M : MathLib) : Num float := {
  n_of_nat := JS.of_nat;
  n_undef := JS.NaN;
  n_add := PrimFloat.add;
  n_sub := PrimFloat.sub;
  n_mul := PrimFloat.mul;
  n_div := PrimFloat.div;
  n_neg := PrimFloat.opp;
  n_le := PrimFloat.leb;
  n_lt := PrimFloat.ltb;
  n_floor := JS.Math_floor;
  n_rem := JS.rem;
  n_min := JS.Math_min;
  n_exp := Math_exp M;
  n_log := Math_log M;
  n_pow := Math_pow M;
  n_index := JS.to_index
}.

(** What running a piece of the program yields: a value, a [TypeError]
    (a property read on [undefined]), or no answer within the given number of
    loop iterations. *)
Inductive Outcome (A : Type) : Type :=
  | Done (a : A)
  | TypeError
  | OutOfFuel.
Arguments Done {A} a.
Arguments TypeError {A}.
Arguments OutOfFuel {A}.

(** [Array.prototype.push]. *)
Definition push {A : Type} (l : list A) (x : A) : list A := l ++ [x].

(** [Array.prototype.map] with the index passed to the callback. *)
Definition mapi {A B : Type} (f : A -> nat -> B) (l : list A) : list B :=
  map (fun p => f (snd p) (fst p)) (combine (seq 0 (List.length l)) l).

(* ================================================================= *)
(** ** The engine *)

Section Engine.

Context {num : Type} {N : Num num}.
Local Open Scope num_scope.

Record DrugParams : Type := {
  dosingInterval : num;
  infusionTime : num;
  halfLife : num;
  maxConcentration : num
}.

(** [InhibitorParams] has the fields of [DrugParams]. *)
Definition InhibitorParams : Type := DrugParams.

Record PDParams : Type := {
  log2MIC0 : num;
  imax : num;
  ic50 : num;
  hillCoeff : num
}.

Record SimParams : Type := {
  numCycles : nat;
  timeStep : num
}.

Record CycleResult : Type := {
  cycle : nat;
  c_drugAUC : num;
  c_inhibitorAUC : num;
  c_exposureRatio : num;
  c_percentTOverMIC : num;
  c_timePoints : list num;
  c_drugConcentrations : list num;
  c_inhibitorConcentrations : list num;
  c_micValues : list num
}.

Definition calculateDecayConstant (halfLife : num) : num :=
  n_log (n_of_nat 2) / halfLife.

Definition calculateMinConcentration
    (maxConc decayConstant dosingInterval infusionTime : num) : num :=
  maxConc * n_exp (- decayConstant * (dosingInterval - infusionTime)).

Definition concentrationDuringInfusion
    (t tCycleStart infusionTime minConc maxConc : num) : num :=
  minConc + (maxConc - minConc) * ((t - tCycleStart) / infusionTime).

Definition concentrationDuringDecay
    (t tInfusionEnd maxConc decayConstant : num) : num :=
  maxConc * n_exp (- decayConstant * (t - tInfusionEnd)).

Definition calculateLog2MIC (inhibitorConc log2MIC0 imax ic50 hillCoeff : num) : num :=
  let numerator := imax * n_pow inhibitorConc hillCoeff in
  let denominator := n_pow inhibitorConc hillCoeff + n_pow ic50 hillCoeff in
  log2MIC0 - (numerator / denominator).

(** The MIC of one sample: [Math.pow(2, log2MIC)]. *)
Definition dynamicMIC (pd : PDParams) (inhibitorConc : num) : num :=
  n_pow (n_of_nat 2)
        (calculateLog2MIC inhibitorConc (log2MIC0 pd) (imax pd) (ic50 pd) (hillCoeff pd)).

(** One turn of the loop of [calculateAUC], at index [i]. *)
Definition aucStep (timePoints concentrations : list num) (auc : num) (i : nat) : num :=
  let dt := nth i timePoints n_undef - nth (i - 1) timePoints n_undef in
  let avgConc :=
    (nth (i - 1) concentrations n_undef + nth i concentrations n_undef) / n_of_nat 2 in
  auc + avgConc * dt.

Definition calculateAUC (timePoints concentrations : list num) : num :=
  fold_left (aucStep timePoints concentrations)
            (seq 1 (List.length timePoints - 1)) (n_of_nat 0).

Definition validateDrugParams (p : DrugParams) : list string :=
  (if dosingInterval p <=? n_of_nat 0 then ["Dosing interval must be positive"%string] else []) ++
  (if infusionTime p <? n_of_nat 0 then ["Infusion time must be non-negative"%string] else []) ++
  (if infusionTime p >? dosingInterval p
   then ["Infusion time cannot exceed dosing interval"%string] else []) ++
  (if halfLife p <=? n_of_nat 0 then ["Half-life must be positive"%string] else []) ++
  (if maxConcentration p <=? n_of_nat 0 then ["Max concentration must be positive"%string] else []).

Definition validateInhibitorParams (p : InhibitorParams) : list string :=
  validateDrugParams p.

(** The guard at the head of [runSimulation]. *)
Definition validationFails (drug : DrugParams) (inhibitor : InhibitorParams)
    (sim : SimParams) : bool :=
  negb (Nat.eqb (List.length (validateDrugParams drug)) 0)
  || negb (Nat.eqb (List.length (validateInhibitorParams inhibitor)) 0)
  || (timeStep sim <=? n_of_nat 0).

(** The arrays the sampling loop of [runSimulation] fills. *)
Record LoopState : Type := {
  timePoints : list num;
  drugConcentrations : list num;
  inhibitorConcentrations : list num;
  micValues : list num;
  tOverMIC : list num;
  cycleData : list CycleResult
}.

Definition emptyCycle (c : nat) : CycleResult :=
  {| cycle := c + 1;
     c_timePoints := []; c_drugConcentrations := [];
     c_inhibitorConcentrations := []; c_micValues := [];
     c_drugAUC := n_of_nat 0; c_inhibitorAUC := n_of_nat 0;
     c_exposureRatio := n_of_nat 0; c_percentTOverMIC := n_of_nat 0 |}.

Definition initialLoopState (sim : SimParams) : LoopState :=
  {| timePoints := []; drugConcentrations := []; inhibitorConcentrations := [];
     micValues := []; tOverMIC := [];
     cycleData := map emptyCycle (seq 0 (numCycles sim)) |}.

(** The four pushes on [cycleData[cycleIndex]]. *)
Definition pushCycle (c : CycleResult) (timeInCycle drugConc inhibitorConc mic : num)
    : CycleResult :=
  {| cycle := cycle c;
     c_drugAUC := c_drugAUC c; c_inhibitorAUC := c_inhibitorAUC c;
     c_exposureRatio := c_exposureRatio c; c_percentTOverMIC := c_percentTOverMIC c;
     c_timePoints := push (c_timePoints c) timeInCycle;
     c_drugConcentrations := push (c_drugConcentrations c) drugConc;
     c_inhibitorConcentrations := push (c_inhibitorConcentrations c) inhibitorConc;
     c_micValues := push (c_micValues c) mic |}.

(** [xs[i] := f xs[i]]; [None] when [xs[i]] is [undefined]. *)
Fixpoint updateAt {A : Type} (f : A -> A) (i : nat) (xs : list A) : option (list A) :=
  match xs, i with
  | [], _ => None
  | x :: xs', O => Some (f x :: xs')
  | x :: xs', S j => option_map (cons x) (updateAt f j xs')
  end.

(** The concentration of one regimen at absolute time [t]: the two branches
    the loop body has, once for the drug and once for the inhibitor. *)
Definition regimenConcentration (p : DrugParams) (minConc k : num) (t : num) : num :=
  let currentCycle := n_floor (t / dosingInterval p) in
  let timeInCycle := n_rem t (dosingInterval p) in
  if timeInCycle <=? infusionTime p then
    concentrationDuringInfusion t (currentCycle * dosingInterval p)
      (infusionTime p) minConc (maxConcentration p)
  else
    let infusionEndTime := currentCycle * dosingInterval p + infusionTime p in
    concentrationDuringDecay t infusionEndTime (maxConcentration p) k.

Section Run.

Variables (drugParams : DrugParams) (inhibitorParams : InhibitorParams)
          (pdParams : PDParams) (simParams : SimParams).

Definition totalTime : num :=
  n_of_nat (numCycles simParams) * dosingInterval drugParams.

Definition kDrug : num := calculateDecayConstant (halfLife drugParams).
Definition kInhibitor : num := calculateDecayConstant (halfLife inhibitorParams).

Definition drugMinConc : num :=
  calculateMinConcentration (maxConcentration drugParams) kDrug
    (dosingInterval drugParams) (infusionTime drugParams).

Definition inhibitorMinConc : num :=
  calculateMinConcentration (maxConcentration inhibitorParams) kInhibitor
    (dosingInterval inhibitorParams) (infusionTime inhibitorParams).

(** The body of [for (let t = 0; t <= totalTime; t += timeStep)]. *)
Definition loopBody (t : num) (st : LoopState) : Outcome LoopState :=
  let currentCycle := n_floor (t / dosingInterval drugParams) in
  let timeInCycle := n_rem t (dosingInterval drugParams) in
  let drugConc := regimenConcentration drugParams drugMinConc kDrug t in
  let inhibitorConc := regimenConcentration inhibitorParams inhibitorMinConc kInhibitor t in
  let mic := dynamicMIC pdParams inhibitorConc in
  let isAboveMIC := if drugConc >=? mic then n_of_nat 1 else n_of_nat 0 in
  let pushed (cd : list CycleResult) :=
    {| timePoints := push (timePoints st) t;
       drugConcentrations := push (drugConcentrations st) drugConc;
       inhibitorConcentrations := push (inhibitorConcentrations st) inhibitorConc;
       micValues := push (micValues st) mic;
       tOverMIC := push (tOverMIC st) isAboveMIC;
       cycleData := cd |} in
  if currentCycle <? n_of_nat (numCycles simParams) then
    let cycleIndex :=
      n_min currentCycle (n_of_nat (numCycles simParams) - n_of_nat 1) in
    match n_index cycleIndex with
    | Some i =>
        match updateAt (fun c => pushCycle c timeInCycle drugConc inhibitorConc mic)
                       i (cycleData st) with
        | Some cd => Done (pushed cd)
        | None => TypeError
        end
    | None => TypeError
    end
  else Done (pushed (cycleData st)).

Fixpoint forLoop (fuel : nat) (t : num) (st : LoopState) : Outcome LoopState :=
  if t <=? totalTime then
    match fuel with
    | O => OutOfFuel
    | S fuel' =>
        match loopBody t st with
        | Done st' => forLoop fuel' (t + timeStep simParams) st'
        | TypeError => TypeError
        | OutOfFuel => OutOfFuel
        end
    end
  else Done st.

(** The values [t] takes in the loop header
    [for (let t = 0; t <= totalTime; t += timeStep)], started at [t]. *)
Fixpoint loopTimes (fuel : nat) (t : num) : option (list num) :=
  if t <=? totalTime then
    match fuel with
    | O => None
    | S fuel' => option_map (cons t) (loopTimes fuel' (t + timeStep simParams))
    end
  else Some [].

(** What the loop body computes from [t]. *)
Definition drugConcAt (t : num) : num :=
  regimenConcentration drugParams drugMinConc kDrug t.

Definition inhibitorConcAt (t : num) : num :=
  regimenConcentration inhibitorParams inhibitorMinConc kInhibitor t.

Definition micAt (t : num) : num := dynamicMIC pdParams (inhibitorConcAt t).

Definition isAboveMICAt (t : num) : num :=
  if drugConcAt t >=? micAt t then n_of_nat 1 else n_of_nat 0.

(** The test [currentCycle < simParams.numCycles] of the loop body. *)
Definition aggregated (t : num) : bool :=
  n_floor (t / dosingInterval drugParams) <? n_of_nat (numCycles simParams).

(** [cycle.timePoints.reduce((sum, _, index) => sum + (... >= ... ? 1 : 0), 0)]. *)
Definition cycleTimeAboveMIC (c : CycleResult) : num :=
  fold_left
    (fun sum index =>
       sum + (if nth index (c_drugConcentrations c) n_undef
                 >=? nth index (c_micValues c) n_undef
              then n_of_nat 1 else n_of_nat 0))
    (seq 0 (List.length (c_timePoints c))) (n_of_nat 0).

(** The callback of [cycleData.map]. *)
Definition cycleMetrics (c : CycleResult) : CycleResult :=
  let cycleDrugAUC := calculateAUC (c_timePoints c) (c_drugConcentrations c) in
  let cycleInhibitorAUC := calculateAUC (c_timePoints c) (c_inhibitorConcentrations c) in
  let cycleExposureRatio := cycleDrugAUC / cycleInhibitorAUC in
  let cyclePercentTOverMIC :=
    (cycleTimeAboveMIC c / n_of_nat (List.length (c_timePoints c))) * n_of_nat 100 in
  {| cycle := cycle c;
     c_timePoints := c_timePoints c;
     c_drugConcentrations := c_drugConcentrations c;
     c_inhibitorConcentrations := c_inhibitorConcentrations c;
     c_micValues := c_micValues c;
     c_drugAUC := cycleDrugAUC;
     c_inhibitorAUC := cycleInhibitorAUC;
     c_exposureRatio := cycleExposureRatio;
     c_percentTOverMIC := cyclePercentTOverMIC |}.

(** Everything [runSimulation] has computed when it reaches the formatting
    of the results. *)
Record Computed : Type := {
  arrays : LoopState;
  cycleResultsData : list CycleResult;
  drugAUC : num;
  inhibitorAUC : num;
  exposureRatio : num;
  inverseExposureRatio : num;
  percentTOverMIC : num
}.

Definition summarize (st : LoopState) : Computed :=
  let drugAUC := calculateAUC (timePoints st) (drugConcentrations st) in
  let inhibitorAUC := calculateAUC (timePoints st) (inhibitorConcentrations st) in
  let totalTimePoints := List.length (tOverMIC st) in
  let timeAboveMIC := fold_left n_add (tOverMIC st) (n_of_nat 0) in
  {| arrays := st;
     cycleResultsData := map cycleMetrics (cycleData st);
     drugAUC := drugAUC;
     inhibitorAUC := inhibitorAUC;
     exposureRatio := drugAUC / inhibitorAUC;
     inverseExposureRatio := inhibitorAUC / drugAUC;
     percentTOverMIC := (timeAboveMIC / n_of_nat totalTimePoints) * n_of_nat 100 |}.

(** The computation of [runSimulation] after the validation guard. *)
Definition compute (fuel : nat) : Outcome Computed :=
  match forLoop fuel (n_of_nat 0) (initialLoopState simParams) with
  | Done st => Done (summarize st)
  | TypeError => TypeError
  | OutOfFuel => OutOfFuel
  end.

End Run.

End Engine.

Arguments DrugParams num : clear implicits.
Arguments PDParams num : clear implicits.
Arguments SimParams num : clear implicits.
Arguments CycleResult num : clear implicits.
Arguments LoopState num : clear implicits.
Arguments Computed num : clear implicits.

(* ================================================================= *)
(** ** The component state, [runSimulation] and [calculateOptimization] *)

(** This part formats numbers and is specific to binary64. *)
Section Component.

Variable M : MathLib.
Local Open Scope float_scope.

(** [interface Results]: every field is the string of a [toFixed] call. *)
Record Results : Type := {
  r_drugAUC : JS.NumStr;
  r_inhibitorAUC : JS.NumStr;
  r_exposureRatio : JS.NumStr;
  r_inverseExposureRatio : JS.NumStr;
  r_percentTOverMIC : JS.NumStr;
  r_drugMinConc : JS.NumStr;
  r_inhibitorMinConc : JS.NumStr;
  r_kDrug : JS.NumStr;
  r_kInhibitor : JS.NumStr
}.

Record ChartDataPoint : Type := {
  time : float;
  drug : float;
  inhibitor : float;
  mic : float
}.

(** The React state and refs that [runSimulation] reads and writes. *)
Record State : Type := {
  results : option Results;
  chartData : list ChartDataPoint;
  cycleResults : list (CycleResult float);
  drugValidationErrors : list string;
  inhibitorValidationErrors : list string;
  isSimulating : bool;
  latestRunId : float;
  isMounted : bool
}.

Definition initialState : State :=
  {| results := None; chartData := []; cycleResults := [];
     drugValidationErrors := []; inhibitorValidationErrors := [];
     isSimulating := false; latestRunId := 0; isMounted := true |}.

Definition round2 (x : float) : float := JS.parseFloat (JS.toFixed 2 x).
Definition round3 (x : float) : float := JS.parseFloat (JS.toFixed 3 x).

(** [timePoints.map((time, index) => ({...}))]. *)
Definition formatChartData (st : LoopState float) : list ChartDataPoint :=
  mapi (fun time index =>
          {| time := round2 time;
             drug := round3 (nth index (drugConcentrations st) JS.NaN);
             inhibitor := round3 (nth index (inhibitorConcentrations st) JS.NaN);
             mic := round3 (nth index (micValues st) JS.NaN) |})
       (timePoints st).

Definition formatResults (drugParams inhibitorParams : DrugParams float)
    (c : Computed float) : Results :=
  {| r_drugAUC := JS.toFixed 2 (drugAUC c);
     r_inhibitorAUC := JS.toFixed 2 (inhibitorAUC c);
     r_exposureRatio := JS.toFixed 3 (exposureRatio c);
     r_inverseExposureRatio := JS.toFixed 3 (inverseExposureRatio c);
     r_percentTOverMIC := JS.toFixed 1 (percentTOverMIC c);
     r_drugMinConc := JS.toFixed 2 (drugMinConc (N := FloatNum M) drugParams);
     r_inhibitorMinConc := JS.toFixed 2 (inhibitorMinConc (N := FloatNum M) inhibitorParams);
     r_kDrug := JS.toFixed 4 (kDrug (N := FloatNum M) drugParams);
     r_kInhibitor := JS.toFixed 4 (kInhibitor (N := FloatNum M) inhibitorParams) |}.

(** [runSimulation].  [runId] is the value of
    [performance.now() + Math.random()] for this call. *)
Definition runSimulation (drugParams inhibitorParams : DrugParams float)
    (pdParams : PDParams float) (simParams : SimParams float)
    (runId : float) (fuel : nat) (st : State) : Outcome State :=
  let drugErrors := validateDrugParams (N := FloatNum M) drugParams in
  let inhibitorErrors := validateInhibitorParams (N := FloatNum M) inhibitorParams in
  if validationFails (N := FloatNum M) drugParams inhibitorParams simParams then
    Done {| results := results st; chartData := chartData st;
            cycleResults := cycleResults st;
            drugValidationErrors := drugErrors;
            inhibitorValidationErrors := inhibitorErrors;
            isSimulating := false;
            latestRunId := latestRunId st; isMounted := isMounted st |}
  else
    match compute (N := FloatNum M) drugParams inhibitorParams pdParams simParams fuel with
    | Done c =>
        if negb (runId =? runId) || negb (isMounted st) then
          Done {| results := results st; chartData := chartData st;
                  cycleResults := cycleResults st;
                  drugValidationErrors := drugErrors;
                  inhibitorValidationErrors := inhibitorErrors;
                  isSimulating := true;
                  latestRunId := runId; isMounted := isMounted st |}
        else
          Done {| results := Some (formatResults drugParams inhibitorParams c);
                  chartData := formatChartData (arrays c);
                  cycleResults := cycleResultsData c;
                  drugValidationErrors := drugErrors;
                  inhibitorValidationErrors := inhibitorErrors;
                  isSimulating := false;
                  latestRunId := runId; isMounted := isMounted st |}
    | TypeError => TypeError
    | OutOfFuel => OutOfFuel
    end.

Record OptimizationTarget : Type := {
  minEffectiveConc : float;
  maxSafeConc : float;
  targetTOverMIC : float
}.

Record OptimizationRecommendation : Type := {
  recommendedInterval : float;
  recommendedDose : float;
  expectedTOverMIC : float;
  expectedPeakConc : float;
  expectedTroughConc : float;
  riskAssessment : string;
  confidence : float
}.

(** The four variables [calculateOptimization] assigns while it decides. *)
Record Plan : Type := {
  p_recommendedInterval : float;
  p_recommendedDose : float;
  p_confidence : float;
  p_riskAssessment : string
}.

(** The branches on [tOverMICRatio]. *)
Definition ratioRules (currentInterval currentDose currentTOverMIC peakConc troughConc : float)
    (target : OptimizationTarget) : Plan :=
  let tOverMICRatio := currentTOverMIC / targetTOverMIC target in
  if tOverMICRatio <? 0.8 then
    if peakConc <? maxSafeConc target * 0.8 then
      {| p_recommendedInterval := currentInterval;
         p_recommendedDose := JS.Math_min (currentDose * 1.3) (maxSafeConc target * 0.9);
         p_confidence := 0.85;
         p_riskAssessment := "Low" |}
    else
      {| p_recommendedInterval := JS.Math_max (currentInterval * 0.75) 6;
         p_recommendedDose := currentDose;
         p_confidence := 0.75;
         p_riskAssessment := "Moderate" |}
  else if 1.2 <? tOverMICRatio then
    if minEffectiveConc target * 1.5 <? troughConc then
      {| p_recommendedInterval := JS.Math_min (currentInterval * 1.25) 48;
         p_recommendedDose := currentDose;
         p_confidence := 0.8;
         p_riskAssessment := "Low" |}
    else if maxSafeConc target * 0.9 <? peakConc then
      {| p_recommendedInterval := currentInterval;
         p_recommendedDose := JS.Math_max (currentDose * 0.85) (minEffectiveConc target * 2);
         p_confidence := 0.8;
         p_riskAssessment := "Low" |}
    else
      {| p_recommendedInterval := currentInterval; p_recommendedDose := currentDose;
         p_confidence := 0.7; p_riskAssessment := "Moderate" |}
  else
    {| p_recommendedInterval := currentInterval; p_recommendedDose := currentDose;
       p_confidence := 0.7; p_riskAssessment := "Moderate" |}.

(** The two [if]s under "Safety checks". *)
Definition safetyChecks (peakConc troughConc : float) (target : OptimizationTarget)
    (p : Plan) : Plan :=
  let p1 :=
    if troughConc <? minEffectiveConc target then
      {| p_recommendedInterval := p_recommendedInterval p;
         p_recommendedDose := p_recommendedDose p;
         p_confidence := 0.6;
         p_riskAssessment := "High - Risk of subtherapeutic levels" |}
    else p in
  if maxSafeConc target <? peakConc then
    {| p_recommendedInterval := p_recommendedInterval p1;
       p_recommendedDose := p_recommendedDose p1;
       p_confidence := 0.5;
       p_riskAssessment := "High - Risk of toxicity" |}
  else p1.

(** The estimate of T>MIC: 11 points [i/10 * recommendedInterval]. *)
Definition timeAboveMicEstimate (drugParams : DrugParams float)
    (recommendedInterval expectedPeakConc expectedTroughConc kDrug avgMIC : float) : float :=
  fold_left
    (fun count i =>
       let timeInInterval := (JS.of_nat i / 10) * recommendedInterval in
       let estimatedConc :=
         if timeInInterval <=? infusionTime drugParams then
           expectedTroughConc
           + (expectedPeakConc - expectedTroughConc)
             * (timeInInterval / infusionTime drugParams)
         else
           expectedPeakConc
           * Math_exp M (- kDrug * (timeInInterval - infusionTime drugParams)) in
       if avgMIC <=? estimatedConc then count + 1 else count)
    (seq 0 11) 0.

(** [calculateOptimization]; [None] is its [null]. *)
Definition calculateOptimization (st : State) (drugParams : DrugParams float)
    (optimizationTarget : OptimizationTarget) : option OptimizationRecommendation :=
  match results st with
  | None => None
  | Some res =>
      if Nat.eqb (List.length (chartData st)) 0 then None
      else
        let currentInterval := dosingInterval drugParams in
        let currentDose := maxConcentration drugParams in
        let currentTOverMIC := JS.parseFloat (r_percentTOverMIC res) in
        let peakConc := JS.Math_max_list (map drug (chartData st)) in
        let troughConc := JS.Math_min_list (map drug (chartData st)) in
        let plan :=
          safetyChecks peakConc troughConc optimizationTarget
            (ratioRules currentInterval currentDose currentTOverMIC peakConc troughConc
               optimizationTarget) in
        let recommendedInterval := p_recommendedInterval plan in
        let recommendedDose := p_recommendedDose plan in
        let kDrug := Math_log M 2 / halfLife drugParams in
        let expectedPeakConc := recommendedDose in
        let expectedTroughConc :=
          expectedPeakConc
          * Math_exp M (- kDrug * (recommendedInterval - infusionTime drugParams)) in
        let avgMIC :=
          if Nat.ltb 0 (List.length (chartData st)) then
            fold_left (fun sum d => sum + mic d) (chartData st) 0
            / JS.of_nat (List.length (chartData st))
          else 4 in
        let count :=
          timeAboveMicEstimate drugParams recommendedInterval expectedPeakConc
            expectedTroughConc kDrug avgMIC in
        let expectedTOverMIC := JS.Math_min ((count / (10 + 1)) * 100) 100 in
        Some {| recommendedInterval := JS.Math_round (recommendedInterval * 10) / 10;
                recommendedDose := JS.Math_round (recommendedDose * 10) / 10;
                expectedTOverMIC := JS.Math_round (expectedTOverMIC * 10) / 10;
                expectedPeakConc := JS.Math_round (expectedPeakConc * 100) / 100;
                expectedTroughConc := JS.Math_round (expectedTroughConc * 100) / 100;
                riskAssessment := p_riskAssessment plan;
                confidence := JS.Math_round (p_confidence plan * 100) / 100 |}
  end.

End Component.

(* ================================================================= *)
(** ** The exact reading *)

Module Exact.

Local Open Scope R_scope.

Definition leb (a b : R) : bool := if Rle_dec a b then true else false.
Definition ltb (a b : R) : bool := if Rlt_dec a b then true else false.

Definition floor (x : R) : R := IZR (Int_part x).

(** Truncation towards zero, for [%]. *)
Definition trunc (x : R) : Z :=
  if Rle_dec 0 x then Int_part x else (- Int_part (- x))%Z.

Definition rem (a b : R) : R := a - b * IZR (trunc (a / b)).

(** [Math.pow] on the arguments where its value is a real number: a
    positive base, or base 0 with a non-negative exponent. *)
Definition pow (b e : R) : R :=
  if Req_EM_T b 0 then (if Rlt_dec 0 e then 0 else 1) else Rpower b e.

Definition index (x : R) : option nat :=
  let z := Int_part x in
  if Req_EM_T (IZR z) x then (if (0 <=? z)%Z then Some (Z.to_nat z) else None)
  else None.

(** Real arithmetic has no NaN and no infinities: a quotient by zero and an
    array read past the end are 0 here, so this reading says nothing where
    the program divides by zero. *)
#[export] Instance RealNum : Num R := {
  n_of_nat := INR;
  n_undef := 0;
  n_add := Rplus;
  n_sub := Rminus;
  n_mul := Rmult;
  n_div := Rdiv;
  n_neg := Ropp;
  n_le := leb;
  n_lt := ltb;
  n_floor := floor;
  n_rem := rem;
  n_min := Rmin;
  n_exp := exp;
  n_log := ln;
  n_pow := pow;
  n_index := index
}.

(** The number of values [0, timeStep, 2*timeStep, ...] that do not exceed
    [totalTime]. *)
Definition sampleCount (drugParams : DrugParams R) (simParams : SimParams R) : nat :=
  S (Z.to_nat (Int_part (totalTime drugParams simParams / timeStep simParams))).

End Exact.


(* ================================================================= *)
(** ** The validator's rules as the specification words them *)

Section Rules.

Local Open Scope float_scope.

(** The five rules of a dosing regimen, each stated positively
    ("dosingInterval > 0, else ..."), and the messages of those that do not
    hold.  [validateDrugParams] is compared with this list. *)
Definition ruleViolations (p : DrugParams float) : list string :=
  (if 0 <? dosingInterval p then [] else ["Dosing interval must be positive"%string]) ++
  (if 0 <=? infusionTime p then [] else ["Infusion time must be non-negative"%string]) ++
  (if infusionTime p <=? dosingInterval p then []
   else ["Infusion time cannot exceed dosing interval"%string]) ++
  (if 0 <? halfLife p then [] else ["Half-life must be positive"%string]) ++
  (if 0 <? maxConcentration p then [] else ["Max concentration must be positive"%string]).

(** All five rules hold. *)
Definition rulesHold (p : DrugParams float) : bool :=
  (0 <? dosingInterval p) && (0 <=? infusionTime p)
  && (infusionTime p <=? dosingInterval p)
  && (0 <? halfLife p) && (0 <? maxConcentration p).

(** No field of the regimen is NaN. *)
Definition numeric (p : DrugParams float) : bool :=
  negb (is_nan (dosingInterval p)) && negb (is_nan (infusionTime p))
  && negb (is_nan (halfLife p)) && negb (is_nan (maxConcentration p)).

(** A percentage. *)
Definition inPercentRange (x : float) : bool := (0 <=? x) && (x <=? 100).

End Rules.

(* ================================================================= *)
(** ** Inputs used to execute the engine *)

Module Ex.

Local Open Scope float_scope.

(** The defaults of the component, and the end-to-end scenario. *)
Definition drug : DrugParams float :=
  {| dosingInterval := 24; infusionTime := 1; halfLife := 6; maxConcentration := 100 |}.

Definition inhibitor : DrugParams float :=
  {| dosingInterval := 24; infusionTime := 1; halfLife := 8; maxConcentration := 50 |}.

Definition pd : PDParams float :=
  {| log2MIC0 := 2; imax := 3; ic50 := 25; hillCoeff := 1 |}.

Definition sim : SimParams float := {| numCycles := 3; timeStep := 0.1 |}.

(** One cycle sampled every 7.125 h. *)
Definition simCoarse : SimParams float := {| numCycles := 1; timeStep := 7.125 |}.

(** A time step longer than the dosing interval. *)
Definition simSparse : SimParams float := {| numCycles := 3; timeStep := 50 |}.

(** Three cycles of 0.7 h sampled every 0.7 h. *)
Definition drugShort : DrugParams float :=
  {| dosingInterval := 0.7; infusionTime := 0.1; halfLife := 6; maxConcentration := 100 |}.

Definition simShort : SimParams float := {| numCycles := 3; timeStep := 0.7 |}.

(** Six cycles of 4.61 h sampled every 13.83 h. *)
Definition drugOdd : DrugParams float :=
  {| dosingInterval := 4.61; infusionTime := 1; halfLife := 6; maxConcentration := 100 |}.

Definition simOdd : SimParams float := {| numCycles := 6; timeStep := 13.83 |}.

(** A regimen whose dosing interval is NaN. *)
Definition drugNaN : DrugParams float :=
  {| dosingInterval := nan; infusionTime := 1; halfLife := 6; maxConcentration := 100 |}.

(** A regimen that violates three rules. *)
Definition drugBad : DrugParams float :=
  {| dosingInterval := 0; infusionTime := 1; halfLife := 6; maxConcentration := -5 |}.

(** A bolus: infusion time 0. *)
Definition drugBolus : DrugParams float :=
  {| dosingInterval := 24; infusionTime := 0; halfLife := 6; maxConcentration := 100 |}.

Definition simBolus : SimParams float := {| numCycles := 2; timeStep := 8 |}.

(** A low dose, for the optimizer. *)
Definition drugLow : DrugParams float :=
  {| dosingInterval := 24.05; infusionTime := 1; halfLife := 6; maxConcentration := 10.01 |}.

Definition simLow : SimParams float := {| numCycles := 1; timeStep := 4 |}.

Definition targetLow : OptimizationTarget :=
  {| minEffectiveConc := 0.1; maxSafeConc := 50; targetTOverMIC := 100 |}.

(** The default optimization target of the component. *)
Definition target : OptimizationTarget :=
  {| minEffectiveConc := 2; maxSafeConc := 50; targetTOverMIC := 80 |}.

(** Three cycles sampled every hour. *)
Definition simHourly : SimParams float := {| numCycles := 3; timeStep := 1 |}.

(** A target whose minimum effective concentration is above the trough of
    the default regimen (7.015) and whose maximum safe concentration is below
    its peak (100). *)
Definition targetTight : OptimizationTarget :=
  {| minEffectiveConc := 10; maxSafeConc := 50; targetTOverMIC := 80 |}.

(** The component state after [runSimulation] on a drug regimen and a
    simulation setting (default inhibitor and PD parameters), started from
    the initial state. *)
Definition stateAfter (drugParams : DrugParams float) (simParams : SimParams float)
    : State :=
  match runSimulation RefMath.lib drugParams inhibitor pd simParams 1 1000 initialState with
  | Done st => st
  | _ => initialState
  end.

(** The exact reading of the end-to-end scenario. *)
Definition drugR : DrugParams R :=
  {| dosingInterval := 24%R; infusionTime := 1%R; halfLife := 6%R;
     maxConcentration := 100%R |}.

Definition simR : SimParams R := {| numCycles := 3; timeStep := (1 / 10)%R |}.

Definition pdR : PDParams R :=
  {| log2MIC0 := 2%R; imax := 3%R; ic50 := 25%R; hillCoeff := 1%R |}.

(** A steep Hill curve: [ic50 = 0.1] and Hill coefficient 400, both within
    the ranges the inputs allow. *)
Definition pdSteep : PDParams float :=
  {| log2MIC0 := 2%float; imax := 3%float; ic50 := 0.1%float; hillCoeff := 400%float |}.

End Ex.

(* ================================================================= *)
(** ** Which cycle a sample goes to *)

Section Buckets.

Context {num : Type} {N : Num num}.
Variables (drugParams inhibitorParams : DrugParams num)
          (pdParams : PDParams num) (simParams : SimParams num).
Local Open Scope num_scope.

(** The index of the element of [cycleData] to which the loop body pushes
    the sample at [t], if it pushes it to one. *)
Definition cycleIndexAt (t : num) : option nat :=
  if aggregated drugParams simParams t then
    n_index (n_min (n_floor (t / dosingInterval drugParams))
                   (n_of_nat (numCycles simParams) - n_of_nat 1))
  else None.

(** The loop body pushes the sample at [t] to [cycleData[j]]. *)
Definition inCycle (j : nat) (t : num) : bool :=
  match cycleIndexAt t with
  | Some i => Nat.eqb i j
  | None => false
  end.

(** [r'] is [r] after the pushes of the samples of [g] that go to cycle
    [j]. *)
Definition extends (j : nat) (g : list num) (r r' : CycleResult num) : Prop :=
  cycle r' = cycle r
  /\ c_timePoints r'
     = c_timePoints r
       ++ map (fun t => n_rem t (dosingInterval drugParams)) (filter (inCycle j) g)
  /\ c_drugConcentrations r'
     = c_drugConcentrations r ++ map (drugConcAt drugParams) (filter (inCycle j) g)
  /\ c_inhibitorConcentrations r'
     = c_inhibitorConcentrations r
       ++ map (inhibitorConcAt inhibitorParams) (filter (inCycle j) g)
  /\ c_micValues r'
     = c_micValues r ++ map (micAt inhibitorParams pdParams) (filter (inCycle j) g).

End Buckets.

Arguments cycleIndexAt {num N} drugParams simParams t.
Arguments inCycle {num N} drugParams simParams j t.

(* ================================================================= *)
(** ** The rest of the component: inputs, optimization panel, chart zoom *)

Section Panel.

Variable M : MathLib.
Local Open Scope float_scope.

(** What an [onChange] handler of a regimen field reads: [e.target.value]
    is the empty string, or a text that [Number] converts to [n] (NaN for a
    text that is no numeral). *)
Inductive InputValue : Type :=
  | Empty
  | Entered (n : float).

(** [e.target.value === "" ? old : f(Number(e.target.value))]. *)
Definition onChange (f : float -> float) (old : float) (v : InputValue) : float :=
  match v with
  | Empty => old
  | Entered n => f n
  end.

(** The handlers of the four inputs of a regimen; the drug's and the
    inhibitor's are the same. *)
Definition onChange_dosingInterval (p : DrugParams float) (v : InputValue)
    : DrugParams float :=
  {| dosingInterval := onChange (JS.Math_max 0.1) (dosingInterval p) v;
     infusionTime := infusionTime p; halfLife := halfLife p;
     maxConcentration := maxConcentration p |}.

Definition onChange_infusionTime (p : DrugParams float) (v : InputValue)
    : DrugParams float :=
  {| dosingInterval := dosingInterval p;
     infusionTime := onChange (JS.Math_max 0.1) (infusionTime p) v;
     halfLife := halfLife p; maxConcentration := maxConcentration p |}.

Definition onChange_halfLife (p : DrugParams float) (v : InputValue)
    : DrugParams float :=
  {| dosingInterval := dosingInterval p; infusionTime := infusionTime p;
     halfLife := onChange (JS.Math_max 0.1) (halfLife p) v;
     maxConcentration := maxConcentration p |}.

Definition onChange_maxConcentration (p : DrugParams float) (v : InputValue)
    : DrugParams float :=
  {| dosingInterval := dosingInterval p; infusionTime := infusionTime p;
     halfLife := halfLife p;
     maxConcentration := onChange (JS.Math_max 0.1) (maxConcentration p) v |}.

(** The inputs of a regimen, as events. *)
Inductive RegimenEdit : Type :=
  | EditDosingInterval (v : InputValue)
  | EditInfusionTime (v : InputValue)
  | EditHalfLife (v : InputValue)
  | EditMaxConcentration (v : InputValue).

Definition edit (p : DrugParams float) (e : RegimenEdit) : DrugParams float :=
  match e with
  | EditDosingInterval v => onChange_dosingInterval p v
  | EditInfusionTime v => onChange_infusionTime p v
  | EditHalfLife v => onChange_halfLife p v
  | EditMaxConcentration v => onChange_maxConcentration p v
  end.

(** The text of the event, when it is a numeral that is not NaN. *)
Definition editValue (e : RegimenEdit) : InputValue :=
  match e with
  | EditDosingInterval v | EditInfusionTime v
  | EditHalfLife v | EditMaxConcentration v => v
  end.

Definition entersNaN (e : RegimenEdit) : bool :=
  match editValue e with
  | Empty => false
  | Entered n => is_nan n
  end.

(** [x || d] on numbers: [d] when [x] is 0, -0 or NaN. *)
Definition orElse (x d : float) : float :=
  if is_nan x || (x =? 0) then d else x.

(** The state of the optimization panel. *)
Record Panel : Type := {
  optimizationTarget : OptimizationTarget;
  optimizationErrors : list string;
  optimizationResult : option OptimizationRecommendation;
  showOptimization : bool
}.

(** [if (optimizationErrors.length > 0) setOptimizationErrors([])]. *)
Definition clearErrors (errors : list string) : list string :=
  if Nat.ltb 0 (List.length errors) then [] else errors.

(** The handlers of the three target inputs; [n] is
    [Number(e.target.value)]. *)
Definition onChange_minEffectiveConc (p : Panel) (n : float) : Panel :=
  let newValue := JS.Math_max 0.1 (orElse n 0.1) in
  {| optimizationTarget :=
       {| minEffectiveConc := newValue;
          maxSafeConc := maxSafeConc (optimizationTarget p);
          targetTOverMIC := targetTOverMIC (optimizationTarget p) |};
     optimizationErrors := clearErrors (optimizationErrors p);
     optimizationResult := optimizationResult p;
     showOptimization := showOptimization p |}.

Definition onChange_maxSafeConc (p : Panel) (n : float) : Panel :=
  let newValue := JS.Math_max 0.1 (orElse n 0.1) in
  {| optimizationTarget :=
       {| minEffectiveConc := minEffectiveConc (optimizationTarget p);
          maxSafeConc := newValue;
          targetTOverMIC := targetTOverMIC (optimizationTarget p) |};
     optimizationErrors := clearErrors (optimizationErrors p);
     optimizationResult := optimizationResult p;
     showOptimization := showOptimization p |}.

Definition onChange_targetTOverMIC (p : Panel) (n : float) : Panel :=
  let newValue := JS.Math_max 1 (JS.Math_min 100 (orElse n 1)) in
  {| optimizationTarget :=
       {| minEffectiveConc := minEffectiveConc (optimizationTarget p);
          maxSafeConc := maxSafeConc (optimizationTarget p);
          targetTOverMIC := newValue |};
     optimizationErrors := clearErrors (optimizationErrors p);
     optimizationResult := optimizationResult p;
     showOptimization := showOptimization p |}.

Definition validateOptimizationTargets (target : OptimizationTarget) : list string :=
  (if minEffectiveConc target <=? 0
   then ["Minimum effective concentration must be positive"%string] else []) ++
  (if maxSafeConc target <=? 0
   then ["Maximum safe concentration must be positive"%string] else []) ++
  (if maxSafeConc target <=? minEffectiveConc target
   then ["Minimum effective concentration must be less than maximum safe concentration"%string]
   else []) ++
  (if (targetTOverMIC target <=? 0) || (100 <? targetTOverMIC target)
   then ["Target T>MIC must be between 1% and 100%"%string] else []).

(** [runOptimization]. *)
Definition runOptimization (st : State) (drugParams inhibitorParams : DrugParams float)
    (p : Panel) : Panel :=
  let drugErrors := validateDrugParams (N := FloatNum M) drugParams in
  let inhibitorErrors := validateInhibitorParams (N := FloatNum M) inhibitorParams in
  if Nat.ltb 0 (List.length drugErrors) || Nat.ltb 0 (List.length inhibitorErrors) then
    {| optimizationTarget := optimizationTarget p;
       optimizationErrors :=
         map (fun err => ("Drug: " ++ err)%string) drugErrors
         ++ map (fun err => ("Inhibitor: " ++ err)%string) inhibitorErrors;
       optimizationResult := optimizationResult p;
       showOptimization := showOptimization p |}
  else
    let validationErrors := validateOptimizationTargets (optimizationTarget p) in
    if Nat.ltb 0 (List.length validationErrors) then
      {| optimizationTarget := optimizationTarget p;
         optimizationErrors := validationErrors;
         optimizationResult := optimizationResult p;
         showOptimization := showOptimization p |}
    else
      {| optimizationTarget := optimizationTarget p;
         optimizationErrors := [];
         optimizationResult := calculateOptimization M st drugParams (optimizationTarget p);
         showOptimization := true |}.

(** The zoom of the concentration chart.  [zoomDomain] is [None] for the
    empty object. *)
Record ZoomDomain : Type := {
  z_left : float;
  z_right : float;
  z_top : float;
  z_bottom : float
}.

Record Zoom : Type := {
  zoomDomain : option ZoomDomain;
  refAreaLeft : option float;
  refAreaRight : option float;
  isZooming : bool
}.

(** The end of every path through [handleZoomMouseUp]. *)
Definition released (d : option ZoomDomain) : Zoom :=
  {| zoomDomain := d; refAreaLeft := None; refAreaRight := None; isZooming := false |}.

Definition handleZoomMouseUp (chartData : list ChartDataPoint) (z : Zoom) : Zoom :=
  match refAreaLeft z, refAreaRight z with
  | Some l, Some r =>
      let left := JS.Math_min l r in
      let right := JS.Math_max l r in
      if right - left <? 0.5 then released (zoomDomain z)
      else
        let dataInRange :=
          filter (fun d => (left <=? time d) && (time d <=? right)) chartData in
        if Nat.ltb 0 (List.length dataInRange) then
          let allValues := flat_map (fun d => [drug d; inhibitor d; mic d]) dataInRange in
          let top := JS.Math_max_list allValues * 1.1 in
          let bottom := JS.Math_min_list allValues * 0.9 in
          released (Some {| z_left := left; z_right := right;
                            z_top := top; z_bottom := bottom |})
        else released (zoomDomain z)
  | _, _ => released (zoomDomain z)
  end.

End Panel.

(* ================================================================= *)
(** ** What the input handlers maintain *)

Section Clamps.

Local Open Scope float_scope.

(** Every field of a regimen is at least 0.1, the floor its handlers put
    under an entered number. *)
Definition clamped (p : DrugParams float) : bool :=
  (0.1 <=? dosingInterval p) && (0.1 <=? infusionTime p)
  && (0.1 <=? halfLife p) && (0.1 <=? maxConcentration p).

(** The inputs of the optimization target, as events. *)
Inductive TargetEdit : Type :=
  | EditMinEffectiveConc (n : float)
  | EditMaxSafeConc (n : float)
  | EditTargetTOverMIC (n : float).

Definition editTarget (p : Panel) (e : TargetEdit) : Panel :=
  match e with
  | EditMinEffectiveConc n => onChange_minEffectiveConc p n
  | EditMaxSafeConc n => onChange_maxSafeConc p n
  | EditTargetTOverMIC n => onChange_targetTOverMIC p n
  end.

(** The ranges the target handlers clamp to. *)
Definition targetClamped (t : OptimizationTarget) : bool :=
  (0.1 <=? minEffectiveConc t) && (0.1 <=? maxSafeConc t)
  && (1 <=? targetTOverMIC t) && (targetTOverMIC t <=? 100).

(** The sign bit of a float on its sign/mantissa/exponent reading. *)
Definition sf_sign (x : spec_float) : bool :=
  match x with
  | S754_zero s | S754_infinity s | S754_finite s _ _ => s
  | S754_nan => false
  end.

(** The optimization panel as the component mounts it. *)
Definition initialPanel : Panel :=
  {| optimizationTarget :=
       {| minEffectiveConc := 2; maxSafeConc := 50; targetTOverMIC := 80 |};
     optimizationErrors := []; optimizationResult := None;
     showOptimization := false |}.

End Clamps.

(* ================================================================= *)
(** ** Facts about binary64 *)

Section Binary64.

Local Open Scope float_scope.

Lemma Prim2SF_zero : Prim2SF 0 = S754_zero false.
Proof. reflexivity. Qed.

Lemma Prim2SF_infinity : Prim2SF infinity = S754_infinity false.
Proof. reflexivity. Qed.

Lemma Prim2SF_nan : Prim2SF nan = S754_nan.
Proof. reflexivity. Qed.

Lemma SFcompare_refl (x : spec_float) :
  x <> S754_nan -> SFcompare x x = Some Eq.
Proof.
  destruct x as [s | s | | s m e]; simpl; intros Hx; try congruence.
  - now destruct s.
  - destruct s; rewrite Z.compare_refl, Pos.compare_cont_refl; reflexivity.
Qed.

Lemma SFcompare_antisym (x y : spec_float) :
  SFcompare y x = option_map CompOpp (SFcompare x y).
Proof.
  destruct x as [sx | sx | | sx mx ex], y as [sy | sy | | sy my ey]; simpl;
    try reflexivity;
    try (destruct sx; reflexivity); try (destruct sy; reflexivity);
    try (destruct sx, sy; reflexivity).
  destruct sx, sy; try reflexivity;
    rewrite (Z.compare_antisym ex ey);
    destruct (ex ?= ey)%Z; simpl; try reflexivity;
    rewrite (Pos.compare_cont_antisym mx my Eq); simpl;
    destruct (Pos.compare_cont Eq mx my); reflexivity.
Qed.

Lemma is_nan_spec (x : float) :
  is_nan x = match Prim2SF x with S754_nan => true | _ => false end.
Proof.
  unfold is_nan. rewrite eqb_spec. unfold SFeqb.
  destruct (Prim2SF x) as [s | s | | s m e] eqn:E.
  - reflexivity.
  - rewrite SFcompare_refl by discriminate. reflexivity.
  - reflexivity.
  - rewrite SFcompare_refl by discriminate. reflexivity.
Qed.

Lemma is_nan_nan (x : float) : is_nan x = true -> x = nan.
Proof.
  rewrite is_nan_spec. intros H. apply Prim2SF_inj. rewrite Prim2SF_nan.
  destruct (Prim2SF x); congruence.
Qed.

Lemma is_finite_spec (x : float) : is_finite x = JS.sf_finite (Prim2SF x).
Proof.
  unfold is_finite, is_infinity. rewrite is_nan_spec, eqb_spec, abs_spec.
  rewrite Prim2SF_infinity. unfold SFeqb.
  destruct (Prim2SF x) as [s | s | | s m e]; reflexivity.
Qed.

(** On numbers other than NaN, [a < b] is the negation of [b <= a]. *)
Lemma ltb_negb_leb (a b : float) :
  is_nan a = false -> is_nan b = false -> (a <? b) = negb (b <=? a).
Proof.
  rewrite !is_nan_spec, ltb_spec, leb_spec. unfold SFltb, SFleb.
  rewrite (SFcompare_antisym (Prim2SF a) (Prim2SF b)).
  intros Ha Hb.
  destruct (SFcompare (Prim2SF a) (Prim2SF b)) as [[ | | ] | ] eqn:E; try reflexivity.
  destruct (Prim2SF a), (Prim2SF b); simpl in E; congruence.
Qed.

Lemma leb_negb_ltb (a b : float) :
  is_nan a = false -> is_nan b = false -> (a <=? b) = negb (b <? a).
Proof.
  intros Ha Hb. rewrite (ltb_negb_leb b a Hb Ha). now rewrite negb_involutive.
Qed.

(** A comparison with NaN is false. *)
Lemma leb_nan_l (x : float) : (nan <=? x) = false.
Proof. rewrite leb_spec, Prim2SF_nan. reflexivity. Qed.

Lemma leb_nan_r (x : float) : (x <=? nan) = false.
Proof. rewrite leb_spec, Prim2SF_nan. unfold SFleb. now destruct (Prim2SF x). Qed.

Lemma ltb_nan_l (x : float) : (nan <? x) = false.
Proof. rewrite ltb_spec, Prim2SF_nan. reflexivity. Qed.

Lemma ltb_nan_r (x : float) : (x <? nan) = false.
Proof. rewrite ltb_spec, Prim2SF_nan. unfold SFltb. now destruct (Prim2SF x). Qed.

Lemma ltb_true_not_nan_l (a b : float) : (a <? b) = true -> is_nan a = false.
Proof.
  rewrite ltb_spec, is_nan_spec. unfold SFltb.
  destruct (Prim2SF a); try reflexivity. simpl. discriminate.
Qed.

Lemma ltb_true_not_nan_r (a b : float) : (a <? b) = true -> is_nan b = false.
Proof.
  rewrite ltb_spec, is_nan_spec. unfold SFltb.
  destruct (Prim2SF b); try reflexivity. destruct (Prim2SF a); simpl; discriminate.
Qed.

(** Nothing is above +Infinity. *)
Lemma ltb_infinity_l (x : float) : (infinity <? x) = false.
Proof.
  rewrite ltb_spec, Prim2SF_infinity. unfold SFltb.
  destruct (Prim2SF x) as [s | s | | s m e]; simpl; try reflexivity.
  now destruct s.
Qed.

(** A quotient by zero is never finite. *)
Lemma div_zero_not_finite (x : float) : is_finite (x / 0) = false.
Proof.
  rewrite is_finite_spec, div_spec, Prim2SF_zero.
  destruct (Prim2SF x); reflexivity.
Qed.

Lemma mul_not_finite_r (a b : float) :
  is_finite b = false -> is_finite (a * b) = false.
Proof.
  rewrite !is_finite_spec, mul_spec.
  destruct (Prim2SF a), (Prim2SF b); simpl; congruence.
Qed.

Lemma add_not_finite_r (a b : float) :
  is_finite b = false -> is_finite (a + b) = false.
Proof.
  rewrite !is_finite_spec, add_spec.
  destruct (Prim2SF a) as [sa | sa | | sa ma ea], (Prim2SF b) as [sb | sb | | sb mb eb];
    simpl; try congruence; destruct sa, sb; reflexivity.
Qed.

End Binary64.

(* ================================================================= *)
(** ** The sampling loop, for any arithmetic *)

Section LoopFacts.

Context {num : Type} {N : Num num}.
Variables (drugParams inhibitorParams : DrugParams num)
          (pdParams : PDParams num) (simParams : SimParams num).

Local Abbreviation body := (loopBody drugParams inhibitorParams pdParams simParams).
Local Abbreviation loop := (forLoop drugParams inhibitorParams pdParams simParams).
Local Abbreviation times := (loopTimes drugParams simParams).
Local Abbreviation agg := (aggregated drugParams simParams).
Local Abbreviation timeInCycle := (fun t => n_rem t (dosingInterval drugParams)).

Lemma updateAt_length {A : Type} (f : A -> A) (i : nat) (xs ys : list A) :
  updateAt f i xs = Some ys -> List.length ys = List.length xs.
Proof.
  revert i ys. induction xs as [ | x xs IH]; intros [ | i] ys H; simpl in H;
    try discriminate.
  - now inversion H.
  - destruct (updateAt f i xs) as [zs | ] eqn:E; simpl in H; inversion H; subst.
    simpl. f_equal. now apply (IH i).
Qed.

Lemma updateAt_Some {A : Type} (f : A -> A) (i : nat) (xs : list A) :
  i < List.length xs -> exists ys, updateAt f i xs = Some ys.
Proof.
  revert i. induction xs as [ | x xs IH]; intros [ | i] H; simpl in *; try lia.
  - eexists; reflexivity.
  - destruct (IH i) as [ys E]; [lia | ]. rewrite E. eexists; reflexivity.
Qed.

Lemma updateAt_pushCycle_perm (a b c d : num) (i : nat) (cd cd' : list (CycleResult num)) :
  updateAt (fun r => pushCycle r a b c d) i cd = Some cd' ->
  Permutation (List.concat (map c_timePoints cd')) (List.concat (map c_timePoints cd) ++ [a]).
Proof.
  revert i cd'. induction cd as [ | r cd IH]; intros [ | i] cd' H; simpl in H;
    try discriminate.
  - inversion H; subst. simpl. unfold push.
    rewrite <- !app_assoc.
    apply Permutation_app_head. apply Permutation_app_comm.
  - destruct (updateAt _ i cd) as [zs | ] eqn:E; simpl in H; inversion H; subst.
    simpl. rewrite <- app_assoc. apply Permutation_app_head. now apply (IH i).
Qed.

(** What one turn of the loop does to the arrays. *)
Lemma loopBody_Done (t : num) (st st' : LoopState num) :
  body t st = Done st' ->
  timePoints st' = push (timePoints st) t
  /\ drugConcentrations st' =
     push (drugConcentrations st) (drugConcAt drugParams t)
  /\ inhibitorConcentrations st' =
     push (inhibitorConcentrations st) (inhibitorConcAt inhibitorParams t)
  /\ micValues st' = push (micValues st) (micAt inhibitorParams pdParams t)
  /\ tOverMIC st' =
     push (tOverMIC st) (isAboveMICAt drugParams inhibitorParams pdParams t)
  /\ List.length (cycleData st') = List.length (cycleData st)
  /\ Permutation (List.concat (map c_timePoints (cycleData st')))
       (List.concat (map c_timePoints (cycleData st))
        ++ (if agg t then [timeInCycle t] else [])).
Proof.
  unfold loopBody, aggregated. intros H.
  destruct (n_lt _ _).
  - destruct (n_index _) as [i | ]; [ | discriminate].
    destruct (updateAt _ i (cycleData st)) as [cd | ] eqn:E; [ | discriminate].
    inversion H; subst; clear H. simpl.
    repeat split; try reflexivity.
    + now apply updateAt_length in E.
    + now apply updateAt_pushCycle_perm in E.
  - inversion H; subst; clear H. simpl. rewrite app_nil_r.
    repeat split; reflexivity.
Qed.

Lemma forLoop_Done (fuel : nat) : forall (t : num) (st st' : LoopState num),
  loop fuel t st = Done st' ->
  exists g,
    times fuel t = Some g
    /\ timePoints st' = timePoints st ++ g
    /\ drugConcentrations st' =
       drugConcentrations st ++ map (drugConcAt drugParams) g
    /\ inhibitorConcentrations st' =
       inhibitorConcentrations st ++ map (inhibitorConcAt inhibitorParams) g
    /\ micValues st' = micValues st ++ map (micAt inhibitorParams pdParams) g
    /\ tOverMIC st' =
       tOverMIC st ++ map (isAboveMICAt drugParams inhibitorParams pdParams) g
    /\ List.length (cycleData st') = List.length (cycleData st)
    /\ Permutation (List.concat (map c_timePoints (cycleData st')))
         (List.concat (map c_timePoints (cycleData st)) ++ map timeInCycle (filter agg g)).
Proof.
  induction fuel as [ | fuel IH]; intros t st st' H; simpl in H |- *.
  - destruct (n_le t _); [discriminate | ].
    inversion H; subst. exists []. simpl. rewrite !app_nil_r.
    repeat split; reflexivity.
  - destruct (n_le t _).
    + destruct (body t st) as [st1 | | ] eqn:E; try discriminate.
      apply loopBody_Done in E.
      destruct E as (E1 & E2 & E3 & E4 & E5 & E6 & E7).
      apply IH in H. destruct H as (g & Hg & H1 & H2 & H3 & H4 & H5 & H6 & H7).
      exists (t :: g). rewrite Hg. simpl.
      rewrite H1, H2, H3, H4, H5, H6, E1, E2, E3, E4, E5, E6. unfold push.
      rewrite <- !app_assoc. simpl.
      repeat split; try reflexivity.
      rewrite H7. rewrite E7.
      destruct (agg t); simpl.
      * rewrite <- app_assoc. reflexivity.
      * rewrite app_nil_r. reflexivity.
    + inversion H; subst. exists []. simpl. rewrite !app_nil_r.
      repeat split; reflexivity.
Qed.

Lemma forLoop_unfold (fuel : nat) (t : num) (st : LoopState num) :
  loop fuel t st
  = if n_le t (totalTime drugParams simParams) then
      match fuel with
      | O => OutOfFuel
      | S fuel' =>
          match body t st with
          | Done st' => loop fuel' (n_add t (timeStep simParams)) st'
          | TypeError => TypeError
          | OutOfFuel => OutOfFuel
          end
      end
    else Done st.
Proof. destruct fuel; reflexivity. Qed.

Lemma initial_cycleData_length :
  List.length (cycleData (initialLoopState simParams)) = numCycles simParams.
Proof. simpl. now rewrite length_map, length_seq. Qed.

End LoopFacts.

(* ================================================================= *)
(** ** The engine in exact arithmetic *)

Section ExactFacts.

Import Exact.
Local Open Scope R_scope.

Lemma leb_true (a b : R) : leb a b = true <-> a <= b.
Proof. unfold leb. destruct (Rle_dec a b); split; intros; try easy. Qed.

Lemma ltb_true (a b : R) : ltb a b = true <-> a < b.
Proof. unfold ltb. destruct (Rlt_dec a b); split; intros; try easy. Qed.

Lemma ltb_false (a b : R) : ltb a b = false <-> b <= a.
Proof.
  unfold ltb. destruct (Rlt_dec a b); split; intros; try easy; lra.
Qed.

Lemma div_nonneg (a b : R) : 0 <= a -> 0 < b -> 0 <= a / b.
Proof.
  intros Ha Hb. apply Rmult_le_pos; [exact Ha | ].
  apply Rlt_le, Rinv_0_lt_compat; exact Hb.
Qed.

Lemma Int_part_nonneg (x : R) : 0 <= x -> (0 <= Int_part x)%Z.
Proof.
  intros Hx. destruct (base_Int_part x) as [_ H].
  apply Z.lt_succ_r. apply lt_IZR. rewrite succ_IZR. lra.
Qed.

Lemma Int_part_IZR (z : Z) : Int_part (IZR z) = z.
Proof. symmetry. apply Int_part_spec. lra. Qed.

(** An integer is at most the floor of [x] exactly when it is at most [x]. *)
Lemma IZR_le_floor (z : Z) (x : R) : IZR z <= IZR (Int_part x) <-> IZR z <= x.
Proof.
  destruct (base_Int_part x) as [H1 H2]. split; intros H.
  - lra.
  - apply IZR_le. apply Z.lt_succ_r. apply lt_IZR. rewrite succ_IZR. lra.
Qed.

Lemma index_IZR (z : Z) : (0 <= z)%Z -> index (IZR z) = Some (Z.to_nat z).
Proof.
  intros Hz. unfold index. rewrite Int_part_IZR.
  destruct (Req_EM_T (IZR z) (IZR z)) as [_ | Hne]; [ | congruence].
  apply Z.leb_le in Hz. now rewrite Hz.
Qed.

Section ExactRun.

Variables (drugParams inhibitorParams : DrugParams R)
          (pdParams : PDParams R) (simParams : SimParams R).

Local Abbreviation di := (dosingInterval drugParams).
Local Abbreviation ts := (timeStep simParams).
Local Abbreviation T := (totalTime (N := RealNum) drugParams simParams).
Local Abbreviation n := (numCycles simParams).
Local Abbreviation count := (sampleCount drugParams simParams).

Hypothesis di_pos : 0 < di.
Hypothesis ts_pos : 0 < ts.

Lemma T_nonneg : 0 <= T.
Proof.
  unfold totalTime. simpl. apply Rmult_le_pos; [apply pos_INR | lra].
Qed.

Lemma below_count (j : nat) : (j < count)%nat -> INR j * ts <= T.
Proof.
  unfold sampleCount. intros Hj.
  pose proof (div_nonneg T ts T_nonneg ts_pos) as Hq.
  pose proof (Int_part_nonneg _ Hq) as Hz.
  destruct (base_Int_part (T / ts)) as [H1 _].
  assert (Hj' : INR j <= IZR (Int_part (T / ts))).
  { rewrite INR_IZR_INZ. apply IZR_le. lia. }
  assert (H : INR j <= T / ts) by lra.
  apply (Rmult_le_compat_r ts) in H; [ | lra].
  unfold Rdiv in H. rewrite Rmult_assoc, Rinv_l, Rmult_1_r in H; lra.
Qed.

Lemma at_count : T < INR count * ts.
Proof.
  unfold sampleCount.
  pose proof (div_nonneg T ts T_nonneg ts_pos) as Hq.
  pose proof (Int_part_nonneg _ Hq) as Hz.
  destruct (base_Int_part (T / ts)) as [_ H2].
  rewrite S_INR, INR_IZR_INZ, Z2Nat.id by exact Hz.
  assert (H : T / ts < IZR (Int_part (T / ts)) + 1) by lra.
  apply (Rmult_lt_compat_r ts) in H; [ | lra].
  unfold Rdiv in H. rewrite Rmult_assoc, Rinv_l, Rmult_1_r in H; lra.
Qed.

Lemma loopTimes_unfold (fuel : nat) (t : R) :
  loopTimes (N := RealNum) drugParams simParams fuel t
  = if leb t T then
      match fuel with
      | O => None
      | S fuel' =>
          option_map (cons t)
            (loopTimes (N := RealNum) drugParams simParams fuel' (t + ts))
      end
    else Some [].
Proof. destruct fuel; reflexivity. Qed.

(** The values of [t] are the multiples of the time step up to
    [totalTime]. *)
Lemma loopTimes_exact_from (k : nat) : forall (j fuel : nat),
  (j + k = count)%nat -> (k <= fuel)%nat ->
  loopTimes (N := RealNum) drugParams simParams fuel (INR j * ts)
  = Some (map (fun i => INR i * ts) (seq j k)).
Proof.
  induction k as [ | k IH]; intros j fuel Hjk Hfuel; rewrite loopTimes_unfold.
  - destruct (leb (INR j * ts) T) eqn:E; [ | reflexivity].
    apply leb_true in E. pose proof at_count as H.
    rewrite <- Hjk, Nat.add_0_r in H. lra.
  - destruct (leb (INR j * ts) T) eqn:E.
    + destruct fuel as [ | fuel]; [lia | ].
      replace (INR j * ts + ts) with (INR (S j) * ts) by (rewrite S_INR; ring).
      rewrite (IH (S j) fuel) by lia. reflexivity.
    + assert (H : INR j * ts <= T) by (apply below_count; lia).
      apply leb_true in H. congruence.
Qed.

Lemma loopTimes_exact (fuel : nat) :
  (count <= fuel)%nat ->
  loopTimes (N := RealNum) drugParams simParams fuel (n_of_nat 0)
  = Some (map (fun i => INR i * ts) (seq 0 count)).
Proof.
  intros Hfuel.
  rewrite <- (loopTimes_exact_from count 0%nat fuel) by lia.
  f_equal. simpl. ring.
Qed.

(** In exact arithmetic only the sample at [t = totalTime] fails the test
    [currentCycle < numCycles]. *)
Lemma aggregated_exact (t : R) :
  0 <= t <= T ->
  aggregated (N := RealNum) drugParams simParams t = false <-> t = T.
Proof.
  intros [Ht0 HtT]. unfold aggregated. simpl. unfold floor.
  rewrite ltb_false. rewrite INR_IZR_INZ, IZR_le_floor.
  unfold totalTime in *. simpl in *. rewrite INR_IZR_INZ in *.
  split; intros H.
  - apply (Rmult_le_compat_r di) in H; [ | lra].
    unfold Rdiv in H. rewrite Rmult_assoc, Rinv_l, Rmult_1_r in H; lra.
  - subst t. unfold Rdiv. rewrite Rmult_assoc, Rinv_r, Rmult_1_r; lra.
Qed.

(** In exact arithmetic the loop body never reads [cycleData] out of range. *)
Lemma loopBody_exact_Done (t : R) (st : LoopState R) :
  0 <= t -> List.length (cycleData st) = n ->
  exists st',
    loopBody (N := RealNum) drugParams inhibitorParams pdParams simParams t st
    = Done st'.
Proof.
  intros Ht Hlen. unfold loopBody.
  destruct (n_lt _ _) eqn:E; [ | eexists; reflexivity].
  simpl in E. apply ltb_true in E. unfold floor in E.
  pose proof (Int_part_nonneg _ (div_nonneg t di Ht di_pos)) as Hz.
  set (z := Int_part (t / di)) in *.
  assert (Hzn : (z < Z.of_nat n)%Z).
  { apply lt_IZR. rewrite <- INR_IZR_INZ. exact E. }
  assert (Hmin : @n_min R RealNum (n_floor (t / di)%num) (n_of_nat n - n_of_nat 1)%num
                 = IZR z).
  { simpl. unfold floor. fold z. apply Rmin_left.
    rewrite INR_IZR_INZ.
    replace (IZR (Z.of_nat n) - 1) with (IZR (Z.of_nat n - 1))
      by (rewrite minus_IZR; reflexivity).
    apply IZR_le. lia. }
  rewrite Hmin. simpl n_index. rewrite index_IZR by exact Hz.
  match goal with
  | |- context [updateAt ?f ?i ?xs] =>
      destruct (updateAt_Some f i xs) as [cd Hcd]; [lia | rewrite Hcd]
  end.
  eexists; reflexivity.
Qed.

Lemma forLoop_exact_from (k : nat) : forall (j fuel : nat) (st : LoopState R),
  (j + k = count)%nat -> (k <= fuel)%nat ->
  List.length (cycleData st) = n ->
  exists st',
    forLoop (N := RealNum) drugParams inhibitorParams pdParams simParams fuel
      (INR j * ts) st = Done st'.
Proof.
  induction k as [ | k IH]; intros j fuel st Hjk Hfuel Hlen; rewrite forLoop_unfold.
  - destruct (n_le (INR j * ts) T) eqn:E; [ | eexists; reflexivity].
    apply leb_true in E. pose proof at_count as H.
    rewrite <- Hjk, Nat.add_0_r in H. lra.
  - destruct (n_le (INR j * ts) T) eqn:E.
    + destruct fuel as [ | fuel]; [lia | ].
      destruct (loopBody_exact_Done (INR j * ts) st) as [st1 H1]; [ | exact Hlen | ].
      { apply Rmult_le_pos; [apply pos_INR | lra]. }
      rewrite H1. simpl n_add.
      replace (INR j * ts + ts) with (INR (S j) * ts) by (rewrite S_INR; ring).
      apply (IH (S j) fuel st1); try lia.
      apply loopBody_Done in H1. destruct H1 as (_ & _ & _ & _ & _ & H6 & _).
      congruence.
    + assert (H : INR j * ts <= T) by (apply below_count; lia).
      apply leb_true in H.
      assert (E' : leb (INR j * ts) T = false) by exact E. congruence.
Qed.

(** In exact arithmetic a run completes once the fuel covers its samples. *)
Lemma compute_exact_Done (fuel : nat) :
  (count <= fuel)%nat ->
  exists c,
    compute (N := RealNum) drugParams inhibitorParams pdParams simParams fuel = Done c
    /\ timePoints (arrays c) = map (fun i => INR i * ts) (seq 0 count).
Proof.
  intros Hfuel. unfold compute.
  destruct (forLoop_exact_from count 0%nat fuel (initialLoopState simParams))
    as [st Hst]; try lia.
  { apply initial_cycleData_length. }
  replace (INR 0 * ts) with (@n_of_nat R RealNum 0) in Hst by (simpl; ring).
  rewrite Hst. eexists; split; [reflexivity | ].
  apply forLoop_Done in Hst. destruct Hst as (g & Hg & H1 & _).
  rewrite (loopTimes_exact fuel Hfuel) in Hg.
  inversion Hg; subst g. simpl. exact H1.
Qed.

End ExactRun.

Section ExactPure.

(** The trapezoid sum of a constant series telescopes. *)
Lemma auc_constant_prefix (tp : list R) (c : R) (k : nat) :
  (k < List.length tp)%nat ->
  fold_left (aucStep (N := RealNum) tp (repeat c (List.length tp))) (seq 1 k) 0
  = c * (nth k tp 0 - nth 0 tp 0).
Proof.
  induction k as [ | k IH]; intros Hk.
  - simpl. ring.
  - rewrite seq_S, fold_left_app, IH by lia. simpl fold_left.
    unfold aucStep. simpl n_add. simpl n_sub. simpl n_mul. simpl n_div. simpl n_undef.
    simpl n_of_nat.
    rewrite Nat.sub_0_r, !nth_repeat_lt by lia. field.
Qed.

Lemma calculateAUC_constant (tp : list R) (c : R) :
  calculateAUC (N := RealNum) tp (repeat c (List.length tp))
  = c * (last tp 0 - hd 0 tp).
Proof.
  unfold calculateAUC. destruct tp as [ | t0 tp'].
  - simpl. ring.
  - change (n_of_nat 0) with 0.
    rewrite auc_constant_prefix by (simpl; lia).
    f_equal. f_equal.
    replace (List.length (t0 :: tp') - 1)%nat with (List.length tp') by (simpl; lia).
    clear. revert t0. induction tp' as [ | t1 tp IH]; intros t0; [reflexivity | ].
    simpl in *. rewrite IH. reflexivity.
Qed.

Lemma pow_pos_base (b e : R) : 0 < b -> pow b e = Rpower b e.
Proof. intros Hb. unfold pow. destruct (Req_EM_T b 0); [lra | reflexivity]. Qed.

Lemma pow_zero_base (e : R) : 0 < e -> pow 0 e = 0.
Proof.
  intros He. unfold pow. destruct (Req_EM_T 0 0); [ | congruence].
  destruct (Rlt_dec 0 e); [reflexivity | contradiction].
Qed.

Lemma pow_nonneg (b e : R) : 0 <= b -> 0 < e -> 0 <= pow b e.
Proof.
  intros Hb He. destruct (Req_EM_T b 0) as [-> | Hne].
  - rewrite pow_zero_base by exact He. lra.
  - rewrite pow_pos_base by lra. unfold Rpower. apply Rlt_le, exp_pos.
Qed.

Lemma pow_mono_base (b1 b2 e : R) :
  0 < e -> 0 <= b1 <= b2 -> pow b1 e <= pow b2 e.
Proof.
  intros He [H1 H2]. destruct (Req_EM_T b1 0) as [-> | Hne].
  - rewrite pow_zero_base by exact He. apply pow_nonneg; lra.
  - rewrite !pow_pos_base by lra. apply Rle_Rpower_l; lra.
Qed.

Lemma pow_pos (b e : R) : 0 < b -> 0 < pow b e.
Proof. intros Hb. rewrite pow_pos_base by exact Hb. unfold Rpower. apply exp_pos. Qed.

(** [u / (u + K)] does not decrease with [u >= 0] when [K > 0]. *)
Lemma hill_fraction_mono (u1 u2 K a : R) :
  0 < K -> 0 <= a -> 0 <= u1 <= u2 ->
  a * u1 / (u1 + K) <= a * u2 / (u2 + K).
Proof.
  intros HK Ha [H1 H2].
  apply Rmult_le_reg_r with ((u1 + K) * (u2 + K)); [nra | ].
  replace (a * u1 / (u1 + K) * ((u1 + K) * (u2 + K))) with (a * u1 * (u2 + K)) by (field; lra).
  replace (a * u2 / (u2 + K) * ((u1 + K) * (u2 + K))) with (a * u2 * (u1 + K)) by (field; lra).
  assert (H : a * u1 * K <= a * u2 * K).
  { apply Rmult_le_compat_r; [lra | ]. apply Rmult_le_compat_l; lra. }
  replace (a * u1 * (u2 + K)) with (a * u1 * u2 + a * u1 * K) by ring.
  replace (a * u2 * (u1 + K)) with (a * u1 * u2 + a * u2 * K) by ring.
  lra.
Qed.

Lemma dynamicMIC_exact (pd : PDParams R) (c : R) :
  dynamicMIC (N := RealNum) pd c
  = Rpower 2 (log2MIC0 pd - imax pd * pow c (hillCoeff pd)
                            / (pow c (hillCoeff pd) + pow (ic50 pd) (hillCoeff pd))).
Proof.
  unfold dynamicMIC, calculateLog2MIC. simpl.
  rewrite pow_pos_base by lra. reflexivity.
Qed.

End ExactPure.

End ExactFacts.

(* ================================================================= *)
(** ** What a completed run holds *)

Section ComputeFacts.

Context {num : Type} {N : Num num}.
Variables (drugParams inhibitorParams : DrugParams num)
          (pdParams : PDParams num) (simParams : SimParams num).

Lemma cycleMetrics_timePoints (cd : list (CycleResult num)) :
  map c_timePoints (map cycleMetrics cd) = map c_timePoints cd.
Proof. rewrite map_map. reflexivity. Qed.

Lemma emptyCycles_timePoints (k j : nat) :
  List.concat (map c_timePoints (map (@emptyCycle num N) (seq j k))) = [].
Proof.
  revert j. induction k as [ | k IH]; intros j; simpl; [reflexivity | apply IH].
Qed.

(** A completed run has one entry of every array per value of [t], the
    cycle arrays hold the cycle-local times of the samples that pass the test
    [currentCycle < numCycles], and there is one [CycleResult] per cycle. *)
Lemma compute_Done (fuel : nat) (c : Computed num) :
  compute drugParams inhibitorParams pdParams simParams fuel = Done c ->
  exists g,
    loopTimes drugParams simParams fuel (n_of_nat 0) = Some g
    /\ timePoints (arrays c) = g
    /\ drugConcentrations (arrays c) = map (drugConcAt drugParams) g
    /\ inhibitorConcentrations (arrays c) = map (inhibitorConcAt inhibitorParams) g
    /\ micValues (arrays c) = map (micAt inhibitorParams pdParams) g
    /\ tOverMIC (arrays c)
       = map (isAboveMICAt drugParams inhibitorParams pdParams) g
    /\ List.length (cycleResultsData c) = numCycles simParams
    /\ Permutation
         (List.concat (map c_timePoints (cycleResultsData c)))
         (map (fun t => n_rem t (dosingInterval drugParams))
              (filter (aggregated drugParams simParams) g)).
Proof.
  unfold compute. intros H.
  destruct (forLoop _ _ _ _ fuel _ _) as [st | | ] eqn:E; try discriminate.
  inversion H; subst c; clear H.
  apply forLoop_Done in E.
  destruct E as (g & Hg & H1 & H2 & H3 & H4 & H5 & H6 & H7).
  exists g. simpl in *.
  rewrite cycleMetrics_timePoints, length_map, H6, length_map, length_seq.
  rewrite emptyCycles_timePoints in H7. simpl in H7.
  repeat split; assumption.
Qed.

End ComputeFacts.

(* ================================================================= *)
(** ** What [runSimulation] commits (C1) *)

Section MapIndex.

Context {A B : Type}.

Lemma nth_error_combine_seq (l : list A) : forall (k i : nat) (a : A),
  nth_error l i = Some a ->
  nth_error (combine (seq k (List.length l)) l) i = Some ((k + i)%nat, a).
Proof.
  induction l as [ | x l IH]; intros k [ | i] a H; simpl in *; try discriminate.
  - inversion H; subst. now rewrite Nat.add_0_r.
  - rewrite (IH (S k) i a H). f_equal. f_equal. lia.
Qed.

Lemma length_mapi (f : A -> nat -> B) (l : list A) :
  List.length (mapi f l) = List.length l.
Proof.
  unfold mapi. rewrite length_map, length_combine, length_seq. apply Nat.min_id.
Qed.

Lemma nth_error_mapi (f : A -> nat -> B) (l : list A) (i : nat) (a : A) :
  nth_error l i = Some a -> nth_error (mapi f l) i = Some (f a i).
Proof.
  intros H. unfold mapi.
  rewrite nth_error_map, (nth_error_combine_seq l 0 i a H). reflexivity.
Qed.

End MapIndex.

(** C1, as stated, fails on the program: with one cycle sampled every
    7.125 h the engine computes the times [0, 7.125, 14.25, 21.375], and
    [runSimulation] commits [parseFloat(time.toFixed(2))], which is
    [0, 7.13, 14.25, 21.38]; the committed summary holds the strings of
    [toFixed] calls, the decay constant 0.11552453009332421 as 0.1155. *)
Lemma C1_counterexample :
  exists st' c res,
    runSimulation RefMath.lib Ex.drug Ex.inhibitor Ex.pd Ex.simCoarse 1 10 initialState
    = Done st'
    /\ compute (N := FloatNum RefMath.lib) Ex.drug Ex.inhibitor Ex.pd Ex.simCoarse 10
       = Done c
    /\ map time (chartData st') <> timePoints (arrays c)
    /\ results st' = Some res
    /\ JS.render (r_kDrug res) = Some "0.1155"%string
    /\ (JS.parseFloat (r_kDrug res) =? kDrug (N := FloatNum RefMath.lib) Ex.drug)%float
       = false.
Proof.
  eexists. eexists. eexists.
  split; [vm_compute; reflexivity | ].
  split; [vm_compute; reflexivity | ].
  split.
  - intros H.
    apply (f_equal (fun l => PrimFloat.eqb (nth 1 l 0%float) 7.125%float)) in H.
    vm_compute in H. discriminate.
  - split; [reflexivity | ]. split; vm_compute; reflexivity.
Qed.

(** C1, amended: a run that passes validation, completes and is not
    discarded commits the time series rounded by [toFixed] (the time to 2
    decimals, the drug, inhibitor and MIC values to 3) and the summary as the
    strings of [toFixed] calls (AUCs and minimum concentrations to 2
    decimals, the two ratios to 3, percent time above MIC to 1, the decay
    constants to 4); only the per-cycle metrics are committed as computed. *)
Theorem C1_commits_rounded (M : MathLib)
    (drugParams inhibitorParams : DrugParams float) (pdParams : PDParams float)
    (simParams : SimParams float) (runId : float) (fuel : nat)
    (st : State) (c : Computed float) :
  validationFails (N := FloatNum M) drugParams inhibitorParams simParams = false ->
  compute (N := FloatNum M) drugParams inhibitorParams pdParams simParams fuel = Done c ->
  (runId =? runId)%float = true ->
  isMounted st = true ->
  exists st',
    runSimulation M drugParams inhibitorParams pdParams simParams runId fuel st = Done st'
    /\ List.length (chartData st') = List.length (timePoints (arrays c))
    /\ (forall (i : nat) (t : float),
           nth_error (timePoints (arrays c)) i = Some t ->
           nth_error (chartData st') i
           = Some {| time := JS.parseFloat (JS.toFixed 2 t);
                     drug := JS.parseFloat
                               (JS.toFixed 3 (nth i (drugConcentrations (arrays c)) JS.NaN));
                     inhibitor := JS.parseFloat
                               (JS.toFixed 3 (nth i (inhibitorConcentrations (arrays c)) JS.NaN));
                     mic := JS.parseFloat
                               (JS.toFixed 3 (nth i (micValues (arrays c)) JS.NaN)) |})
    /\ results st'
       = Some {| r_drugAUC := JS.toFixed 2 (drugAUC c);
                 r_inhibitorAUC := JS.toFixed 2 (inhibitorAUC c);
                 r_exposureRatio := JS.toFixed 3 (exposureRatio c);
                 r_inverseExposureRatio := JS.toFixed 3 (inverseExposureRatio c);
                 r_percentTOverMIC := JS.toFixed 1 (percentTOverMIC c);
                 r_drugMinConc := JS.toFixed 2 (drugMinConc (N := FloatNum M) drugParams);
                 r_inhibitorMinConc :=
                   JS.toFixed 2 (inhibitorMinConc (N := FloatNum M) inhibitorParams);
                 r_kDrug := JS.toFixed 4 (kDrug (N := FloatNum M) drugParams);
                 r_kInhibitor := JS.toFixed 4 (kInhibitor (N := FloatNum M) inhibitorParams) |}
    /\ cycleResults st' = cycleResultsData c.
Proof.
  intros Hvalid Hc Hid Hmounted.
  unfold runSimulation. rewrite Hvalid, Hc, Hid, Hmounted. simpl.
  eexists. split; [reflexivity | ]. simpl.
  split; [apply length_mapi | ].
  split; [ | split; reflexivity].
  intros i t Ht. unfold formatChartData.
  rewrite (nth_error_mapi _ _ i t Ht). reflexivity.
Qed.

(** The run of the counterexample commits its four samples rounded. *)
Lemma C1_commits_rounded_witness :
  exists st',
    runSimulation RefMath.lib Ex.drug Ex.inhibitor Ex.pd Ex.simCoarse 1 10 initialState
    = Done st'
    /\ map time (chartData st') = [0; 7.13; 14.25; 21.38]%float
    /\ option_map (fun r => JS.render (r_drugAUC r)) (results st') = Some (Some "564.15"%string).
Proof.
  destruct (C1_commits_rounded RefMath.lib Ex.drug Ex.inhibitor Ex.pd Ex.simCoarse
              1%float 10 initialState
              match compute (N := FloatNum RefMath.lib) Ex.drug Ex.inhibitor Ex.pd
                      Ex.simCoarse 10 with
              | Done c => c
              | _ => summarize (N := FloatNum RefMath.lib)
                       (initialLoopState (N := FloatNum RefMath.lib) Ex.simCoarse)
              end)
    as (st' & Hrun & _).
  - vm_compute. reflexivity.
  - vm_compute. reflexivity.
  - vm_compute. reflexivity.
  - reflexivity.
  - exists st'. split; [exact Hrun | ].
    assert (E : runSimulation RefMath.lib Ex.drug Ex.inhibitor Ex.pd Ex.simCoarse 1 10
                  initialState = Done st') by exact Hrun.
    vm_compute in E. inversion E; subst st'. split; vm_compute; reflexivity.
Defined.

(* ================================================================= *)
(** ** Percent time above MIC (C2) *)

(** A cycle that received no sample gets [0 / 0 * 100], for any Math
    implementation. *)
Lemma empty_cycle_percent_nan (M : MathLib) (r : CycleResult float) :
  c_timePoints r = [] ->
  c_percentTOverMIC (cycleMetrics (N := FloatNum M) r) = JS.NaN.
Proof.
  intros H. unfold cycleMetrics, cycleTimeAboveMIC. simpl. rewrite H. reflexivity.
Qed.

(** C2 fails on the program at a valid input: dosing interval 24, 3 cycles
    and time step 50 pass validation; the samples are at [t = 0] and
    [t = 50], the second cycle receives none, and its percent time above MIC
    is NaN, which is not in [0,100].  (The first and third cycle and the
    whole horizon are at 100.) *)
Theorem C2_empty_cycle_percent_nan :
  validationFails (N := FloatNum RefMath.lib) Ex.drug Ex.inhibitor Ex.simSparse = false
  /\ exists c,
       compute (N := FloatNum RefMath.lib) Ex.drug Ex.inhibitor Ex.pd Ex.simSparse 10
       = Done c
       /\ timePoints (arrays c) = [0; 50]%float
       /\ map (fun r => List.length (c_timePoints r)) (cycleResultsData c) = [1; 0; 1]%nat
       /\ map (fun r => is_nan (c_percentTOverMIC r)) (cycleResultsData c)
          = [false; true; false]
       /\ map (fun r => inPercentRange (c_percentTOverMIC r)) (cycleResultsData c)
          = [true; false; true]
       /\ inPercentRange (percentTOverMIC c) = true.
Proof.
  split; [vm_compute; reflexivity | ].
  eexists. split; [vm_compute; reflexivity | ].
  repeat split; vm_compute; reflexivity.
Qed.



(* ================================================================= *)
(** ** The validation gate (C3) *)

Section Validation.

Local Open Scope float_scope.

Lemma is_nan_zero : is_nan 0 = false.
Proof. reflexivity. Qed.

Lemma ltb_leb (a b : float) : (a <? b) = true -> (a <=? b) = true.
Proof.
  rewrite ltb_spec, leb_spec. unfold SFltb, SFleb.
  destruct (SFcompare (Prim2SF a) (Prim2SF b)) as [[ | | ] | ]; congruence.
Qed.

(** On a regimen without NaN the validator reports the rules that do not
    hold. *)
Lemma validateDrugParams_rules (M : MathLib) (p : DrugParams float) :
  numeric p = true ->
  validateDrugParams (N := FloatNum M) p = ruleViolations p.
Proof.
  unfold numeric. rewrite !andb_true_iff, !negb_true_iff.
  intros [[[Hdi Hit] Hhl] Hmx].
  unfold validateDrugParams, ruleViolations.
  change (@n_le float (FloatNum M)) with PrimFloat.leb.
  change (@n_lt float (FloatNum M)) with PrimFloat.ltb.
  change (@n_of_nat float (FloatNum M) 0) with 0.
  rewrite (leb_negb_ltb (dosingInterval p) 0 Hdi is_nan_zero).
  rewrite (ltb_negb_leb (infusionTime p) 0 Hit is_nan_zero).
  rewrite (ltb_negb_leb (dosingInterval p) (infusionTime p) Hdi Hit).
  rewrite (leb_negb_ltb (halfLife p) 0 Hhl is_nan_zero).
  rewrite (leb_negb_ltb (maxConcentration p) 0 Hmx is_nan_zero).
  destruct (0 <? dosingInterval p), (0 <=? infusionTime p),
    (infusionTime p <=? dosingInterval p), (0 <? halfLife p),
    (0 <? maxConcentration p); reflexivity.
Qed.

(** The list of violations is empty exactly when the five rules hold. *)
Lemma ruleViolations_nil (p : DrugParams float) :
  ruleViolations p = [] <-> rulesHold p = true.
Proof.
  unfold ruleViolations, rulesHold.
  destruct (0 <? dosingInterval p), (0 <=? infusionTime p),
    (infusionTime p <=? dosingInterval p), (0 <? halfLife p),
    (0 <? maxConcentration p); simpl; split; intros H; congruence.
Qed.

Lemma length_eqb_nil {A : Type} (l : list A) :
  Nat.eqb (List.length l) 0 = true <-> l = [].
Proof. destruct l; simpl; split; intros H; congruence. Qed.

End Validation.

(** A regimen whose dosing interval is NaN breaks the rules
    "dosingInterval > 0" and "infusionTime <= dosingInterval", and the
    validator reports neither: its tests [dosingInterval <= 0] and
    [infusionTime > dosingInterval] are false on NaN. *)
Lemma nan_interval_not_reported (M : MathLib) (p : DrugParams float) :
  is_nan (dosingInterval p) = true ->
  rulesHold p = false
  /\ ~ In "Dosing interval must be positive"%string
          (validateDrugParams (N := FloatNum M) p)
  /\ ~ In "Infusion time cannot exceed dosing interval"%string
          (validateDrugParams (N := FloatNum M) p).
Proof.
  intros Hnan. apply is_nan_nan in Hnan.
  unfold rulesHold, validateDrugParams.
  change (@n_le float (FloatNum M)) with PrimFloat.leb.
  change (@n_lt float (FloatNum M)) with PrimFloat.ltb.
  change (@n_of_nat float (FloatNum M) 0) with 0%float.
  rewrite Hnan, ltb_nan_r, leb_nan_l, ltb_nan_l. simpl.
  split; [reflexivity | ].
  destruct (infusionTime p <? 0)%float, (halfLife p <=? 0)%float,
    (maxConcentration p <=? 0)%float; simpl; split; intros H;
    repeat (destruct H as [H | H]; [discriminate | ]); contradiction.
Qed.

(** C3 fails on the program at a regimen whose dosing interval is NaN and
    whose other fields are the defaults.  Two rules do not hold
    ("dosingInterval > 0" and "infusionTime <= dosingInterval"), yet the
    validator returns no message and the guard of [runSimulation] lets the
    run through: [totalTime] is NaN, the loop body never runs, and the run
    commits a summary whose exposure ratio, percent time above MIC and
    minimum drug concentration are the string of NaN, an empty time series
    and three cycle results, with empty message lists. *)
Theorem C3_nan_regimen_accepted :
  rulesHold Ex.drugNaN = false
  /\ ruleViolations Ex.drugNaN
     = ["Dosing interval must be positive"%string;
        "Infusion time cannot exceed dosing interval"%string]
  /\ validateDrugParams (N := FloatNum RefMath.lib) Ex.drugNaN = []
  /\ validationFails (N := FloatNum RefMath.lib) Ex.drugNaN Ex.inhibitor Ex.sim = false
  /\ exists st' res,
       runSimulation RefMath.lib Ex.drugNaN Ex.inhibitor Ex.pd Ex.sim 1 10 initialState
       = Done st'
       /\ results initialState = None
       /\ results st' = Some res
       /\ r_exposureRatio res = JS.Str nan
       /\ r_percentTOverMIC res = JS.Str nan
       /\ r_drugMinConc res = JS.Str nan
       /\ chartData st' = []
       /\ List.length (cycleResults st') = 3
       /\ drugValidationErrors st' = []
       /\ inhibitorValidationErrors st' = [].
Proof.
  split; [vm_compute; reflexivity | ].
  split; [vm_compute; reflexivity | ].
  split; [vm_compute; reflexivity | ].
  split; [vm_compute; reflexivity | ].
  eexists. eexists. split; [vm_compute; reflexivity | ].
  split; [reflexivity | ].
  split; [reflexivity | ].
  repeat split; reflexivity.
Qed.

(** X1: the validation gate on regimens without NaN.  Each validator returns the
    messages of exactly the rules that do not hold, in the order of the
    rules (the empty list when all five hold); and when a rule of either
    regimen does not hold or [timeStep <= 0], [runSimulation] stops before
    computing: it leaves the committed summary, time series and cycle
    metrics as they were, stores the two message lists and clears the
    loading flag. *)
Theorem validation_gate_numeric (M : MathLib)
    (drugParams inhibitorParams : DrugParams float) (pdParams : PDParams float)
    (simParams : SimParams float) (runId : float) (fuel : nat) (st : State) :
  numeric drugParams = true -> numeric inhibitorParams = true ->
  validateDrugParams (N := FloatNum M) drugParams = ruleViolations drugParams
  /\ validateInhibitorParams (N := FloatNum M) inhibitorParams = ruleViolations inhibitorParams
  /\ (ruleViolations drugParams = [] <-> rulesHold drugParams = true)
  /\ (ruleViolations inhibitorParams = [] <-> rulesHold inhibitorParams = true)
  /\ (rulesHold drugParams = false \/ rulesHold inhibitorParams = false
      \/ (timeStep simParams <=? 0)%float = true ->
      exists st',
        runSimulation M drugParams inhibitorParams pdParams simParams runId fuel st
        = Done st'
        /\ results st' = results st
        /\ chartData st' = chartData st
        /\ cycleResults st' = cycleResults st
        /\ drugValidationErrors st' = ruleViolations drugParams
        /\ inhibitorValidationErrors st' = ruleViolations inhibitorParams
        /\ isSimulating st' = false).
Proof.
  intros Hd Hi.
  pose proof (validateDrugParams_rules M drugParams Hd) as Vd.
  pose proof (validateDrugParams_rules M inhibitorParams Hi) as Vi.
  split; [exact Vd | ]. split; [exact Vi | ].
  split; [apply ruleViolations_nil | ]. split; [apply ruleViolations_nil | ].
  intros Hfail.
  assert (Hgate : validationFails (N := FloatNum M) drugParams inhibitorParams simParams
                  = true).
  { unfold validationFails, validateInhibitorParams. rewrite Vd, Vi.
    destruct Hfail as [H | [H | H]].
    - destruct (Nat.eqb (List.length (ruleViolations drugParams)) 0) eqn:E;
        [ | reflexivity].
      apply length_eqb_nil, ruleViolations_nil in E. congruence.
    - destruct (Nat.eqb (List.length (ruleViolations inhibitorParams)) 0) eqn:E;
        [ | now rewrite orb_true_r].
      apply length_eqb_nil, ruleViolations_nil in E. congruence.
    - change (@n_le float (FloatNum M) (timeStep simParams) (n_of_nat 0))
        with (timeStep simParams <=? 0)%float.
      rewrite H. now rewrite orb_true_r. }
  unfold runSimulation. rewrite Hgate.
  eexists. split; [reflexivity | ]. simpl.
  unfold validateInhibitorParams. rewrite Vd, Vi.
  repeat split; reflexivity.
Qed.

(** A regimen with dosing interval 0 and maximum concentration -5: two
    messages for the drug, none for the inhibitor, nothing committed. *)
Lemma validation_gate_numeric_witness :
  exists st',
    runSimulation RefMath.lib Ex.drugBad Ex.inhibitor Ex.pd Ex.sim 1 10 initialState
    = Done st'
    /\ results st' = None
    /\ drugValidationErrors st'
       = ["Dosing interval must be positive"%string;
          "Infusion time cannot exceed dosing interval"%string;
          "Max concentration must be positive"%string]
    /\ inhibitorValidationErrors st' = [].
Proof.
  destruct (validation_gate_numeric RefMath.lib Ex.drugBad Ex.inhibitor Ex.pd Ex.sim
              1%float 10 initialState)
    as (_ & _ & _ & _ & Hgate).
  - vm_compute. reflexivity.
  - vm_compute. reflexivity.
  - destruct Hgate as (st' & Hrun & Hres & _ & _ & Hde & Hie & _).
    + left. vm_compute. reflexivity.
    + exists st'. split; [exact Hrun | ]. split; [exact Hres | ].
      split; [rewrite Hde | rewrite Hie]; vm_compute; reflexivity.
Defined.

(* ================================================================= *)
(** ** The sample at the final boundary (C4) *)

(** C4, as stated, fails on the program: with dosing interval 0.7, time step
    0.7 and 3 cycles, [totalTime = 3 * 0.7] is 2.0999999999999996 and the
    fourth sample is at exactly that [t]; its cycle index
    [Math.floor(t / 0.7)] is 2, not 3, so the boundary sample is pushed into
    the third cycle and no sample of the run is left out of the cycles. *)
Lemma C4_counterexample :
  exists c,
    compute (N := FloatNum RefMath.lib) Ex.drugShort Ex.inhibitor Ex.pd Ex.simShort 10
    = Done c
    /\ last (timePoints (arrays c)) JS.NaN
       = totalTime (N := FloatNum RefMath.lib) Ex.drugShort Ex.simShort
    /\ aggregated (N := FloatNum RefMath.lib) Ex.drugShort Ex.simShort
         (totalTime (N := FloatNum RefMath.lib) Ex.drugShort Ex.simShort) = true
    /\ map (fun r => List.length (c_timePoints r)) (cycleResultsData c) = [1; 1; 2]%nat
    /\ List.length (timePoints (arrays c)) = 4%nat.
Proof.
  eexists. split; [vm_compute; reflexivity | ].
  repeat split; vm_compute; reflexivity.
Qed.

(** The other direction: with dosing interval 4.61, time step 13.83 and 6
    cycles, [totalTime] is 27.660000000000004 and the sample at [t = 27.66],
    below the boundary, has cycle index 6 and is left out of every cycle. *)
Lemma excluded_below_boundary :
  exists c,
    compute (N := FloatNum RefMath.lib) Ex.drugOdd Ex.inhibitor Ex.pd Ex.simOdd 10 = Done c
    /\ timePoints (arrays c) = [0; 13.83; 27.66]%float
    /\ (27.66 <? totalTime (N := FloatNum RefMath.lib) Ex.drugOdd Ex.simOdd)%float = true
    /\ aggregated (N := FloatNum RefMath.lib) Ex.drugOdd Ex.simOdd 27.66%float = false
    /\ List.length (List.concat (map c_timePoints (cycleResultsData c))) = 2%nat.
Proof.
  eexists. split; [vm_compute; reflexivity | ].
  repeat split; vm_compute; reflexivity.
Qed.

(* ================================================================= *)
(** ** The per-cycle arrays of a run *)

Section CycleContents.

Context {num : Type} {N : Num num}.
Variables (drugParams inhibitorParams : DrugParams num)
          (pdParams : PDParams num) (simParams : SimParams num).

Local Abbreviation body := (loopBody drugParams inhibitorParams pdParams simParams).
Local Abbreviation loop := (forLoop drugParams inhibitorParams pdParams simParams).
Local Abbreviation times := (loopTimes drugParams simParams).
Local Abbreviation local := (fun t => n_rem t (dosingInterval drugParams)).
Local Abbreviation inC := (inCycle drugParams simParams).

Lemma updateAt_nth_error {A : Type} (f : A -> A) (i : nat) (xs ys : list A) :
  updateAt f i xs = Some ys ->
  forall j, nth_error ys j
            = if Nat.eqb i j then option_map f (nth_error xs j) else nth_error xs j.
Proof.
  revert i ys. induction xs as [ | x xs IH]; intros [ | i] ys H; simpl in H;
    try discriminate.
  - inversion H; subst. intros [ | j]; reflexivity.
  - destruct (updateAt f i xs) as [zs | ] eqn:E; simpl in H; inversion H; subst.
    intros [ | j]; simpl; [reflexivity | ]. now apply IH.
Qed.

(** One turn of the loop pushes the sample to the cycle it belongs to and
    leaves the other cycles alone. *)
Lemma loopBody_cycles (t : num) (st st' : LoopState num) :
  body t st = Done st' ->
  forall j,
    nth_error (cycleData st') j
    = option_map
        (fun r => if inC j t
                  then pushCycle r (local t) (drugConcAt drugParams t)
                         (inhibitorConcAt inhibitorParams t)
                         (micAt inhibitorParams pdParams t)
                  else r)
        (nth_error (cycleData st) j).
Proof.
  unfold loopBody, inCycle, cycleIndexAt, aggregated. intros H j.
  destruct (n_lt _ _).
  - destruct (n_index _) as [i | ]; [ | discriminate].
    destruct (updateAt _ i (cycleData st)) as [cd | ] eqn:E; [ | discriminate].
    inversion H; subst; clear H. simpl.
    rewrite (updateAt_nth_error _ _ _ _ E j).
    destruct (Nat.eqb i j); [reflexivity | ].
    now destruct (nth_error (cycleData st) j).
  - inversion H; subst; clear H. simpl.
    now destruct (nth_error (cycleData st) j).
Qed.

Local Abbreviation extends := (extends drugParams inhibitorParams pdParams simParams).

Lemma forLoop_cycles (fuel : nat) : forall (t : num) (st st' : LoopState num),
  loop fuel t st = Done st' ->
  exists g,
    times fuel t = Some g
    /\ forall j r', nth_error (cycleData st') j = Some r' ->
         exists r, nth_error (cycleData st) j = Some r /\ extends j g r r'.
Proof.
  induction fuel as [ | fuel IH]; intros t st st' H; simpl in H |- *.
  - destruct (n_le t _); [discriminate | ].
    inversion H; subst. exists []. split; [reflexivity | ].
    intros j r' Hr. exists r'. split; [exact Hr | ].
    unfold extends. simpl. rewrite !app_nil_r. repeat split; reflexivity.
  - destruct (n_le t _).
    + destruct (body t st) as [st1 | | ] eqn:E; try discriminate.
      pose proof (loopBody_cycles t st st1 E) as Hb.
      apply IH in H. destruct H as (g & Hg & Hc).
      exists (t :: g). rewrite Hg. split; [reflexivity | ].
      intros j r' Hr. destruct (Hc j r' Hr) as (r1 & Hr1 & He).
      rewrite Hb in Hr1.
      destruct (nth_error (cycleData st) j) as [r | ]; [ | discriminate].
      exists r. split; [reflexivity | ].
      simpl in Hr1. inversion Hr1 as [Er1]; clear Hr1.
      destruct He as (H0 & H1 & H2 & H3 & H4).
      unfold extends. simpl filter.
      destruct (inC j t); subst r1; simpl in *.
      * unfold push in *. rewrite <- !app_assoc in *. simpl in *.
        repeat split; assumption.
      * repeat split; assumption.
    + inversion H; subst. exists []. split; [reflexivity | ].
      intros j r' Hr. exists r'. split; [exact Hr | ].
      unfold extends. simpl. rewrite !app_nil_r. repeat split; reflexivity.
Qed.

Lemma nth_error_emptyCycles (n j : nat) (r : CycleResult num) :
  nth_error (map (@emptyCycle num N) (seq 0 n)) j = Some r -> r = emptyCycle j.
Proof.
  rewrite nth_error_map. destruct (nth_error (seq 0 n) j) as [k | ] eqn:E; [ | discriminate].
  simpl. intros H. inversion H; subst.
  assert (Hj : j < List.length (seq 0 n)).
  { apply nth_error_Some. congruence. }
  rewrite length_seq in Hj.
  apply (nth_error_nth _ _ 0) in E. rewrite seq_nth in E by exact Hj.
  simpl in E. now subst k.
Qed.

(** The per-cycle results of a completed run. *)
Lemma compute_cycles (fuel : nat) (c : Computed num) :
  compute drugParams inhibitorParams pdParams simParams fuel = Done c ->
  exists g,
    times fuel (n_of_nat 0) = Some g
    /\ forall j r, nth_error (cycleResultsData c) j = Some r ->
         exists r1,
           r = cycleMetrics r1
           /\ cycle r1 = j + 1
           /\ c_timePoints r1 = map local (filter (inC j) g)
           /\ c_drugConcentrations r1 = map (drugConcAt drugParams) (filter (inC j) g)
           /\ c_inhibitorConcentrations r1
              = map (inhibitorConcAt inhibitorParams) (filter (inC j) g)
           /\ c_micValues r1 = map (micAt inhibitorParams pdParams) (filter (inC j) g).
Proof.
  unfold compute. intros H.
  destruct (forLoop _ _ _ _ fuel _ _) as [st | | ] eqn:E; try discriminate.
  inversion H; subst c; clear H.
  apply forLoop_cycles in E. destruct E as (g & Hg & Hc).
  exists g. split; [exact Hg | ]. intros j r H.
  simpl in H. rewrite nth_error_map in H.
  destruct (nth_error (cycleData st) j) as [r1 | ] eqn:E1; [ | discriminate].
  simpl in H. inversion H; subst r; clear H.
  destruct (Hc j r1 E1) as (r0 & Hr0 & H0 & H1 & H2 & H3 & H4).
  apply nth_error_emptyCycles in Hr0. subst r0. simpl in *.
  exists r1. repeat split; assumption.
Qed.

End CycleContents.

(* ================================================================= *)
(** ** The cycle of a sample in exact arithmetic *)

Section ExactCycles.

Import Exact.
Local Open Scope R_scope.

Variables (drugParams inhibitorParams : DrugParams R)
          (pdParams : PDParams R) (simParams : SimParams R).

Local Abbreviation di := (dosingInterval drugParams).
Local Abbreviation ts := (timeStep simParams).
Local Abbreviation T := (totalTime (N := RealNum) drugParams simParams).
Local Abbreviation n := (numCycles simParams).
Local Abbreviation count := (sampleCount drugParams simParams).

Hypothesis di_pos : 0 < di.
Hypothesis ts_pos : 0 < ts.

Lemma Int_part_between (x : R) (z : Z) : IZR z <= x < IZR z + 1 -> Int_part x = z.
Proof.
  intros [H1 H2]. symmetry. apply Int_part_spec. lra.
Qed.

(** A time in the [j]-th dosing interval goes to cycle [j]. *)
Lemma inCycle_exact (j : nat) (t : R) :
  (j < n)%nat -> INR j * di <= t < INR (S j) * di ->
  inCycle (N := RealNum) drugParams simParams j t = true.
Proof.
  intros Hj [H1 H2]. rewrite S_INR in H2.
  assert (Hz : Int_part (t / di) = Z.of_nat j).
  { apply Int_part_between. rewrite <- INR_IZR_INZ. split.
    - apply Rmult_le_reg_r with di; [lra | ].
      unfold Rdiv. rewrite Rmult_assoc, Rinv_l, Rmult_1_r; lra.
    - apply Rmult_lt_reg_r with di; [lra | ].
      unfold Rdiv. rewrite Rmult_assoc, Rinv_l, Rmult_1_r; lra. }
  unfold inCycle, cycleIndexAt, aggregated.
  cbn [n_lt n_floor n_div n_of_nat n_min n_sub n_index RealNum].
  unfold floor. rewrite Hz.
  assert (Hlt : ltb (IZR (Z.of_nat j)) (INR n) = true).
  { apply ltb_true. rewrite <- INR_IZR_INZ. now apply lt_INR. }
  rewrite Hlt.
  assert (Hmin : Rmin (IZR (Z.of_nat j)) (INR n - INR 1) = IZR (Z.of_nat j)).
  { apply Rmin_left. rewrite <- INR_IZR_INZ. change (INR 1) with 1.
    assert (H : INR j + 1 <= INR n).
    { rewrite <- S_INR. apply le_INR. lia. }
    lra. }
  rewrite Hmin, index_IZR by lia. rewrite Nat2Z.id. apply Nat.eqb_refl.
Qed.


End ExactCycles.

Section ExactCycleIndex.

Import Exact.
Local Open Scope R_scope.

Variables (drugParams : DrugParams R) (simParams : SimParams R).
Hypothesis di_pos : 0 < dosingInterval drugParams.

(** In exact arithmetic the samples of cycle [j] are those of the [j]-th
    dosing interval. *)
Lemma inCycle_exact_iff (j : nat) (t : R) :
  0 <= t ->
  inCycle (N := RealNum) drugParams simParams j t = true
  <-> (j < numCycles simParams)%nat
      /\ INR j * dosingInterval drugParams <= t < INR (S j) * dosingInterval drugParams.
Proof.
  intros Ht. split.
  - unfold inCycle, cycleIndexAt, aggregated.
    cbn [n_lt n_floor n_div n_of_nat n_min n_sub n_index RealNum].
    unfold floor.
    pose proof (Int_part_nonneg _ (div_nonneg t _ Ht di_pos)) as Hz.
    destruct (base_Int_part (t / dosingInterval drugParams)) as [B1 B2].
    set (z := Int_part (t / dosingInterval drugParams)) in *.
    destruct (ltb (IZR z) (INR (numCycles simParams))) eqn:E; [ | discriminate].
    apply ltb_true in E.
    assert (Hzn : (z < Z.of_nat (numCycles simParams))%Z).
    { apply lt_IZR. rewrite <- INR_IZR_INZ. exact E. }
    assert (Hmin : Rmin (IZR z) (INR (numCycles simParams) - INR 1) = IZR z).
    { apply Rmin_left. rewrite INR_IZR_INZ. change (INR 1) with 1.
      replace (IZR (Z.of_nat (numCycles simParams)) - 1)
        with (IZR (Z.of_nat (numCycles simParams) - 1))
        by (rewrite minus_IZR; reflexivity).
      apply IZR_le. lia. }
    rewrite Hmin, index_IZR by exact Hz.
    intros Heq. apply Nat.eqb_eq in Heq. subst j.
    split; [lia | ].
    rewrite S_INR, INR_IZR_INZ, Z2Nat.id by exact Hz.
    assert (Hq : t / dosingInterval drugParams * dosingInterval drugParams = t).
    { unfold Rdiv. rewrite Rmult_assoc, Rinv_l, Rmult_1_r; lra. }
    assert (Hlo : IZR z * dosingInterval drugParams
                  <= t / dosingInterval drugParams * dosingInterval drugParams)
      by (apply Rmult_le_compat_r; lra).
    assert (Hhi : t / dosingInterval drugParams * dosingInterval drugParams
                  < (IZR z + 1) * dosingInterval drugParams)
      by (apply Rmult_lt_compat_r; lra).
    rewrite Hq in Hlo, Hhi. split; assumption.
  - intros [Hj Hb]. apply inCycle_exact; assumption.
Qed.

End ExactCycleIndex.

(** C4, amended: in every run that completes (any arithmetic)
    - every value of [t] is kept in the full time series, with its drug
      concentration, inhibitor concentration and MIC;
    - there is one cycle result per cycle, and the four arrays of cycle [j]
      hold, in sampling order, the cycle-local time, the drug
      concentration, the inhibitor concentration and the MIC of exactly the
      samples that pass the test [floor(t / dosingInterval) < numCycles] and
      whose cycle index is [j];
    - so, taken together, the cycle arrays hold exactly the samples that
      pass the test.
    In exact arithmetic the cycle index of a sample [t >= 0] is [j] exactly
    when [j < numCycles] and [j * dosingInterval <= t < (j + 1) *
    dosingInterval], and for [0 <= t <= totalTime] the test fails only at
    [t = totalTime]. *)
Theorem C4_cycle_assignment :
  (forall (num : Type) (N : Num num) (drugParams inhibitorParams : DrugParams num)
          (pdParams : PDParams num) (simParams : SimParams num)
          (fuel : nat) (c : Computed num),
      compute drugParams inhibitorParams pdParams simParams fuel = Done c ->
      loopTimes drugParams simParams fuel (n_of_nat 0) = Some (timePoints (arrays c))
      /\ drugConcentrations (arrays c)
         = map (drugConcAt drugParams) (timePoints (arrays c))
      /\ inhibitorConcentrations (arrays c)
         = map (inhibitorConcAt inhibitorParams) (timePoints (arrays c))
      /\ micValues (arrays c)
         = map (micAt inhibitorParams pdParams) (timePoints (arrays c))
      /\ List.length (cycleResultsData c) = numCycles simParams
      /\ (forall (j : nat) (r : CycleResult num),
             nth_error (cycleResultsData c) j = Some r ->
             let mine := filter (inCycle drugParams simParams j) (timePoints (arrays c)) in
             cycle r = j + 1
             /\ c_timePoints r = map (fun t => n_rem t (dosingInterval drugParams)) mine
             /\ c_drugConcentrations r = map (drugConcAt drugParams) mine
             /\ c_inhibitorConcentrations r = map (inhibitorConcAt inhibitorParams) mine
             /\ c_micValues r = map (micAt inhibitorParams pdParams) mine)
      /\ Permutation
           (List.concat (map c_timePoints (cycleResultsData c)))
           (map (fun t => n_rem t (dosingInterval drugParams))
                (filter (aggregated drugParams simParams) (timePoints (arrays c)))))
  /\ (forall (num : Type) (N : Num num) (drugParams : DrugParams num)
             (simParams : SimParams num) (j : nat) (t : num),
         inCycle drugParams simParams j t = true
         <-> aggregated drugParams simParams t = true
             /\ n_index (n_min (n_floor (n_div t (dosingInterval drugParams)))
                               (n_sub (n_of_nat (numCycles simParams)) (n_of_nat 1)))
                = Some j)
  /\ (forall (drugParams : DrugParams R) (simParams : SimParams R) (j : nat) (t : R),
         (0 < dosingInterval drugParams)%R -> (0 <= t)%R ->
         inCycle (N := Exact.RealNum) drugParams simParams j t = true
         <-> (j < numCycles simParams)%nat
             /\ (INR j * dosingInterval drugParams <= t
                 < INR (S j) * dosingInterval drugParams)%R)
  /\ (forall (drugParams : DrugParams R) (simParams : SimParams R) (t : R),
         (0 < dosingInterval drugParams)%R ->
         (0 <= t <= totalTime (N := Exact.RealNum) drugParams simParams)%R ->
         aggregated (N := Exact.RealNum) drugParams simParams t = false
         <-> t = totalTime (N := Exact.RealNum) drugParams simParams).
Proof.
  split; [ | split; [ | split]].
  - intros num N drugParams inhibitorParams pdParams simParams fuel c H.
    destruct (compute_Done _ _ _ _ _ _ H) as (g & Hg & H1 & H2 & H3 & H4 & _ & H6 & H7).
    destruct (compute_cycles _ _ _ _ _ _ H) as (g' & Hg' & Hc).
    assert (Eg : g' = g) by congruence. subst g'. subst g.
    repeat (split; [assumption | ]). split; [ | exact H7].
    intros j r Hr. destruct (Hc j r Hr) as (r1 & -> & E0 & E1 & E2 & E3 & E4).
    simpl. repeat split; assumption.
  - intros num N drugParams simParams j t. unfold inCycle, cycleIndexAt.
    destruct (aggregated drugParams simParams t).
    + destruct (n_index _) as [i | ].
      * split.
        -- intros H. apply Nat.eqb_eq in H. subst i. split; reflexivity.
        -- intros [_ H]. inversion H. apply Nat.eqb_refl.
      * split; [discriminate | intros [_ H]; discriminate].
    + split; [discriminate | intros [H _]; discriminate].
  - intros drugParams simParams j t Hdi Ht. now apply inCycle_exact_iff.
  - intros drugParams simParams t Hdi Ht.
    apply aggregated_exact; assumption.
Qed.

(** The three cycles of 0.7 h sampled every 0.7 h in binary64: the drug
    concentrations of every cycle are those of its samples.  In the exact
    reading of the scenario with interval 24 and 3 cycles, the sample at
    [t = 72] is left out of the cycles and the one at [t = 71.9] goes to the
    third cycle. *)
Lemma C4_cycle_assignment_witness :
  (exists c,
      compute (N := FloatNum RefMath.lib) Ex.drugShort Ex.inhibitor Ex.pd Ex.simShort 10
      = Done c
      /\ forall (j : nat) (r : CycleResult float),
           nth_error (cycleResultsData c) j = Some r ->
           c_drugConcentrations r
           = map (drugConcAt (N := FloatNum RefMath.lib) Ex.drugShort)
               (filter (inCycle (N := FloatNum RefMath.lib) Ex.drugShort Ex.simShort j)
                  (timePoints (arrays c))))
  /\ aggregated (N := Exact.RealNum) Ex.drugR Ex.simR 72%R = false
  /\ inCycle (N := Exact.RealNum) Ex.drugR Ex.simR 2 (719 / 10)%R = true.
Proof.
  destruct C4_cycle_assignment as (Hrun & _ & Hin & Hagg).
  assert (Hdi : (0 < dosingInterval Ex.drugR)%R) by (simpl; lra).
  assert (HT : totalTime (N := Exact.RealNum) Ex.drugR Ex.simR = 72%R)
    by (unfold totalTime; simpl; lra).
  split; [ | split].
  - eexists. split; [vm_compute; reflexivity | ].
    intros j r Hr.
    match goal with
    | |- context [arrays ?c] =>
        pose proof (Hrun float (FloatNum RefMath.lib) Ex.drugShort Ex.inhibitor Ex.pd
                      Ex.simShort 10 c) as H
    end.
    destruct H as (_ & _ & _ & _ & _ & Hc & _); [vm_compute; reflexivity | ].
    destruct (Hc j r Hr) as (_ & _ & Hd & _). exact Hd.
  - apply (Hagg Ex.drugR Ex.simR 72%R Hdi); rewrite HT; lra.
  - apply (Hin Ex.drugR Ex.simR 2%nat (719 / 10)%R Hdi); [lra | ].
    split; [simpl; lia | simpl; lra].
Defined.

(* ================================================================= *)
(** ** The time grid (C5) *)

(** C5, as stated, fails on the program: with dosing interval 24, 3 cycles
    and time step 0.1 the loop [for (t = 0; t <= totalTime; t += timeStep)]
    pushes 720 samples, while [Math.floor(72 / 0.1) + 1] is 721.  The sum
    [t += 0.1] is rounded at every turn, and the 721st value of [t] is
    72.00000000000018. *)
Lemma C5_counterexample :
  exists c,
    compute (N := FloatNum RefMath.lib) Ex.drug Ex.inhibitor Ex.pd Ex.sim 1000 = Done c
    /\ List.length (timePoints (arrays c)) = 720%nat
    /\ JS.to_index (JS.Math_floor (72 / 0.1) + 1)%float = Some 721%nat.
Proof.
  eexists. split; [vm_compute; reflexivity | ].
  split; vm_compute; reflexivity.
Qed.

(** C5, amended: a run that completes holds one sample per value that [t]
    takes in the loop [t = 0; t <= totalTime; t += timeStep] (for any
    arithmetic); in exact arithmetic these values are [0, timeStep,
    2 timeStep, ...] and there are [floor(totalTime / timeStep) + 1] of them,
    and the run completes; in binary64 the scenario with interval 24, 3
    cycles and step 0.1 has 720 samples. *)
Theorem C5_time_grid :
  (forall (num : Type) (N : Num num) (drugParams inhibitorParams : DrugParams num)
          (pdParams : PDParams num) (simParams : SimParams num)
          (fuel : nat) (c : Computed num),
      compute drugParams inhibitorParams pdParams simParams fuel = Done c ->
      exists g,
        loopTimes drugParams simParams fuel (n_of_nat 0) = Some g
        /\ timePoints (arrays c) = g
        /\ drugConcentrations (arrays c) = map (drugConcAt drugParams) g
        /\ inhibitorConcentrations (arrays c) = map (inhibitorConcAt inhibitorParams) g
        /\ micValues (arrays c) = map (micAt inhibitorParams pdParams) g)
  /\ (forall (drugParams inhibitorParams : DrugParams R) (pdParams : PDParams R)
             (simParams : SimParams R) (fuel : nat),
         (0 < dosingInterval drugParams)%R -> (0 < timeStep simParams)%R ->
         (Exact.sampleCount drugParams simParams <= fuel)%nat ->
         exists c,
           compute (N := Exact.RealNum) drugParams inhibitorParams pdParams simParams fuel
           = Done c
           /\ timePoints (arrays c)
              = map (fun i => (INR i * timeStep simParams)%R)
                    (seq 0 (Exact.sampleCount drugParams simParams))
           /\ Z.of_nat (List.length (timePoints (arrays c)))
              = (Int_part (totalTime (N := Exact.RealNum) drugParams simParams
                          / timeStep simParams) + 1)%Z)
  /\ (forall c,
         compute (N := FloatNum RefMath.lib) Ex.drug Ex.inhibitor Ex.pd Ex.sim 1000 = Done c ->
         List.length (timePoints (arrays c)) = 720%nat).
Proof.
  split; [ | split].
  - intros num N drugParams inhibitorParams pdParams simParams fuel c H.
    apply compute_Done in H.
    destruct H as (g & Hg & H1 & H2 & H3 & H4 & _).
    exists g. repeat split; assumption.
  - intros drugParams inhibitorParams pdParams simParams fuel Hdi Hts Hfuel.
    destruct (compute_exact_Done drugParams inhibitorParams pdParams simParams
                Hdi Hts fuel Hfuel) as (c & Hc & Htp).
    exists c. repeat split; try assumption.
    rewrite Htp, length_map, length_seq. unfold Exact.sampleCount.
    rewrite Nat2Z.inj_succ, Z2Nat.id; [lia | ].
    apply Int_part_nonneg.
    apply Rmult_le_pos; [ | apply Rlt_le, Rinv_0_lt_compat; exact Hts].
    apply (T_nonneg drugParams simParams Hdi).
  - intros c H.
    assert (E : match compute (N := FloatNum RefMath.lib) Ex.drug Ex.inhibitor Ex.pd Ex.sim 1000
                with Done c' => List.length (timePoints (arrays c')) | _ => 720%nat end
                = 720%nat) by (vm_compute; reflexivity).
    rewrite H in E. exact E.
Qed.

(** In exact arithmetic the end-to-end scenario (interval 24, 3 cycles, step
    1/10) has [floor(72 / (1/10)) + 1 = 721] samples. *)
Lemma C5_time_grid_witness :
  exists c,
    compute (N := Exact.RealNum) Ex.drugR Ex.drugR Ex.pdR Ex.simR 721 = Done c
    /\ List.length (timePoints (arrays c)) = 721%nat.
Proof.
  assert (Hdi : (0 < dosingInterval Ex.drugR)%R) by (simpl; lra).
  assert (Hts : (0 < timeStep Ex.simR)%R) by (simpl; lra).
  assert (Hcount : Exact.sampleCount Ex.drugR Ex.simR = 721%nat).
  { unfold Exact.sampleCount.
    replace (Int_part (totalTime (N := Exact.RealNum) Ex.drugR Ex.simR / timeStep Ex.simR))
      with 720%Z;
      [reflexivity | ].
    apply Int_part_spec. unfold totalTime. simpl. lra. }
  destruct (proj1 (proj2 C5_time_grid) Ex.drugR Ex.drugR Ex.pdR Ex.simR 721%nat Hdi Hts)
    as (c & Hc & Htp & _).
  - rewrite Hcount. apply le_n.
  - exists c. split; [exact Hc | ].
    rewrite Htp, length_map, length_seq. exact Hcount.
Defined.

(* ================================================================= *)
(** ** The optimizer (C6, C7) *)

Section Optimizer.

Variable M : MathLib.
Local Open Scope float_scope.

(** [calculateOptimization] answers once a summary and a time series are
    committed; its answer is the plan after the safety checks, rounded. *)
Lemma calculateOptimization_Some (st : State) (drugParams : DrugParams float)
    (target : OptimizationTarget) (res : Results) :
  results st = Some res -> chartData st <> [] ->
  exists rec,
    calculateOptimization M st drugParams target = Some rec
    /\ let peakConc := JS.Math_max_list (map drug (chartData st)) in
       let troughConc := JS.Math_min_list (map drug (chartData st)) in
       let plan :=
         safetyChecks peakConc troughConc target
           (ratioRules (dosingInterval drugParams) (maxConcentration drugParams)
              (JS.parseFloat (r_percentTOverMIC res)) peakConc troughConc target) in
       recommendedInterval rec = JS.Math_round (p_recommendedInterval plan * 10) / 10
       /\ recommendedDose rec = JS.Math_round (p_recommendedDose plan * 10) / 10
       /\ riskAssessment rec = p_riskAssessment plan
       /\ confidence rec = JS.Math_round (p_confidence plan * 100) / 100.
Proof.
  intros Hres Hne. unfold calculateOptimization. rewrite Hres.
  destruct (chartData st) as [ | d ds] eqn:E; [congruence | ].
  simpl List.length. simpl Nat.eqb.
  eexists. split; [reflexivity | ]. simpl. repeat split; reflexivity.
Qed.

Lemma safetyChecks_fields (peakConc troughConc : float) (target : OptimizationTarget)
    (p : Plan) :
  p_recommendedInterval (safetyChecks peakConc troughConc target p) = p_recommendedInterval p
  /\ p_recommendedDose (safetyChecks peakConc troughConc target p) = p_recommendedDose p.
Proof.
  unfold safetyChecks.
  destruct (troughConc <? minEffectiveConc target), (maxSafeConc target <? peakConc);
    split; reflexivity.
Qed.

End Optimizer.

(** C6, as stated, fails on the program: for the regimen with interval 24.05
    and dose 10.01 (percent time above MIC 42.9 against a target of 100, peak
    7.078 below 0.8 * 50) the dose chosen is [min(10.01 * 1.3, 45)], that is
    13.013, but the recommendation returned holds
    [Math.round(dose * 10) / 10 = 13], and the interval 24.1 for 24.05. *)
Lemma C6_counterexample :
  exists rec res,
    results (Ex.stateAfter Ex.drugLow Ex.simLow) = Some res
    /\ calculateOptimization RefMath.lib (Ex.stateAfter Ex.drugLow Ex.simLow)
         Ex.drugLow Ex.targetLow = Some rec
    /\ (JS.parseFloat (r_percentTOverMIC res) / targetTOverMIC Ex.targetLow <? 0.8)%float
       = true
    /\ (JS.Math_max_list (map drug (chartData (Ex.stateAfter Ex.drugLow Ex.simLow)))
        <? maxSafeConc Ex.targetLow * 0.8)%float = true
    /\ (recommendedDose rec
        =? JS.Math_min (maxConcentration Ex.drugLow * 1.3)
                       (maxSafeConc Ex.targetLow * 0.9))%float = false
    /\ (recommendedInterval rec =? dosingInterval Ex.drugLow)%float = false
    /\ recommendedDose rec = 13%float
    /\ recommendedInterval rec = 24.1%float.
Proof.
  eexists. eexists.
  split; [vm_compute; reflexivity | ].
  split; [vm_compute; reflexivity | ].
  repeat split; vm_compute; reflexivity.
Qed.

(** C6, amended: when the ratio of the current to the target percent time
    above MIC is below 0.8 and the chart peak is below 0.8 * maxSafeConc, the
    optimizer chooses the dose [min(currentDose * 1.3, 0.9 * maxSafeConc)],
    keeps the interval, and sets confidence 0.85 and risk "Low"; the
    recommendation it returns holds the dose and the interval rounded to one
    decimal ([Math.round(x * 10) / 10]) and, when no safety check fires,
    confidence 0.85 and risk "Low". *)
Theorem C6_increase_dose (M : MathLib) (st : State) (drugParams : DrugParams float)
    (target : OptimizationTarget) (res : Results) :
  results st = Some res -> chartData st <> [] ->
  let peakConc := JS.Math_max_list (map drug (chartData st)) in
  let troughConc := JS.Math_min_list (map drug (chartData st)) in
  let currentTOverMIC := JS.parseFloat (r_percentTOverMIC res) in
  (currentTOverMIC / targetTOverMIC target <? 0.8)%float = true ->
  (peakConc <? maxSafeConc target * 0.8)%float = true ->
  ratioRules (dosingInterval drugParams) (maxConcentration drugParams) currentTOverMIC
    peakConc troughConc target
  = {| p_recommendedInterval := dosingInterval drugParams;
       p_recommendedDose :=
         JS.Math_min (maxConcentration drugParams * 1.3) (maxSafeConc target * 0.9);
       p_confidence := 0.85%float;
       p_riskAssessment := "Low" |}
  /\ exists rec,
       calculateOptimization M st drugParams target = Some rec
       /\ recommendedDose rec
          = (JS.Math_round
               (JS.Math_min (maxConcentration drugParams * 1.3) (maxSafeConc target * 0.9)
                * 10) / 10)%float
       /\ recommendedInterval rec
          = (JS.Math_round (dosingInterval drugParams * 10) / 10)%float
       /\ ((troughConc <? minEffectiveConc target)%float = false ->
           (maxSafeConc target <? peakConc)%float = false ->
           confidence rec = 0.85%float /\ riskAssessment rec = "Low"%string).
Proof.
  intros Hres Hne peakConc troughConc currentTOverMIC Hratio Hpeak.
  assert (Hplan :
    ratioRules (dosingInterval drugParams) (maxConcentration drugParams) currentTOverMIC
      peakConc troughConc target
    = {| p_recommendedInterval := dosingInterval drugParams;
         p_recommendedDose :=
           JS.Math_min (maxConcentration drugParams * 1.3) (maxSafeConc target * 0.9);
         p_confidence := 0.85%float;
         p_riskAssessment := "Low" |}).
  { unfold ratioRules. rewrite Hratio, Hpeak. reflexivity. }
  split; [exact Hplan | ].
  destruct (calculateOptimization_Some M st drugParams target res Hres Hne)
    as (rec & Hrec & Hi & Hd & Hr & Hc).
  fold peakConc troughConc currentTOverMIC in Hi, Hd, Hr, Hc.
  rewrite Hplan in Hi, Hd, Hr, Hc.
  destruct (safetyChecks_fields peakConc troughConc target
              {| p_recommendedInterval := dosingInterval drugParams;
                 p_recommendedDose :=
                   JS.Math_min (maxConcentration drugParams * 1.3)
                               (maxSafeConc target * 0.9);
                 p_confidence := 0.85%float;
                 p_riskAssessment := "Low" |}) as [Si Sd].
  rewrite Si in Hi. rewrite Sd in Hd. simpl in Hi, Hd.
  exists rec. split; [exact Hrec | ]. split; [exact Hd | ]. split; [exact Hi | ].
  intros Ht Hp. unfold safetyChecks in Hr, Hc. rewrite Ht, Hp in Hr, Hc.
  simpl in Hr, Hc. split; [ | exact Hr].
  rewrite Hc. vm_compute. reflexivity.
Qed.

(** The low-dose regimen of the counterexample: the plan is dose 13.013,
    the recommendation holds 13, risk "Low", confidence 0.85. *)
Lemma C6_increase_dose_witness :
  exists rec,
    calculateOptimization RefMath.lib (Ex.stateAfter Ex.drugLow Ex.simLow)
      Ex.drugLow Ex.targetLow = Some rec
    /\ recommendedDose rec = 13%float
    /\ confidence rec = 0.85%float
    /\ riskAssessment rec = "Low"%string.
Proof.
  destruct (C6_increase_dose RefMath.lib (Ex.stateAfter Ex.drugLow Ex.simLow)
              Ex.drugLow Ex.targetLow
              match results (Ex.stateAfter Ex.drugLow Ex.simLow) with
              | Some r => r
              | None => formatResults RefMath.lib Ex.drugLow Ex.inhibitor
                          (summarize (N := FloatNum RefMath.lib)
                             (initialLoopState (N := FloatNum RefMath.lib) Ex.simLow))
              end)
    as (_ & rec & Hrec & Hd & _ & Hrest).
  - vm_compute. reflexivity.
  - vm_compute. discriminate.
  - vm_compute. reflexivity.
  - vm_compute. reflexivity.
  - exists rec. split; [exact Hrec | ].
    split; [rewrite Hd; vm_compute; reflexivity | ].
    apply Hrest; vm_compute; reflexivity.
Defined.

(** C7: the two safety checks are applied to whatever the ratio rules
    chose, the subtherapeutic check first and the toxicity check last, and
    they change only the risk and the confidence.  Whenever a summary and a
    time series are committed, the recommendation holds the interval and the
    dose of the ratio rules (rounded to one decimal), and
    - if the chart peak is above [maxSafeConc], risk "High - Risk of
      toxicity" and confidence 0.5, whether or not the chart trough is below
      [minEffectiveConc];
    - otherwise, if the chart trough is below [minEffectiveConc], risk
      "High - Risk of subtherapeutic levels" and confidence 0.6;
    - otherwise the risk and the (rounded) confidence of the ratio rules. *)
Theorem C7_safety_overrides (M : MathLib) (st : State) (drugParams : DrugParams float)
    (target : OptimizationTarget) (res : Results) :
  results st = Some res -> chartData st <> [] ->
  let peakConc := JS.Math_max_list (map drug (chartData st)) in
  let troughConc := JS.Math_min_list (map drug (chartData st)) in
  let plan :=
    ratioRules (dosingInterval drugParams) (maxConcentration drugParams)
      (JS.parseFloat (r_percentTOverMIC res)) peakConc troughConc target in
  exists rec,
    calculateOptimization M st drugParams target = Some rec
    /\ recommendedInterval rec
       = (JS.Math_round (p_recommendedInterval plan * 10) / 10)%float
    /\ recommendedDose rec = (JS.Math_round (p_recommendedDose plan * 10) / 10)%float
    /\ ((maxSafeConc target <? peakConc)%float = true ->
        riskAssessment rec = "High - Risk of toxicity"%string
        /\ confidence rec = 0.5%float)
    /\ ((maxSafeConc target <? peakConc)%float = false ->
        (troughConc <? minEffectiveConc target)%float = true ->
        riskAssessment rec = "High - Risk of subtherapeutic levels"%string
        /\ confidence rec = 0.6%float)
    /\ ((maxSafeConc target <? peakConc)%float = false ->
        (troughConc <? minEffectiveConc target)%float = false ->
        riskAssessment rec = p_riskAssessment plan
        /\ confidence rec = (JS.Math_round (p_confidence plan * 100) / 100)%float).
Proof.
  intros Hres Hne peakConc troughConc plan.
  destruct (calculateOptimization_Some M st drugParams target res Hres Hne)
    as (rec & Hrec & Hi & Hd & Hr & Hc).
  fold peakConc troughConc in Hi, Hd, Hr, Hc. fold plan in Hi, Hd, Hr, Hc.
  destruct (safetyChecks_fields peakConc troughConc target plan) as [Si Sd].
  rewrite Si in Hi. rewrite Sd in Hd.
  exists rec. split; [exact Hrec | ]. split; [exact Hi | ]. split; [exact Hd | ].
  unfold safetyChecks in Hr, Hc.
  split; [ | split].
  - intros Hp. rewrite Hp in Hr, Hc. simpl in Hr, Hc.
    split; [exact Hr | ]. rewrite Hc. vm_compute. reflexivity.
  - intros Hp Ht. rewrite Hp, Ht in Hr, Hc. simpl in Hr, Hc.
    split; [exact Hr | ]. rewrite Hc. vm_compute. reflexivity.
  - intros Hp Ht. rewrite Hp, Ht in Hr, Hc. split; assumption.
Qed.

(** The default regimen sampled hourly, against the default target: the
    chart peak 100 is above [maxSafeConc = 50] while the chart trough 7.015
    is not below [minEffectiveConc = 2]; only the toxicity check fires. *)
Lemma C7_safety_overrides_witness :
  (JS.Math_min_list (map drug (chartData (Ex.stateAfter Ex.drug Ex.simHourly)))
   <? minEffectiveConc Ex.target)%float = false
  /\ exists rec,
       calculateOptimization RefMath.lib (Ex.stateAfter Ex.drug Ex.simHourly)
         Ex.drug Ex.target = Some rec
       /\ riskAssessment rec = "High - Risk of toxicity"%string
       /\ confidence rec = 0.5%float.
Proof.
  split; [vm_compute; reflexivity | ].
  destruct (C7_safety_overrides RefMath.lib (Ex.stateAfter Ex.drug Ex.simHourly)
              Ex.drug Ex.target
              match results (Ex.stateAfter Ex.drug Ex.simHourly) with
              | Some r => r
              | None => formatResults RefMath.lib Ex.drug Ex.inhibitor
                          (summarize (N := FloatNum RefMath.lib)
                             (initialLoopState (N := FloatNum RefMath.lib) Ex.simHourly))
              end)
    as (rec & Hrec & _ & _ & Htox & _).
  - vm_compute. reflexivity.
  - vm_compute. discriminate.
  - exists rec. split; [exact Hrec | ].
    apply Htox. vm_compute. reflexivity.
Defined.

(* ================================================================= *)
(** ** The dynamic MIC (C8) *)

Section BaselineMIC.

Variable M : MathLib.
Local Open Scope float_scope.

Lemma of_nat_2 : JS.of_nat 2 = 2.
Proof. reflexivity. Qed.

(** [imax * 0 / (0 + K)] is a zero when [imax] is finite and [K] is a
    positive number. *)
Lemma hill_quotient_zero (a K : float) :
  is_finite a = true -> (0 <? K) = true ->
  exists s, Prim2SF ((a * 0) / (0 + K)) = S754_zero s.
Proof.
  rewrite is_finite_spec, ltb_spec, Prim2SF_zero.
  rewrite div_spec, mul_spec, add_spec, Prim2SF_zero.
  unfold SFltb.
  destruct (Prim2SF a) as [sa | sa | | sa ma ea], (Prim2SF K) as [sk | sk | | sk mk ek];
    simpl; try discriminate; try (destruct sk; discriminate); intros _ _;
    eexists; reflexivity.
Qed.

(** It is NaN when [K] is 0. *)
Lemma hill_quotient_nan (a : float) :
  is_finite a = true -> (a * 0) / (0 + 0) = nan.
Proof.
  rewrite is_finite_spec. intros Ha. apply Prim2SF_inj.
  rewrite div_spec, mul_spec, add_spec, Prim2SF_zero, Prim2SF_nan.
  destruct (Prim2SF a) as [sa | sa | | sa ma ea]; simpl in *; try discriminate;
    reflexivity.
Qed.

Lemma sub_zero_r (x q : float) (s : bool) :
  Prim2SF q = S754_zero s ->
  x - q = x \/ (Prim2SF x = S754_zero true /\ x - q = 0).
Proof.
  intros Hq.
  destruct (Prim2SF x) as [sx | sx | | sx mx ex] eqn:Ex.
  - destruct sx, s.
    + right. split; [reflexivity | ]. apply Prim2SF_inj.
      rewrite sub_spec, Ex, Hq. reflexivity.
    + left. apply Prim2SF_inj. rewrite sub_spec, Ex, Hq. reflexivity.
    + left. apply Prim2SF_inj. rewrite sub_spec, Ex, Hq. reflexivity.
    + left. apply Prim2SF_inj. rewrite sub_spec, Ex, Hq. reflexivity.
  - left. apply Prim2SF_inj. rewrite sub_spec, Ex, Hq. reflexivity.
  - left. apply Prim2SF_inj. rewrite sub_spec, Ex, Hq. reflexivity.
  - left. apply Prim2SF_inj. rewrite sub_spec, Ex, Hq. reflexivity.
Qed.

Lemma sub_nan_r (x : float) : x - nan = nan.
Proof.
  apply Prim2SF_inj. rewrite sub_spec, Prim2SF_nan.
  destruct (Prim2SF x); reflexivity.
Qed.

End BaselineMIC.

Section RefPow.
Local Open Scope float_scope.

(** [RefMath.pow] returns +0 at base +0 and a positive exponent, as
    Number::exponentiate requires. *)
Lemma RefMath_pow_zero (h : float) : (0 <? h) = true -> RefMath.pow 0 h = 0.
Proof.
  intros Hh.
  assert (Hn : is_nan h = false) by (apply (ltb_true_not_nan_r 0 h Hh)).
  assert (Hz : (h =? 0) = false).
  { revert Hh. rewrite ltb_spec, eqb_spec, Prim2SF_zero. unfold SFltb, SFeqb.
    destruct (Prim2SF h) as [s | s | | s m e]; simpl; try discriminate;
      destruct s; simpl; try discriminate; reflexivity. }
  unfold RefMath.pow. rewrite Hn, Hz.
  change (is_nan 0) with false. change (0 =? infinity) with false.
  change (0 =? neg_infinity) with false. change (0 =? 0) with true.
  change (get_sign 0) with false. cbv iota. rewrite Hh. reflexivity.
Qed.

End RefPow.

(** C8, as stated, fails on the program.  With [ic50 = 0.1] and Hill
    coefficient 400, [Math.pow(0.1, 400)] underflows to 0, the quotient at
    inhibitor concentration 0 is [0 / 0], and the MIC is NaN, not
    [2^log2MIC0 = 4].  With the default parameters ([imax = 3], Hill
    coefficient 1) the rounding of [3 c / (c + 25)] makes the exponent
    [2 - 3 c / (c + 25)], and with it the MIC, rise from
    [c = 5.334810640561921] to the next double. *)
Lemma C8_counterexample :
  (0 <? hillCoeff Ex.pdSteep)%float = true
  /\ is_nan (dynamicMIC (N := FloatNum RefMath.lib) Ex.pdSteep 0%float) = true
  /\ RefMath.pow 2 (log2MIC0 Ex.pdSteep) = 4%float
  /\ (0 <=? imax Ex.pd)%float = true
  /\ (0 <? hillCoeff Ex.pd)%float = true
  /\ (0 <=? 5.334810640561921)%float = true
  /\ (5.334810640561921 <? 5.334810640561922)%float = true
  /\ (2 - 3 * 5.334810640561921 / (5.334810640561921 + 25)
      <? 2 - 3 * 5.334810640561922 / (5.334810640561922 + 25))%float = true
  /\ (dynamicMIC (N := FloatNum RefMath.lib) Ex.pd 5.334810640561921
      <? dynamicMIC (N := FloatNum RefMath.lib) Ex.pd 5.334810640561922)%float = true.
Proof. repeat split; vm_compute; reflexivity. Qed.

(** C8, amended.  In binary64, for a [Math.pow] that returns +0 at base +0
    and every positive exponent (as ECMAScript requires), a Hill coefficient
    above 0 and a finite [imax]: when [Math.pow(ic50, hillCoeff)] is a
    positive number, the MIC at inhibitor concentration 0 is
    [Math.pow(2, log2MIC0)] (for [log2MIC0 = -0] the exponent may be +0
    instead); when it is 0, the MIC is [Math.pow(2, NaN)].  In exact
    arithmetic, for a Hill coefficient and an [ic50] above 0, the MIC at
    concentration 0 is [2^log2MIC0], and if moreover [imax >= 0] the MIC
    [2^(log2MIC0 - imax c^h / (c^h + ic50^h))] does not increase with the
    inhibitor concentration [c >= 0]. *)
Theorem C8_dynamic_mic :
  (forall (M : MathLib) (pd : PDParams float),
      (forall h : float, (0 <? h)%float = true -> Math_pow M 0 h = 0%float) ->
      (0 <? hillCoeff pd)%float = true ->
      is_finite (imax pd) = true ->
      ((0 <? Math_pow M (ic50 pd) (hillCoeff pd))%float = true ->
       dynamicMIC (N := FloatNum M) pd 0%float = Math_pow M 2 (log2MIC0 pd)
       \/ (Prim2SF (log2MIC0 pd) = S754_zero true
           /\ dynamicMIC (N := FloatNum M) pd 0%float = Math_pow M 2 0))
      /\ (Math_pow M (ic50 pd) (hillCoeff pd) = 0%float ->
          dynamicMIC (N := FloatNum M) pd 0%float = Math_pow M 2 nan))
  /\ (forall pd : PDParams R,
         (0 < hillCoeff pd)%R -> (0 < ic50 pd)%R ->
         dynamicMIC (N := Exact.RealNum) pd 0%R = Rpower 2 (log2MIC0 pd)
         /\ ((0 <= imax pd)%R ->
             forall c1 c2 : R, (0 <= c1 <= c2)%R ->
               (dynamicMIC (N := Exact.RealNum) pd c2
                <= dynamicMIC (N := Exact.RealNum) pd c1)%R
               /\ dynamicMIC (N := Exact.RealNum) pd c2
                  = Rpower 2 (log2MIC0 pd
                              - imax pd * Exact.pow c2 (hillCoeff pd)
                                / (Exact.pow c2 (hillCoeff pd)
                                   + Exact.pow (ic50 pd) (hillCoeff pd))))).
Proof.
  split.
  - intros M pd HM Hh Him.
    unfold dynamicMIC, calculateLog2MIC.
    cbn [n_pow n_of_nat n_mul n_add n_sub n_div FloatNum].
    rewrite of_nat_2, (HM _ Hh). split.
    + intros HK.
      destruct (hill_quotient_zero (imax pd) _ Him HK) as [s Hs].
      destruct (sub_zero_r (log2MIC0 pd) _ s Hs) as [E | [Ez E]].
      * left. now rewrite E.
      * right. split; [exact Ez | now rewrite E].
    + intros HK. rewrite HK, (hill_quotient_nan (imax pd) Him), sub_nan_r.
      reflexivity.
  - intros pd Hh Hic. split.
    + rewrite dynamicMIC_exact, pow_zero_base by exact Hh.
      f_equal. unfold Rdiv. rewrite Rmult_0_r, Rmult_0_l. ring.
    + intros Him c1 c2 Hc. split; [ | apply dynamicMIC_exact].
      rewrite !dynamicMIC_exact.
      apply Rle_Rpower; [lra | ].
      pose proof (pow_pos (ic50 pd) (hillCoeff pd) Hic) as HK.
      pose proof (pow_nonneg c1 (hillCoeff pd) (proj1 Hc) Hh) as Hu1.
      pose proof (pow_mono_base c1 c2 (hillCoeff pd) Hh Hc) as Hu.
      pose proof (hill_fraction_mono _ _ _ (imax pd) HK Him (conj Hu1 Hu)) as H.
      lra.
Qed.

(** The default parameters ([log2MIC0 = 2], [imax = 3], [ic50 = 25], Hill
    coefficient 1): in binary64 with [RefMath] the MIC at concentration 0 is
    [RefMath.pow 2 2]; with [ic50 = 0.1] and Hill coefficient 400 it is
    [RefMath.pow 2 NaN]; in exact arithmetic the MIC at 50 is at most the
    MIC at 0, which is [2^2]. *)
Lemma C8_dynamic_mic_witness :
  dynamicMIC (N := FloatNum RefMath.lib) Ex.pd 0%float = RefMath.pow 2 2
  /\ dynamicMIC (N := FloatNum RefMath.lib) Ex.pdSteep 0%float = RefMath.pow 2 nan
  /\ dynamicMIC (N := Exact.RealNum) Ex.pdR 0%R = Rpower 2 2
  /\ (dynamicMIC (N := Exact.RealNum) Ex.pdR 50 <= dynamicMIC (N := Exact.RealNum) Ex.pdR 0)%R.
Proof.
  destruct C8_dynamic_mic as [Hfloat Hexact].
  split; [ | split].
  - destruct (Hfloat RefMath.lib Ex.pd RefMath_pow_zero) as [H _];
      [vm_compute; reflexivity | vm_compute; reflexivity | ].
    destruct H as [H | [H _]]; [vm_compute; reflexivity | exact H | ].
    vm_compute in H. discriminate.
  - destruct (Hfloat RefMath.lib Ex.pdSteep RefMath_pow_zero) as [_ H];
      [vm_compute; reflexivity | vm_compute; reflexivity | ].
    apply H. vm_compute. reflexivity.
  - assert (Hh : (0 < hillCoeff Ex.pdR)%R) by (simpl; lra).
    assert (Hic : (0 < ic50 Ex.pdR)%R) by (simpl; lra).
    assert (Him : (0 <= imax Ex.pdR)%R) by (simpl; lra).
    destruct (Hexact Ex.pdR Hh Hic) as [H0 Hmono].
    split; [exact H0 | ].
    apply (Hmono Him 0%R 50%R). lra.
Defined.

(* ================================================================= *)
(** ** The AUC integrator (C9) *)

(** C9, as stated, fails on the program: for the ascending series
    [0, 0.1, 0.3] with constant concentration 3 the integrator returns 0.9,
    while [3 * (0.3 - 0)] is 0.8999999999999999.  Each trapezoid and each
    partial sum is rounded. *)
Lemma C9_counterexample :
  (calculateAUC (N := FloatNum RefMath.lib) [0; 0.1; 0.3] [3; 3; 3]
   =? 3 * (0.3 - 0))%float = false.
Proof. vm_compute. reflexivity. Qed.

(** C9, amended: the integrator is the trapezoid sum over consecutive pairs;
    it returns 0 for an empty and for a single-sample series (any
    arithmetic), and in exact arithmetic it returns [c * (t1 - t0)] for a
    series of constant concentration [c] whose first and last times are [t0]
    and [t1]. *)
Theorem C9_auc :
  (forall (num : Type) (N : Num num) (t : num) (cs : list num),
      calculateAUC [] cs = n_of_nat 0 /\ calculateAUC [t] cs = n_of_nat 0)
  /\ (forall (tp : list R) (c : R),
         calculateAUC (N := Exact.RealNum) tp (repeat c (List.length tp))
         = (c * (last tp 0 - hd 0 tp))%R)
  /\ (forall (num : Type) (N : Num num) (tp cs : list num),
         calculateAUC tp cs
         = fold_left
             (fun auc i =>
                (auc + (nth (i - 1) cs n_undef + nth i cs n_undef) / n_of_nat 2
                       * (nth i tp n_undef - nth (i - 1) tp n_undef))%num)
             (seq 1 (List.length tp - 1)) (n_of_nat 0)).
Proof.
  split; [ | split].
  - intros num N t cs. split; reflexivity.
  - intros tp c. apply calculateAUC_constant.
  - intros num N tp cs. reflexivity.
Qed.

(* ================================================================= *)
(** ** Infusion time 0 (C10) *)

Section ZeroInfusion.

Local Open Scope float_scope.

Lemma rem_zero_l (d : float) : (0 <? d) = true -> JS.rem 0 d = 0.
Proof.
  rewrite ltb_spec. unfold JS.rem. rewrite Prim2SF_zero. unfold SFltb.
  destruct (Prim2SF d) as [s | s | | s m e]; simpl; try discriminate; reflexivity.
Qed.

(** With infusion time 0 the infusion formula never yields a finite
    number. *)
Lemma infusion_zero_not_finite (M : MathLib) (t tCycleStart minConc maxConc : float) :
  is_finite (concentrationDuringInfusion (N := FloatNum M) t tCycleStart 0 minConc maxConc)
  = false.
Proof.
  unfold concentrationDuringInfusion.
  apply add_not_finite_r, mul_not_finite_r, div_zero_not_finite.
Qed.

Lemma mul_nan_r (a : float) : a * nan = nan.
Proof.
  apply Prim2SF_inj. rewrite mul_spec, Prim2SF_nan.
  destruct (Prim2SF a); reflexivity.
Qed.

Lemma add_nan_r (a : float) : a + nan = nan.
Proof.
  apply Prim2SF_inj. rewrite add_spec, Prim2SF_nan.
  destruct (Prim2SF a); reflexivity.
Qed.

Lemma div_zero_pos (d : float) : (0 <? d) = true -> 0 / d = 0.
Proof.
  rewrite ltb_spec. intros H. apply Prim2SF_inj. rewrite div_spec.
  rewrite Prim2SF_zero in *. unfold SFltb in H.
  destruct (Prim2SF d) as [s | s | | s m e]; simpl in H; try discriminate;
    destruct s; try discriminate; reflexivity.
Qed.

(** [0 * d] is 0, or NaN when [d] is infinite. *)
Lemma mul_zero_pos (d : float) : (0 <? d) = true -> 0 * d = 0 \/ 0 * d = nan.
Proof.
  rewrite ltb_spec. intros H. rewrite Prim2SF_zero in H. unfold SFltb in H.
  destruct (Prim2SF d) as [s | s | | s m e] eqn:E; simpl in H; try discriminate;
    destruct s; try discriminate.
  - right. apply Prim2SF_inj. rewrite mul_spec, Prim2SF_zero, E. reflexivity.
  - left. apply Prim2SF_inj. rewrite mul_spec, Prim2SF_zero, E. reflexivity.
Qed.

(** At [t = 0] the infusion formula divides 0 by 0. *)
Lemma infusion_zero_at_start (M : MathLib) (d minConc maxConc : float) :
  (0 <? d) = true ->
  concentrationDuringInfusion (N := FloatNum M) 0 (JS.Math_floor (0 / d) * d) 0
    minConc maxConc = nan.
Proof.
  intros Hd. unfold concentrationDuringInfusion.
  change (@n_add float (FloatNum M)) with PrimFloat.add.
  change (@n_sub float (FloatNum M)) with PrimFloat.sub.
  change (@n_mul float (FloatNum M)) with PrimFloat.mul.
  change (@n_div float (FloatNum M)) with PrimFloat.div.
  rewrite (div_zero_pos d Hd).
  change (JS.Math_floor 0) with 0.
  assert (E : (0 - 0 * d) / 0 = nan).
  { destruct (mul_zero_pos d Hd) as [E | E]; rewrite E; reflexivity. }
  rewrite E, mul_nan_r, add_nan_r. reflexivity.
Qed.

End ZeroInfusion.

(** C10: a regimen with infusion time 0 (and positive dosing interval,
    half-life and maximum concentration) passes validation; at every sample
    whose time in cycle is [<= 0] the loop takes the infusion branch and
    divides by the infusion time 0, and the concentration it computes is
    never a finite number; at the first sample, [t = 0], it is 0/0 and the
    concentration is NaN. *)
Theorem C10_zero_infusion_time (M : MathLib) (p : DrugParams float) :
  infusionTime p = 0%float ->
  (0 <? dosingInterval p)%float = true ->
  (0 <? halfLife p)%float = true ->
  (0 <? maxConcentration p)%float = true ->
  validateDrugParams (N := FloatNum M) p = []
  /\ (forall minConc k t : float,
         (JS.rem t (dosingInterval p) <=? infusionTime p)%float = true ->
         regimenConcentration (N := FloatNum M) p minConc k t
         = concentrationDuringInfusion (N := FloatNum M) t
             (JS.Math_floor (t / dosingInterval p) * dosingInterval p)%float
             0%float minConc (maxConcentration p)
         /\ is_finite (regimenConcentration (N := FloatNum M) p minConc k t) = false)
  /\ (forall minConc k : float,
         regimenConcentration (N := FloatNum M) p minConc k 0%float = JS.NaN).
Proof.
  intros Hit Hdi Hhl Hmx.
  assert (Hbranch : forall minConc k t : float,
             (JS.rem t (dosingInterval p) <=? infusionTime p)%float = true ->
             regimenConcentration (N := FloatNum M) p minConc k t
             = concentrationDuringInfusion (N := FloatNum M) t
                 (JS.Math_floor (t / dosingInterval p) * dosingInterval p)%float
                 0%float minConc (maxConcentration p)).
  { intros minConc k t Hle. unfold regimenConcentration.
    change (@n_le float (FloatNum M)) with PrimFloat.leb.
    change (@n_rem float (FloatNum M)) with JS.rem.
    rewrite Hle, Hit. reflexivity. }
  split; [ | split].
  - assert (Hnum : numeric p = true).
    { unfold numeric. rewrite Hit.
      rewrite (ltb_true_not_nan_r _ _ Hdi), (ltb_true_not_nan_r _ _ Hhl),
        (ltb_true_not_nan_r _ _ Hmx). reflexivity. }
    rewrite (validateDrugParams_rules M p Hnum). apply ruleViolations_nil.
    unfold rulesHold. rewrite Hdi, Hhl, Hmx, Hit.
    rewrite (ltb_leb _ _ Hdi). reflexivity.
  - intros minConc k t Hle. split; [apply Hbranch; exact Hle | ].
    rewrite (Hbranch minConc k t Hle). apply infusion_zero_not_finite.
  - intros minConc k.
    assert (Hle : (JS.rem 0 (dosingInterval p) <=? infusionTime p)%float = true).
    { rewrite (rem_zero_l _ Hdi), Hit. reflexivity. }
    rewrite (Hbranch minConc k 0%float Hle). apply infusion_zero_at_start. exact Hdi.
Qed.

(** The bolus regimen (interval 24, infusion time 0) sampled every 8 h for
    two cycles: validation passes and the drug concentration is NaN at
    [t = 0], 24 and 48, so the drug AUC is NaN too. *)
Lemma C10_zero_infusion_time_witness :
  validateDrugParams (N := FloatNum RefMath.lib) Ex.drugBolus = []
  /\ regimenConcentration (N := FloatNum RefMath.lib) Ex.drugBolus
       (drugMinConc (N := FloatNum RefMath.lib) Ex.drugBolus)
       (kDrug (N := FloatNum RefMath.lib) Ex.drugBolus) 0%float = JS.NaN
  /\ exists c,
       compute (N := FloatNum RefMath.lib) Ex.drugBolus Ex.inhibitor Ex.pd Ex.simBolus 10
       = Done c
       /\ timePoints (arrays c) = [0; 8; 16; 24; 32; 40; 48]%float
       /\ map is_nan (drugConcentrations (arrays c))
          = [true; false; false; true; false; false; true]
       /\ is_nan (drugAUC c) = true.
Proof.
  destruct (C10_zero_infusion_time RefMath.lib Ex.drugBolus) as (Hv & _ & H0);
    try (vm_compute; reflexivity).
  split; [exact Hv | ]. split; [apply H0 | ].
  eexists. split; [vm_compute; reflexivity | ].
  repeat split; vm_compute; reflexivity.
Defined.

(* ================================================================= *)
(** ** Further facts *)



(** In binary64, with the implementation [RefMath], the default PD
    parameters give the baseline MIC [2^2 = 4] at inhibitor concentration
    0. *)
Lemma dynamicMIC_zero_binary64 :
  dynamicMIC (N := FloatNum RefMath.lib) Ex.pd 0%float = 4%float.
Proof. vm_compute. reflexivity. Qed.

(** The end-to-end scenario in binary64: 3 [CycleResult]s of 240 samples
    each, every percentage in [0,100]. *)
Lemma end_to_end_scenario :
  exists c,
    compute (N := FloatNum RefMath.lib) Ex.drug Ex.inhibitor Ex.pd Ex.sim 1000 = Done c
    /\ map (fun r => (cycle r, List.length (c_timePoints r))) (cycleResultsData c)
       = [(1, 240); (2, 240); (3, 240)]%nat
    /\ forallb (fun r => inPercentRange (c_percentTOverMIC r)) (cycleResultsData c) = true
    /\ inPercentRange (percentTOverMIC c) = true.
Proof.
  eexists. split; [vm_compute; reflexivity | ].
  repeat split; vm_compute; reflexivity.
Qed.

(* ================================================================= *)
(** ** Further properties: input handlers *)

Section Order.
Local Open Scope float_scope.

(** A float that is at least a positive finite float is positive. *)
Lemma leb_pos_finite (c x : float) (m : positive) (e : Z) :
  Prim2SF c = S754_finite false m e -> (c <=? x) = true ->
  (0 <? x) = true /\ (x <=? 0) = false /\ (x <? 0) = false /\ is_nan x = false.
Proof.
  intros Hc. rewrite is_nan_spec, !ltb_spec, !leb_spec, Hc, Prim2SF_zero.
  unfold SFltb, SFleb.
  destruct (Prim2SF x) as [s | s | | s m' e']; simpl; try discriminate.
  - destruct s; simpl; try discriminate. repeat split; reflexivity.
  - destruct s; simpl; try discriminate. intros _. repeat split; reflexivity.
Qed.

Lemma Math_max_cases (a b : float) :
  is_nan a = false -> is_nan b = false ->
  (JS.Math_max a b = a \/ JS.Math_max a b = b)
  /\ (a <=? JS.Math_max a b) = true /\ (b <=? JS.Math_max a b) = true.
Proof.
  intros Ha Hb. unfold JS.Math_max. rewrite Ha, Hb. simpl.
  assert (Raa : (a <=? a) = true).
  { rewrite leb_spec. unfold SFleb. rewrite SFcompare_refl; [reflexivity | ].
    rewrite is_nan_spec in Ha. destruct (Prim2SF a); congruence. }
  assert (Rbb : (b <=? b) = true).
  { rewrite leb_spec. unfold SFleb. rewrite SFcompare_refl; [reflexivity | ].
    rewrite is_nan_spec in Hb. destruct (Prim2SF b); congruence. }
  destruct (a <? b) eqn:Eab.
  - repeat split; auto using ltb_leb.
  - destruct (b <? a) eqn:Eba.
    + repeat split; auto using ltb_leb.
    + assert (Lab : (a <=? b) = true) by (rewrite leb_negb_ltb, Eba; auto).
      assert (Lba : (b <=? a) = true) by (rewrite leb_negb_ltb, Eab; auto).
      destruct (get_sign a); repeat split; auto.
Qed.

Lemma Math_min_cases (a b : float) :
  is_nan a = false -> is_nan b = false ->
  (JS.Math_min a b = a \/ JS.Math_min a b = b)
  /\ (JS.Math_min a b <=? a) = true /\ (JS.Math_min a b <=? b) = true.
Proof.
  intros Ha Hb. unfold JS.Math_min. rewrite Ha, Hb. simpl.
  assert (Raa : (a <=? a) = true).
  { rewrite leb_spec. unfold SFleb. rewrite SFcompare_refl; [reflexivity | ].
    rewrite is_nan_spec in Ha. destruct (Prim2SF a); congruence. }
  assert (Rbb : (b <=? b) = true).
  { rewrite leb_spec. unfold SFleb. rewrite SFcompare_refl; [reflexivity | ].
    rewrite is_nan_spec in Hb. destruct (Prim2SF b); congruence. }
  destruct (a <? b) eqn:Eab.
  - repeat split; auto using ltb_leb.
  - destruct (b <? a) eqn:Eba.
    + repeat split; auto using ltb_leb.
    + assert (Lab : (a <=? b) = true) by (rewrite leb_negb_ltb, Eba; auto).
      assert (Lba : (b <=? a) = true) by (rewrite leb_negb_ltb, Eab; auto).
      destruct (get_sign a); repeat split; auto.
Qed.

Lemma leb_true_not_nan (a b : float) :
  (a <=? b) = true -> is_nan a = false /\ is_nan b = false.
Proof.
  rewrite leb_spec, !is_nan_spec. unfold SFleb.
  destruct (Prim2SF a), (Prim2SF b); simpl; try discriminate; auto.
Qed.

End Order.

Section Handlers.
Local Open Scope float_scope.

Lemma tenth_finite : Prim2SF 0.1 = S754_finite false 7205759403792794 (-56).
Proof. reflexivity. Qed.

Lemma one_finite : Prim2SF 1 = S754_finite false 4503599627370496 (-52).
Proof. reflexivity. Qed.

Lemma onChange_floor (c old : float) (v : InputValue) :
  is_nan c = false -> (c <=? old) = true ->
  match v with Empty => true | Entered n => negb (is_nan n) end = true ->
  (c <=? onChange (JS.Math_max c) old v) = true.
Proof.
  intros Hc Hold Hv. destruct v as [ | n]; simpl; [exact Hold | ].
  apply negb_true_iff in Hv. apply (Math_max_cases c n Hc Hv).
Qed.

Lemma clamped_edit (p : DrugParams float) (e : RegimenEdit) :
  clamped p = true -> entersNaN e = false -> clamped (edit p e) = true.
Proof.
  unfold clamped, entersNaN. intros Hp He.
  apply andb_true_iff in Hp as [Hp H4]. apply andb_true_iff in Hp as [Hp H3].
  apply andb_true_iff in Hp as [H1 H2].
  assert (Hv : match editValue e with Empty => true | Entered n => negb (is_nan n) end = true).
  { destruct (editValue e); [reflexivity | now rewrite He]. }
  destruct e as [v | v | v | v]; simpl in *;
    rewrite ?H1, ?H2, ?H3, ?H4, ?onChange_floor by (assumption || reflexivity);
    reflexivity.
Qed.

Lemma clamped_errors (M : MathLib) (p : DrugParams float) (msg : string) :
  clamped p = true ->
  In msg (validateDrugParams (N := FloatNum M) p) ->
  msg = "Infusion time cannot exceed dosing interval"%string.
Proof.
  unfold clamped. intros Hp.
  apply andb_true_iff in Hp as [Hp H4]. apply andb_true_iff in Hp as [Hp H3].
  apply andb_true_iff in Hp as [H1 H2].
  destruct (leb_pos_finite _ _ _ _ tenth_finite H1) as (_ & E1 & _ & _).
  destruct (leb_pos_finite _ _ _ _ tenth_finite H2) as (_ & _ & E2 & _).
  destruct (leb_pos_finite _ _ _ _ tenth_finite H3) as (_ & E3 & _ & _).
  destruct (leb_pos_finite _ _ _ _ tenth_finite H4) as (_ & E4 & _ & _).
  unfold validateDrugParams. cbn [n_le n_lt n_of_nat FloatNum].
  change (JS.of_nat 0) with 0.
  rewrite E1, E2, E3, E4. simpl.
  destruct (dosingInterval p <? infusionTime p); simpl; intros H; [ | contradiction].
  destruct H as [H | []]. now symmetry.
Qed.

End Handlers.

(** X2: a regimen edited through its four input handlers.  Starting from a
    regimen whose fields are all at least 0.1 (the defaults are), after any
    sequence of edits none of which enters NaN, every field is still at least
    0.1, so the infusion time is positive, and the only message validation
    can give is "Infusion time cannot exceed dosing interval". *)
Theorem edited_regimen_errors (M : MathLib) (p0 : DrugParams float)
    (es : list RegimenEdit) :
  clamped p0 = true ->
  forallb (fun e => negb (entersNaN e)) es = true ->
  clamped (fold_left edit es p0) = true
  /\ (0 <? infusionTime (fold_left edit es p0))%float = true
  /\ forall msg : string,
       In msg (validateDrugParams (N := FloatNum M) (fold_left edit es p0)) ->
       msg = "Infusion time cannot exceed dosing interval"%string.
Proof.
  intros Hp Hes.
  assert (H : clamped (fold_left edit es p0) = true).
  { revert p0 Hp Hes. induction es as [ | e es IH]; intros p0 Hp Hes; [exact Hp | ].
    simpl in Hes. apply andb_true_iff in Hes as [He Hes].
    apply negb_true_iff in He. simpl. apply IH; [ | exact Hes].
    now apply clamped_edit. }
  split; [exact H | ]. split.
  - unfold clamped in H. apply andb_true_iff in H as [H _].
    apply andb_true_iff in H as [H _]. apply andb_true_iff in H as [_ H].
    apply (leb_pos_finite _ _ _ _ tenth_finite H).
  - intros msg. now apply clamped_errors.
Qed.

(** The default regimen after entering an infusion time of 30 h and a
    half-life of -2 h: the half-life is stored as 0.1, and validation gives
    the one message. *)
Lemma edited_regimen_errors_witness :
  clamped (fold_left edit [EditInfusionTime (Entered 30); EditHalfLife (Entered (-2))]
             Ex.drug) = true
  /\ (0 <? infusionTime
             (fold_left edit [EditInfusionTime (Entered 30); EditHalfLife (Entered (-2))]
                Ex.drug))%float = true
  /\ forall msg : string,
       In msg (validateDrugParams (N := FloatNum RefMath.lib)
                 (fold_left edit [EditInfusionTime (Entered 30); EditHalfLife (Entered (-2))]
                    Ex.drug)) ->
       msg = "Infusion time cannot exceed dosing interval"%string.
Proof.
  apply (edited_regimen_errors RefMath.lib Ex.drug
           [EditInfusionTime (Entered 30); EditHalfLife (Entered (-2))]).
  - vm_compute. reflexivity.
  - vm_compute. reflexivity.
Defined.

Section TargetHandlers.
Local Open Scope float_scope.

Lemma orElse_not_nan (x d : float) : is_nan d = false -> is_nan (orElse x d) = false.
Proof.
  intros Hd. unfold orElse. destruct (is_nan x) eqn:E; simpl; [exact Hd | ].
  destruct (x =? 0); [exact Hd | exact E].
Qed.

Lemma targetClamped_edit (p : Panel) (e : TargetEdit) :
  targetClamped (optimizationTarget p) = true ->
  targetClamped (optimizationTarget (editTarget p e)) = true.
Proof.
  unfold targetClamped. intros Hp.
  apply andb_true_iff in Hp as [Hp H4]. apply andb_true_iff in Hp as [Hp H3].
  apply andb_true_iff in Hp as [H1 H2].
  destruct e as [n | n | n]; simpl; rewrite ?H1, ?H2, ?H3, ?H4; simpl.
  - destruct (Math_max_cases 0.1 (orElse n 0.1) eq_refl (orElse_not_nan n 0.1 eq_refl))
      as (_ & H & _). now rewrite H.
  - destruct (Math_max_cases 0.1 (orElse n 0.1) eq_refl (orElse_not_nan n 0.1 eq_refl))
      as (_ & H & _). rewrite H. now rewrite andb_true_r.
  - pose proof (orElse_not_nan n 1 eq_refl) as Hn.
    destruct (Math_min_cases 100 (orElse n 1) eq_refl Hn) as (Hc & Hle & _).
    assert (Hm : is_nan (JS.Math_min 100 (orElse n 1)) = false)
      by (destruct Hc as [-> | ->]; [reflexivity | exact Hn]).
    destruct (Math_max_cases 1 (JS.Math_min 100 (orElse n 1)) eq_refl Hm) as (Hc' & Hge & _).
    rewrite Hge. simpl. destruct Hc' as [-> | ->]; [reflexivity | exact Hle].
Qed.

Lemma targetClamped_errors (t : OptimizationTarget) (msg : string) :
  targetClamped t = true ->
  In msg (validateOptimizationTargets t) ->
  msg = "Minimum effective concentration must be less than maximum safe concentration"%string.
Proof.
  unfold targetClamped. intros Hp.
  apply andb_true_iff in Hp as [Hp H4]. apply andb_true_iff in Hp as [Hp H3].
  apply andb_true_iff in Hp as [H1 H2].
  destruct (leb_pos_finite _ _ _ _ tenth_finite H1) as (_ & E1 & _ & _).
  destruct (leb_pos_finite _ _ _ _ tenth_finite H2) as (_ & E2 & _ & _).
  destruct (leb_pos_finite _ _ _ _ one_finite H3) as (_ & E3 & _ & N3).
  assert (E4 : (100 <? targetTOverMIC t) = false).
  { rewrite ltb_negb_leb by (reflexivity || exact N3). now rewrite H4. }
  unfold validateOptimizationTargets. rewrite E1, E2, E3, E4. simpl.
  destruct (maxSafeConc t <=? minEffectiveConc t); simpl; intros H; [ | contradiction].
  destruct H as [H | []]. now symmetry.
Qed.

End TargetHandlers.

(** X3: the optimization target edited through its three input handlers.
    Whatever is entered (NaN and 0 included), the minimum effective and the
    maximum safe concentration stay at least 0.1 and the target T>MIC stays
    within [1, 100]; the only message [validateOptimizationTargets] can then
    give is the one about the order of the two concentrations. *)
Theorem edited_target_errors (p0 : Panel) (es : list TargetEdit) :
  targetClamped (optimizationTarget p0) = true ->
  targetClamped (optimizationTarget (fold_left editTarget es p0)) = true
  /\ forall msg : string,
       In msg (validateOptimizationTargets (optimizationTarget (fold_left editTarget es p0))) ->
       msg = "Minimum effective concentration must be less than maximum safe concentration"%string.
Proof.
  intros Hp.
  assert (H : targetClamped (optimizationTarget (fold_left editTarget es p0)) = true).
  { revert p0 Hp. induction es as [ | e es IH]; intros p0 Hp; [exact Hp | ].
    simpl. apply IH. now apply targetClamped_edit. }
  split; [exact H | ]. intros msg. now apply targetClamped_errors.
Qed.

(** The mounted panel after NaN is entered as target T>MIC, then 0 as
    maximum safe concentration: the target is (2, 0.1, 1). *)
Lemma edited_target_errors_witness :
  targetClamped (optimizationTarget
                   (fold_left editTarget [EditTargetTOverMIC nan; EditMaxSafeConc 0]
                      initialPanel)) = true
  /\ forall msg : string,
       In msg (validateOptimizationTargets
                 (optimizationTarget
                    (fold_left editTarget [EditTargetTOverMIC nan; EditMaxSafeConc 0]
                       initialPanel))) ->
       msg = "Minimum effective concentration must be less than maximum safe concentration"%string.
Proof.
  apply (edited_target_errors initialPanel [EditTargetTOverMIC nan; EditMaxSafeConc 0]).
  vm_compute. reflexivity.
Defined.

(* ================================================================= *)
(** ** Further properties: the optimization panel *)

Section OptimizationGate.
Local Open Scope float_scope.

(** Above a positive number is positive. *)
Lemma ltb_pos_trans (a b : float) : (0 <? a) = true -> (a <? b) = true -> (0 <? b) = true.
Proof.
  rewrite !ltb_spec, Prim2SF_zero. unfold SFltb.
  destruct (Prim2SF a) as [sa | sa | | sa ma ea], (Prim2SF b) as [sb | sb | | sb mb eb];
    simpl; try discriminate; try (destruct sa; discriminate);
    try (destruct sb; discriminate); try (destruct sa, sb; discriminate); auto.
  destruct sa, sb; simpl; try discriminate; auto.
Qed.

Lemma app_nil_iff {A : Type} (l1 l2 : list A) : l1 ++ l2 = [] <-> l1 = [] /\ l2 = [].
Proof.
  split; [apply app_eq_nil | intros [-> ->]; reflexivity].
Qed.

Lemma ite_nil_iff {A : Type} (b : bool) (x : A) : (if b then [x] else []) = [] <-> b = false.
Proof. destruct b; simpl; split; intros H; (reflexivity || discriminate). Qed.

Lemma length_pos_nil {A : Type} (l : list A) : Nat.ltb 0 (List.length l) = false <-> l = [].
Proof.
  destruct l; simpl; split; intros H; (reflexivity || discriminate).
Qed.

End OptimizationGate.

(** X4: [validateOptimizationTargets] on a target none of whose fields is
    NaN returns no message exactly when
    [0 < minEffectiveConc < maxSafeConc] and [0 < targetTOverMIC <= 100].
    So a target T>MIC between 0 and 1 is accepted, and the check of
    [maxSafeConc] alone adds nothing to the other three. *)
Theorem validateOptimizationTargets_nil (t : OptimizationTarget) :
  is_nan (minEffectiveConc t) = false ->
  is_nan (maxSafeConc t) = false ->
  is_nan (targetTOverMIC t) = false ->
  (validateOptimizationTargets t = []
   <-> ((0 <? minEffectiveConc t) && (minEffectiveConc t <? maxSafeConc t)
        && (0 <? targetTOverMIC t) && (targetTOverMIC t <=? 100))%float = true).
Proof.
  intros N1 N2 N3. unfold validateOptimizationTargets.
  rewrite !app_nil_iff, !ite_nil_iff, !andb_true_iff, orb_false_iff.
  rewrite (ltb_negb_leb 0 (minEffectiveConc t)) by (reflexivity || assumption).
  rewrite (ltb_negb_leb (minEffectiveConc t) (maxSafeConc t)) by assumption.
  rewrite (ltb_negb_leb 0 (targetTOverMIC t)) by (reflexivity || assumption).
  rewrite (leb_negb_ltb (targetTOverMIC t) 100) by (reflexivity || assumption).
  rewrite !negb_true_iff.
  split.
  - intros (H1 & H2 & H3 & H4 & H5). auto.
  - intros (((H1 & H3) & H4) & H5). repeat split; auto.
    rewrite (leb_negb_ltb (maxSafeConc t) 0) by (reflexivity || assumption).
    apply negb_false_iff.
    apply (ltb_pos_trans (minEffectiveConc t)).
    + rewrite ltb_negb_leb by (reflexivity || assumption). now rewrite H1.
    + rewrite ltb_negb_leb by assumption. now rewrite H3.
Qed.

(** The target (2, 50, 0.5): accepted, with a target T>MIC below 1. *)
Lemma validateOptimizationTargets_nil_witness :
  validateOptimizationTargets
    {| minEffectiveConc := 2; maxSafeConc := 50; targetTOverMIC := 0.5 |} = []
  <-> ((0 <? 2) && (2 <? 50) && (0 <? 0.5) && (0.5 <=? 100))%float = true.
Proof.
  apply (validateOptimizationTargets_nil
           {| minEffectiveConc := 2; maxSafeConc := 50; targetTOverMIC := 0.5 |});
    vm_compute; reflexivity.
Defined.

(** X5: [runOptimization] leaves the error list empty exactly when both
    regimens and the target pass validation; only then does it store the
    answer of [calculateOptimization] and open the panel.  When a regimen
    fails, the list is the drug's messages prefixed with "Drug: " followed by
    the inhibitor's prefixed with "Inhibitor: ", and the target is not
    looked at; when only the target fails, the list is the target's messages.
    In both cases the stored recommendation and the panel flag stay as they
    were.  The target is never changed. *)
Theorem runOptimization_gate (M : MathLib) (st : State)
    (drugParams inhibitorParams : DrugParams float) (p : Panel) :
  let drugErrors := validateDrugParams (N := FloatNum M) drugParams in
  let inhibitorErrors := validateInhibitorParams (N := FloatNum M) inhibitorParams in
  let targetErrors := validateOptimizationTargets (optimizationTarget p) in
  let p' := runOptimization M st drugParams inhibitorParams p in
  optimizationTarget p' = optimizationTarget p
  /\ (optimizationErrors p' = []
      <-> drugErrors = [] /\ inhibitorErrors = [] /\ targetErrors = [])
  /\ (optimizationErrors p' = [] ->
      optimizationResult p'
      = calculateOptimization M st drugParams (optimizationTarget p)
      /\ showOptimization p' = true)
  /\ (optimizationErrors p' <> [] ->
      optimizationResult p' = optimizationResult p
      /\ showOptimization p' = showOptimization p)
  /\ (drugErrors <> [] \/ inhibitorErrors <> [] ->
      optimizationErrors p'
      = map (fun err => ("Drug: " ++ err)%string) drugErrors
        ++ map (fun err => ("Inhibitor: " ++ err)%string) inhibitorErrors)
  /\ (drugErrors = [] -> inhibitorErrors = [] -> optimizationErrors p' = targetErrors).
Proof.
  intros drugErrors inhibitorErrors targetErrors p'.
  unfold p', runOptimization.
  fold drugErrors. fold inhibitorErrors. fold targetErrors.
  destruct drugErrors as [ | d ds], inhibitorErrors as [ | i il];
    try destruct targetErrors as [ | e es]; simpl;
    repeat split; auto; try congruence;
    try (intros [H | H]; congruence);
    try (intros (H1 & H2 & H3); discriminate).
Qed.

(* ================================================================= *)
(** ** Further properties: the recommendation *)

Section OptimizerFacts.

Variable M : MathLib.
Local Open Scope float_scope.

Lemma calculateOptimization_inv (st : State) (drugParams : DrugParams float)
    (target : OptimizationTarget) (rec : OptimizationRecommendation) :
  calculateOptimization M st drugParams target = Some rec ->
  exists res, results st = Some res /\ chartData st <> [].
Proof.
  unfold calculateOptimization. destruct (results st) as [res | ]; [ | discriminate].
  destruct (chartData st) as [ | d ds]; simpl; [discriminate | ].
  intros _. exists res. split; [reflexivity | discriminate].
Qed.

(** The ratio rules change the interval or the dose, never both. *)
Lemma ratioRules_one_change (ci cd ct peak trough : float) (target : OptimizationTarget) :
  p_recommendedInterval (ratioRules ci cd ct peak trough target) = ci
  \/ p_recommendedDose (ratioRules ci cd ct peak trough target) = cd.
Proof.
  unfold ratioRules.
  repeat match goal with
         | |- context [if ?b then _ else _] => destruct b
         end; simpl; auto.
Qed.

(** Counting up from a small integer stays on the integers. *)
Lemma of_nat_succ (k : nat) : (k < 11)%nat -> JS.of_nat k + 1 = JS.of_nat (S k).
Proof.
  intros H.
  do 11 (destruct k as [ | k]; [vm_compute; reflexivity | ]).
  lia.
Qed.

Lemma count_steps (g : float -> nat -> float) :
  (forall c i, g c i = c + 1 \/ g c i = c) ->
  forall (l : list nat) (k0 : nat),
    (k0 + List.length l <= 11)%nat ->
    exists k, (k <= 11)%nat /\ fold_left g l (JS.of_nat k0) = JS.of_nat k.
Proof.
  intros Hg. induction l as [ | i l IH]; intros k0 Hk; simpl.
  - exists k0. split; [simpl in Hk; lia | reflexivity].
  - simpl in Hk. destruct (Hg (JS.of_nat k0) i) as [E | E]; rewrite E.
    + rewrite of_nat_succ by lia. apply IH. simpl. lia.
    + apply IH. lia.
Qed.

Lemma timeAboveMicEstimate_count (drugParams : DrugParams float)
    (ri peak trough k avgMIC : float) :
  exists n, (n <= 11)%nat
            /\ timeAboveMicEstimate M drugParams ri peak trough k avgMIC = JS.of_nat n.
Proof.
  unfold timeAboveMicEstimate.
  change 0 with (JS.of_nat 0) at 1.
  apply count_steps; [ | simpl; lia].
  intros c i. cbv zeta.
  match goal with |- context [if ?b then _ else _] => destruct b end; auto.
Qed.

End OptimizerFacts.

(** X6: [calculateOptimization] changes the dosing interval or the peak
    concentration, never both: one of the two recommended values is the
    current value rounded to one decimal. *)
Theorem optimizer_changes_one (M : MathLib) (st : State) (drugParams : DrugParams float)
    (target : OptimizationTarget) (rec : OptimizationRecommendation) :
  calculateOptimization M st drugParams target = Some rec ->
  recommendedInterval rec
  = (JS.Math_round (dosingInterval drugParams * 10) / 10)%float
  \/ recommendedDose rec
     = (JS.Math_round (maxConcentration drugParams * 10) / 10)%float.
Proof.
  intros Hrec.
  destruct (calculateOptimization_inv M st drugParams target rec Hrec) as (res & Hres & Hne).
  destruct (calculateOptimization_Some M st drugParams target res Hres Hne)
    as (rec' & Hrec' & Hi & Hd & _).
  assert (rec' = rec) by congruence. subst rec'.
  cbv zeta in Hi, Hd.
  match type of Hi with
  | context [safetyChecks ?pk ?tr ?tg ?pl] =>
      destruct (safetyChecks_fields pk tr tg pl) as [Ei Ed]
  end.
  rewrite Ei in Hi. rewrite Ed in Hd.
  match type of Hi with
  | context [ratioRules ?a ?b ?c ?d ?e ?f] =>
      destruct (ratioRules_one_change a b c d e f) as [E | E]
  end.
  - left. rewrite Hi, E. reflexivity.
  - right. rewrite Hd, E. reflexivity.
Qed.

(** The default regimen sampled hourly, against the tight target: the
    recommendation keeps both values (interval 24, dose 100). *)
Lemma optimizer_changes_one_witness :
  exists rec,
    calculateOptimization RefMath.lib (Ex.stateAfter Ex.drug Ex.simHourly)
      Ex.drug Ex.targetTight = Some rec
    /\ (recommendedInterval rec
        = (JS.Math_round (dosingInterval Ex.drug * 10) / 10)%float
        \/ recommendedDose rec
           = (JS.Math_round (maxConcentration Ex.drug * 10) / 10)%float).
Proof.
  eexists. split; [vm_compute; reflexivity | ].
  apply (optimizer_changes_one RefMath.lib (Ex.stateAfter Ex.drug Ex.simHourly)
           Ex.drug Ex.targetTight).
  vm_compute. reflexivity.
Defined.

(** X7: the expected T>MIC of a recommendation is a count of at most 11
    probe points out of 11, as a percentage rounded to one decimal: it is one
    of twelve values between 0 and 100. *)
Theorem expectedTOverMIC_values (M : MathLib) (st : State) (drugParams : DrugParams float)
    (target : OptimizationTarget) (rec : OptimizationRecommendation) :
  calculateOptimization M st drugParams target = Some rec ->
  In (expectedTOverMIC rec)
     [0; 9.1; 18.2; 27.3; 36.4; 45.5; 54.5; 63.6; 72.7; 81.8; 90.9; 100]%float.
Proof.
  unfold calculateOptimization.
  destruct (results st) as [res | ]; [ | discriminate].
  destruct (Nat.eqb (List.length (chartData st)) 0); [discriminate | ].
  cbv zeta. intros H. injection H as H. rewrite <- H. cbn [expectedTOverMIC].
  match goal with
  | |- context [timeAboveMicEstimate M ?a ?b ?c ?d ?e ?f] =>
      destruct (timeAboveMicEstimate_count M a b c d e f) as (n & Hn & ->)
  end.
  do 12 (destruct n as [ | n]; [vm_compute; tauto | ]).
  lia.
Qed.

Lemma expectedTOverMIC_values_witness :
  exists rec,
    calculateOptimization RefMath.lib (Ex.stateAfter Ex.drug Ex.simHourly)
      Ex.drug Ex.targetTight = Some rec
    /\ In (expectedTOverMIC rec)
          [0; 9.1; 18.2; 27.3; 36.4; 45.5; 54.5; 63.6; 72.7; 81.8; 90.9; 100]%float.
Proof.
  eexists. split; [vm_compute; reflexivity | ].
  apply (expectedTOverMIC_values RefMath.lib (Ex.stateAfter Ex.drug Ex.simHourly)
           Ex.drug Ex.targetTight).
  vm_compute. reflexivity.
Defined.

(* ================================================================= *)
(** ** Further properties: every cycle sampled, in exact arithmetic *)



(* ================================================================= *)
(** ** Further properties: what a run commits *)

(** X9: [runSimulation] commits all of a run or nothing.  A run that
    returns always stores both message lists.  If validation passes, the run
    id is a number and the component is mounted, the run completes the
    computation and replaces the summary, the time series and the cycle
    metrics together, whatever they were, and clears the loading flag;
    otherwise (validation fails, or the run is discarded) all three stay as
    they were. *)
Theorem runSimulation_commit (M : MathLib)
    (drugParams inhibitorParams : DrugParams float) (pdParams : PDParams float)
    (simParams : SimParams float) (runId : float) (fuel : nat) (st st' : State) :
  runSimulation M drugParams inhibitorParams pdParams simParams runId fuel st = Done st' ->
  isMounted st' = isMounted st
  /\ drugValidationErrors st' = validateDrugParams (N := FloatNum M) drugParams
  /\ inhibitorValidationErrors st'
     = validateInhibitorParams (N := FloatNum M) inhibitorParams
  /\ if negb (validationFails (N := FloatNum M) drugParams inhibitorParams simParams)
        && negb (is_nan runId) && isMounted st
     then
       exists c,
         compute (N := FloatNum M) drugParams inhibitorParams pdParams simParams fuel
         = Done c
         /\ results st' = Some (formatResults M drugParams inhibitorParams c)
         /\ chartData st' = formatChartData (arrays c)
         /\ cycleResults st' = cycleResultsData c
         /\ isSimulating st' = false
         /\ latestRunId st' = runId
     else
       results st' = results st
       /\ chartData st' = chartData st
       /\ cycleResults st' = cycleResults st.
Proof.
  unfold runSimulation. intros H.
  assert (Hid : (runId =? runId)%float = negb (is_nan runId)).
  { unfold is_nan. now rewrite negb_involutive. }
  destruct (validationFails drugParams inhibitorParams simParams).
  - inversion H; subst; clear H. simpl. repeat split; reflexivity.
  - destruct (compute drugParams inhibitorParams pdParams simParams fuel) as [c | | ] eqn:E;
      try discriminate.
    rewrite Hid in H. simpl negb at 1. rewrite andb_true_l.
    destruct (negb (is_nan runId)); simpl in H |- *.
    + destruct (isMounted st) eqn:Em; simpl in H; inversion H; subst; clear H; simpl.
      * repeat split; auto. exists c. repeat split; reflexivity.
      * repeat split; auto.
    + inversion H; subst; clear H. simpl. repeat split; reflexivity.
Qed.

(** The default run from the initial state commits. *)
Lemma runSimulation_commit_witness :
  exists st',
    runSimulation RefMath.lib Ex.drug Ex.inhibitor Ex.pd Ex.simCoarse 1 10 initialState
    = Done st'
    /\ exists c,
         compute (N := FloatNum RefMath.lib) Ex.drug Ex.inhibitor Ex.pd Ex.simCoarse 10
         = Done c
         /\ results st' = Some (formatResults RefMath.lib Ex.drug Ex.inhibitor c)
         /\ chartData st' = formatChartData (arrays c)
         /\ cycleResults st' = cycleResultsData c
         /\ isSimulating st' = false
         /\ latestRunId st' = 1%float.
Proof.
  eexists. split; [vm_compute; reflexivity | ].
  refine (proj2 (proj2 (proj2
           (runSimulation_commit RefMath.lib Ex.drug Ex.inhibitor Ex.pd Ex.simCoarse
              1%float 10 initialState _ _)))).
  vm_compute. reflexivity.
Defined.

(* ================================================================= *)
(** ** Further properties: the chart zoom *)

Section ZoomFacts.

Local Open Scope float_scope.

Lemma Math_min_not_nan (a b : float) :
  is_nan (JS.Math_min a b) = false -> is_nan a = false /\ is_nan b = false.
Proof.
  unfold JS.Math_min. destruct (is_nan a), (is_nan b); simpl; intros H;
    try discriminate; auto.
Qed.

Lemma Math_min_max_nan (a b : float) :
  is_nan (JS.Math_min a b) = is_nan (JS.Math_max a b).
Proof.
  unfold JS.Math_min, JS.Math_max.
  destruct (is_nan a) eqn:Ea, (is_nan b) eqn:Eb; simpl; try reflexivity.
  destruct (a <? b), (b <? a), (get_sign a); congruence.
Qed.

(** The smaller of two numbers is at most the larger. *)
Lemma Math_min_le_max (a b : float) :
  is_nan a = false -> is_nan b = false ->
  (JS.Math_min a b <=? JS.Math_max a b) = true.
Proof.
  intros Ha Hb.
  destruct (Math_min_cases a b Ha Hb) as (_ & Hla & Hlb).
  destruct (Math_max_cases a b Ha Hb) as ([E | E] & _ & _); rewrite E; assumption.
Qed.

End ZoomFacts.

(** X10: releasing the mouse always ends the drag: both reference marks are
    cleared and the component leaves zoom mode.  The zoom window either stays
    as it was, or it becomes the window of the drag; the latter happens only
    when both marks were set, the drag is not narrower than 0.5 h and the
    chart has a sample inside it, and the new window then runs from the
    smaller to the larger of the two marks, whichever way the drag went. *)
Theorem zoom_release (chartData : list ChartDataPoint) (z : Zoom) :
  let z' := handleZoomMouseUp chartData z in
  refAreaLeft z' = None /\ refAreaRight z' = None /\ isZooming z' = false
  /\ (zoomDomain z' = zoomDomain z
      \/ exists l r d p,
           refAreaLeft z = Some l /\ refAreaRight z = Some r
           /\ zoomDomain z' = Some d
           /\ z_left d = JS.Math_min l r /\ z_right d = JS.Math_max l r
           /\ (z_left d <=? z_right d)%float = true
           /\ (z_right d - z_left d <? 0.5)%float = false
           /\ In p chartData
           /\ (z_left d <=? time p)%float = true
           /\ (time p <=? z_right d)%float = true).
Proof.
  unfold handleZoomMouseUp.
  destruct (refAreaLeft z) as [l | ]; [ | simpl; auto].
  destruct (refAreaRight z) as [r | ]; [ | simpl; auto].
  cbv zeta.
  destruct (JS.Math_max l r - JS.Math_min l r <? 0.5)%float eqn:Ew; [simpl; auto | ].
  match goal with
  | |- context [filter ?f chartData] => destruct (filter f chartData) as [ | p ps] eqn:Ef
  end; [simpl; auto | ].
  simpl. repeat split. right.
  assert (Hp : In p (p :: ps)) by (left; reflexivity).
  rewrite <- Ef in Hp. apply filter_In in Hp. destruct Hp as [Hin Hp].
  apply andb_true_iff in Hp. destruct Hp as [H1 H2].
  destruct (leb_true_not_nan _ _ H1) as [Hn _].
  destruct (Math_min_not_nan l r Hn) as [Hl Hr].
  eexists l, r, _, p. simpl.
  repeat split; try reflexivity; try assumption.
  now apply Math_min_le_max.
Qed.

Section MinMaxComm.

Local Open Scope float_scope.

Lemma get_sign_spec (f : float) : get_sign f = sf_sign (Prim2SF f).
Proof.
  unfold get_sign, is_zero, zero, one. cbv zeta.
  destruct (f =? 0) eqn:E.
  - rewrite ltb_spec, div_spec, Prim2SF_zero.
    rewrite eqb_spec, Prim2SF_zero in E. unfold SFeqb in E.
    change (Prim2SF 1) with (S754_finite false 4503599627370496 (-52)).
    destruct (Prim2SF f) as [s | s | | s m e]; simpl in *; try discriminate;
      now destruct s.
  - rewrite ltb_spec, Prim2SF_zero.
    rewrite eqb_spec, Prim2SF_zero in E. unfold SFeqb in E.
    destruct (Prim2SF f) as [s | s | | s m e]; simpl in *; try discriminate;
      try reflexivity; now destruct s.
Qed.

(** Two numbers that compare equal and have the same sign are the same
    number. *)
Lemma compare_eq_same_sign (a b : float) :
  is_nan a = false -> is_nan b = false ->
  (a <? b) = false -> (b <? a) = false ->
  get_sign a = get_sign b -> a = b.
Proof.
  rewrite !is_nan_spec, !get_sign_spec, !ltb_spec. unfold SFltb.
  rewrite (SFcompare_antisym (Prim2SF a) (Prim2SF b)).
  intros Ha Hb H1 H2 Hs. apply Prim2SF_inj.
  destruct (Prim2SF a) as [sa | sa | | sa ma ea], (Prim2SF b) as [sb | sb | | sb mb eb];
    simpl in *; try discriminate; try (subst; reflexivity);
    try (destruct sa; discriminate); try (destruct sb; discriminate);
    try (destruct sa, sb; discriminate).
  subst sb.
  destruct sa.
  - destruct (ea ?= eb)%Z eqn:Ee; simpl in *; try discriminate.
    apply Z.compare_eq in Ee. subst eb.
    destruct (Pos.compare_cont Eq ma mb) eqn:Em; simpl in *; try discriminate.
    apply Pos.compare_eq in Em. now subst mb.
  - destruct (ea ?= eb)%Z eqn:Ee; simpl in *; try discriminate.
    apply Z.compare_eq in Ee. subst eb.
    destruct (Pos.compare_cont Eq ma mb) eqn:Em; simpl in *; try discriminate.
    apply Pos.compare_eq in Em. now subst mb.
Qed.

Lemma ltb_asym (a b : float) : (a <? b) = true -> (b <? a) = false.
Proof.
  rewrite !ltb_spec. unfold SFltb.
  rewrite (SFcompare_antisym (Prim2SF a) (Prim2SF b)).
  destruct (SFcompare (Prim2SF a) (Prim2SF b)) as [[ | | ] | ]; simpl; congruence.
Qed.

Lemma Math_min_comm (a b : float) : JS.Math_min a b = JS.Math_min b a.
Proof.
  unfold JS.Math_min.
  destruct (is_nan a) eqn:Ha, (is_nan b) eqn:Hb; simpl; try reflexivity.
  destruct (a <? b) eqn:Eab.
  - now rewrite (ltb_asym a b Eab).
  - destruct (b <? a) eqn:Eba; [reflexivity | ].
    destruct (get_sign a) eqn:Sa, (get_sign b) eqn:Sb; try reflexivity.
    + apply compare_eq_same_sign; congruence.
    + symmetry. apply compare_eq_same_sign; congruence.
Qed.

Lemma Math_max_comm (a b : float) : JS.Math_max a b = JS.Math_max b a.
Proof.
  unfold JS.Math_max.
  destruct (is_nan a) eqn:Ha, (is_nan b) eqn:Hb; simpl; try reflexivity.
  destruct (a <? b) eqn:Eab.
  - now rewrite (ltb_asym a b Eab).
  - destruct (b <? a) eqn:Eba; [reflexivity | ].
    destruct (get_sign a) eqn:Sa, (get_sign b) eqn:Sb; try reflexivity.
    + symmetry. apply compare_eq_same_sign; congruence.
    + apply compare_eq_same_sign; congruence.
Qed.

End MinMaxComm.

(** X11: a drag from right to left selects the same window as the drag from
    left to right between the same two marks. *)
Theorem zoom_drag_direction (chartData : list ChartDataPoint)
    (d : option ZoomDomain) (l r : float) (zooming : bool) :
  handleZoomMouseUp chartData
    {| zoomDomain := d; refAreaLeft := Some l; refAreaRight := Some r;
       isZooming := zooming |}
  = handleZoomMouseUp chartData
      {| zoomDomain := d; refAreaLeft := Some r; refAreaRight := Some l;
         isZooming := zooming |}.
Proof.
  unfold handleZoomMouseUp. simpl.
  rewrite (Math_min_comm r l), (Math_max_comm r l). reflexivity.
Qed.

(* ================================================================= *)
(** ** Further properties: the AUC integrator on arrays of unequal length *)

Section AucLengths.

Local Open Scope float_scope.

Lemma div_nan_l (x : float) : nan / x = nan.
Proof.
  apply Prim2SF_inj. rewrite div_spec, Prim2SF_nan. reflexivity.
Qed.

Lemma mul_nan_l (x : float) : nan * x = nan.
Proof.
  apply Prim2SF_inj. rewrite mul_spec, Prim2SF_nan. reflexivity.
Qed.

Lemma fold_left_agree {A B : Type} (f g : A -> B -> A) (l : list B) :
  (forall a b, In b l -> f a b = g a b) ->
  forall a, fold_left f l a = fold_left g l a.
Proof.
  induction l as [ | b l IH]; intros H a; [reflexivity | ].
  simpl. rewrite (H a b) by (left; reflexivity).
  apply IH. intros a' b' Hb. apply H. now right.
Qed.

End AucLengths.

(** X12: [calculateAUC] reads the concentrations at the indices of the time
    points only.  Concentrations beyond the last time point are ignored (any
    arithmetic); in binary64, when there are at least two time points and
    fewer concentrations than time points, the last trapezoid reads
    [undefined] and the result is NaN. *)
Theorem calculateAUC_lengths :
  (forall (num : Type) (N : Num num) (tp cs more : list num),
      List.length tp <= List.length cs ->
      calculateAUC tp (cs ++ more) = calculateAUC tp cs)
  /\ (forall (M : MathLib) (tp cs : list float),
         2 <= List.length tp -> List.length cs < List.length tp ->
         calculateAUC (N := FloatNum M) tp cs = nan).
Proof.
  split.
  - intros num N tp cs more Hlen. unfold calculateAUC.
    apply fold_left_agree. intros a i Hi. apply in_seq in Hi.
    unfold aucStep. rewrite !app_nth1 by lia. reflexivity.
  - intros M tp cs H2 Hlt. unfold calculateAUC.
    replace (List.length tp - 1) with (S (List.length tp - 2)) by lia.
    rewrite seq_S, fold_left_app. cbn [fold_left]. unfold aucStep at 1.
    cbn [n_add n_sub n_mul n_div n_undef FloatNum].
    rewrite (nth_overflow cs (n := 1 + (List.length tp - 2))) by lia.
    change JS.NaN with nan.
    rewrite add_nan_r, div_nan_l, mul_nan_l, add_nan_r. reflexivity.
Qed.

(** Three time points with two concentrations, and with four. *)
Lemma calculateAUC_lengths_witness :
  calculateAUC (N := FloatNum RefMath.lib) [0; 1; 2]%float [3; 3]%float = nan
  /\ calculateAUC (N := FloatNum RefMath.lib) [0; 1; 2]%float ([3; 3; 3] ++ [7])%float
     = calculateAUC (N := FloatNum RefMath.lib) [0; 1; 2]%float [3; 3; 3]%float.
Proof.
  destruct calculateAUC_lengths as [Hmore Hfewer].
  split.
  - apply (Hfewer RefMath.lib); simpl; lia.
  - apply (Hmore float (FloatNum RefMath.lib)). simpl. lia.
Defined.

(* ================================================================= *)
(** ** Further properties: the concentration curve in exact arithmetic *)

Section ExactCurve.

Import Exact.
Local Open Scope R_scope.



Variable p : DrugParams R.

Local Abbreviation di := (dosingInterval p).
Local Abbreviation it := (infusionTime p).
Local Abbreviation mx := (maxConcentration p).
Local Abbreviation k := (kDrug (N := RealNum) p).
Local Abbreviation trough := (drugMinConc (N := RealNum) p).
Local Abbreviation conc := (drugConcAt (N := RealNum) p).

Hypothesis di_pos : 0 < di.
Hypothesis it_pos : 0 < it.
Hypothesis it_le : it <= di.
Hypothesis hl_pos : 0 < halfLife p.
Hypothesis mx_pos : 0 < mx.











End ExactCurve.






